(** * The weather pipeline and its dashboard

    A shallow embedding of [dags/weather_pipeline.py] (extract, transform,
    load) and of the read path of [app.py] (series query, latest row, hourly
    resampling, unit conversion), with the properties the specification
    states about them.

    Conventions of the embedding:
    - a Python [float] is an IEEE binary64 number (Rocq's primitive floats);
    - a Python object read from JSON, held in a DataFrame cell or returned by
      the database is a [value];
    - a one-row DataFrame (and a row of a query result) is a [frame]: the
      ordered list of its columns with the cell of each;
    - a Python exception is [Raise e]; a function that can raise returns a
      [result];
    - the wall clock is an argument ([now]), the database is an explicit
      state ([db]) that the pipeline threads through. *)

From Stdlib Require Import ZArith Ascii String List Floats QArith Lqa Permutation Sorted
  DecimalString.
From stdpp Require Import gmap strings list fin_maps.

Set Warnings "-inexact-float,-register-all".
Open Scope Z_scope.

(** ** Python values and exceptions *)

Inductive value : Type :=
  | VNone
  | VBool (b : bool)
  | VInt (z : Z)
  | VFloat (f : float)
  | VStr (s : string)
  | VList (l : list value)
  | VDict (d : list (string * value))
  | VTimestamp (ns : Z).

(** The exceptions the modelled code can end with.  [OutsideModel] is not a
    Python exception: the embedding returns it where what happens is decided
    inside pandas or the database on inputs the provider never sends (a
    sunrise that is not an integer, a list stored into a cell, ...), and no
    theorem below concludes it. *)
Inductive exn : Type :=
  | KeyError (key : string)
  | IndexError
  | TypeError
  | OutOfBoundsDatetime
  | InvalidSchemaName (schema : string)
  | UndefinedTable (table : string)
  | UndefinedColumn (column : string)
  | NotNullViolation (column : string)
  | NumericValueOutOfRange
  | UnicodeEncodeError
  | OutsideModel.

Inductive result (A : Type) : Type :=
  | Ok (a : A)
  | Raise (e : exn).
Arguments Ok {A} a.
Arguments Raise {A} e.

#[global] Instance result_ret : MRet result := fun A a => Ok a.
#[global] Instance result_bind : MBind result := fun A B f m =>
  match m with
  | Ok a => f a
  | Raise e => Raise e
  end.

Definition is_ok {A} (r : result A) : bool :=
  match r with Ok _ => true | Raise _ => false end.

(** ** Numbers *)

Definition int64_min : Z := - 2 ^ 63.
Definition int64_max : Z := 2 ^ 63 - 1.

Definition in_int64 (z : Z) : bool := (int64_min <=? z) && (z <=? int64_max).

(** Addition of two [int64] columns: numpy wraps around silently. *)
Definition int64_add (a b : Z) : Z := (a + b + 2 ^ 63) mod 2 ^ 64 - 2 ^ 63.

(** The cast of an [int64] column to [float64], taken when an integer column
    meets a Python float. *)
Definition float_of_int64 (z : Z) : float :=
  if z =? int64_min then (-9223372036854775808)%float
  else if z <? 0 then PrimFloat.opp (PrimFloat.of_uint63 (Uint63.of_Z (- z)))
  else PrimFloat.of_uint63 (Uint63.of_Z z).

(** ** Strings *)

(** [sub in s] *)
Fixpoint str_contains (sub s : string) : bool :=
  String.prefix sub s ||
  match s with
  | EmptyString => false
  | String _ s' => str_contains sub s'
  end.

(** [s.replace(old, new)] for a non-empty [old]: the occurrences are taken
    from the left and do not overlap.  [skip] counts the characters of an
    occurrence still to pass over. *)
Fixpoint replace_from (old new s : string) (skip : nat) : string :=
  match s with
  | EmptyString => EmptyString
  | String c s' =>
      match skip with
      | S n => replace_from old new s' n
      | O =>
          if String.prefix old s
          then String.append new (replace_from old new s' (String.length old - 1))
          else String c (replace_from old new s' 0)
      end
  end.

Definition str_replace (old new s : string) : string := replace_from old new s 0.

(** ** The display conversion ([app.py]) *)

(** [def c_to_f(value_c): return value_c * 9.0 / 5.0 + 32.0] *)
Definition c_to_f (value_c : float) : float := (value_c * 9.0 / 5.0 + 32.0)%float.


(** [temp_display = c_to_f(temp_c) if use_fahrenheit else temp_c], the
    conditional [render_hero], [render_detail_cards] and the charts apply to
    every temperature they show. *)
Definition temp_display (temp_c : float) (use_fahrenheit : bool) : float :=
  if use_fahrenheit then c_to_f temp_c else temp_c.

(** ** Frames: one-row DataFrames and Python dicts *)

(** The columns of a one-row DataFrame in their order, each with its cell.
    A Python dict with string keys has the same shape. *)
Definition frame : Type := list (string * value).

Definition columns (df : frame) : list string := map fst df.

(** [d.get(k)] *)
Fixpoint frame_get (k : string) (df : frame) : option value :=
  match df with
  | [] => None
  | (c, v) :: df' => if String.eqb c k then Some v else frame_get k df'
  end.

(** [k in df.columns] *)
Definition has_col (k : string) (df : frame) : bool :=
  match frame_get k df with Some _ => true | None => false end.

(** [df[k]], [d[k]] *)
Definition getitem (k : string) (df : frame) : result value :=
  match frame_get k df with
  | Some v => Ok v
  | None => Raise (KeyError k)
  end.

(** [df[k] = v], [d[k] = v]: an existing column keeps its place, a new one
    goes last. *)
Fixpoint frame_set (k : string) (v : value) (df : frame) : frame :=
  match df with
  | [] => [(k, v)]
  | (c, w) :: df' =>
      if String.eqb c k then (c, v) :: df' else (c, w) :: frame_set k v df'
  end.

(** [{**d1, **d2}] *)
Definition frame_update (d1 d2 : frame) : frame :=
  fold_left (fun acc kv => frame_set (fst kv) (snd kv) acc) d2 d1.

(** [df[cols]] *)
Fixpoint frame_select (cols : list string) (df : frame) : result frame :=
  match cols with
  | [] => Ok []
  | k :: cols' =>
      v ← getitem k df;
      rest ← frame_select cols' df;
      Ok ((k, v) :: rest)
  end.

(** [mapping.get(c, c)] *)
Fixpoint renamed (mapping : list (string * string)) (c : string) : string :=
  match mapping with
  | [] => c
  | (k, n) :: mapping' => if String.eqb k c then n else renamed mapping' c
  end.

(** [df.rename(columns=mapping)] *)
Definition frame_rename (mapping : list (string * string)) (df : frame) : frame :=
  map (fun cv => (renamed mapping (fst cv), snd cv)) df.

(** ** [pd.json_normalize] on one JSON object *)

Definition is_dict (v : value) : bool :=
  match v with VDict _ => true | _ => false end.

(** [f"{key_string}{separator}{key}"], without the leading separator when
    [key_string] is empty. *)
Definition new_key (key_string key : string) : string :=
  match key_string with
  | EmptyString => key
  | _ => String.append key_string (String.append "." key)
  end.

(** pandas' [_normalise_json]: nested objects are walked, every other value
    is stored under the dotted path that leads to it. *)
Fixpoint _normalise_json (data : value) (key_string : string)
    (normalized_dict : frame) : frame :=
  match data with
  | VDict d =>
      (fix items (d : list (string * value)) (acc : frame) : frame :=
         match d with
         | [] => acc
         | (key, v) :: d' => items d' (_normalise_json v (new_key key_string key) acc)
         end) d normalized_dict
  | _ => frame_set key_string data normalized_dict
  end.

(** pandas' [_normalise_json_ordered]: the top-level scalars first, then the
    flattened nested objects. *)
Definition _normalise_json_ordered (data : list (string * value)) : frame :=
  let top_dict_ := frame_update [] (List.filter (fun kv => negb (is_dict (snd kv))) data) in
  let nested_dict_ :=
    _normalise_json (VDict (List.filter (fun kv => is_dict (snd kv)) data)) "" [] in
  frame_update top_dict_ nested_dict_.

(** [pd.json_normalize(data)] for the document of one observation.  A
    document that is not an object is not an observation. *)
Definition json_normalize (data : value) : result frame :=
  match data with
  | VDict d => Ok (_normalise_json_ordered d)
  | _ => Raise OutsideModel
  end.

(** ** The operations [transform] applies to cells *)

(** [v[0]] *)
Definition index0 (v : value) : result value :=
  match v with
  | VList (x :: _) => Ok x
  | VList [] => Raise IndexError
  | VStr (String c _) => Ok (VStr (String c EmptyString))
  | VStr EmptyString => Raise IndexError
  | VDict _ => Raise (KeyError "0")
  | _ => Raise TypeError
  end.

(** [v[k]] for a string [k] *)
Definition subscript (v : value) (k : string) : result value :=
  match v with
  | VDict d => getitem k d
  | _ => Raise TypeError
  end.

(** [df[k] = v] for a scalar [v], broadcast to the single row. *)
Definition set_scalar (k : string) (v : value) (df : frame) : result frame :=
  match v with
  | VList _ | VDict _ => Raise OutsideModel
  | _ => Ok (frame_set k v df)
  end.

(** [f"https://openweathermap.org/img/wn/{icon}@2x.png"] *)
Definition icon_url (icon : value) : result value :=
  match icon with
  | VStr s =>
      Ok (VStr (String.append "https://openweathermap.org/img/wn/" (String.append s "@2x.png")))
  | _ => Raise OutsideModel
  end.

(** [a + b] on two columns of epoch seconds. *)
Definition series_add (a b : value) : result value :=
  match a, b with
  | VInt x, VInt y =>
      if in_int64 x && in_int64 y then Ok (VInt (int64_add x y)) else Raise OutsideModel
  | _, _ => Raise OutsideModel
  end.

(** A [pd.Timestamp] counts nanoseconds since the epoch in an [int64]; the
    least [int64] is kept for [NaT]. *)
Definition timestamp_min : Z := int64_min + 1.
Definition timestamp_max : Z := int64_max.

Definition in_timestamp_range (ns : Z) : bool :=
  (timestamp_min <=? ns) && (ns <=? timestamp_max).

(** The timestamp that lies [s] seconds after the epoch. *)
Definition timestamp_from_epoch_seconds (s : Z) : Z := s * 1000000000.

(** [pd.to_datetime(col, unit='s')] on an integer column. *)
Definition to_datetime_s (v : value) : result value :=
  match v with
  | VInt s =>
      if s =? int64_min then Raise OutsideModel
      else if in_timestamp_range (timestamp_from_epoch_seconds s)
      then Ok (VTimestamp (timestamp_from_epoch_seconds s))
      else Raise OutOfBoundsDatetime
  | _ => Raise OutsideModel
  end.

(** pandas' [round_nsint64] in the mode [NEAREST_HALF_EVEN]. *)
Definition round_nearest (values unit : Z) : Z :=
  let quotient := values / unit in
  let remainder := values mod unit in
  let mask :=
    (remainder >? unit / 2) || ((remainder =? unit / 2) && Z.odd quotient) in
  let res := values - remainder in
  if mask then res + unit else res.

(** [col.dt.round('ms')] *)
Definition dt_round_ms (v : value) : result value :=
  match v with
  | VTimestamp ns => Ok (VTimestamp (round_nearest ns 1000000))
  | _ => Raise OutsideModel
  end.

(** [col - 273.15] on the cell of a one-row column.  A column of numbers
    subtracts in binary64.  A column of Python objects subtracts cell by
    cell where the cell is not null, and pandas puts [NaN] where it is: a
    null gives [NaN], a text raises. *)
Definition sub_273_15 (v : value) : result value :=
  match v with
  | VFloat f => Ok (VFloat (f - 273.15)%float)
  | VInt z =>
      if in_int64 z then Ok (VFloat (float_of_int64 z - 273.15)%float)
      else Raise OutsideModel
  | VBool _ => Raise OutsideModel
  | VNone => Ok (VFloat PrimFloat.nan)
  | VStr _ | VList _ | VDict _ | VTimestamp _ => Raise TypeError
  end.

(** ** The normalizer: [transform] ([dags/weather_pipeline.py]) *)

Local Open Scope string_scope.

Definition columns_to_keep : list (string * string) :=
  [ ("name", "city");
    ("main.temp", "temperature_k");
    ("main.humidity", "humidity");
    ("main.feels_like", "thermal_sensation_k");
    ("main.temp_min", "temp_min_k");
    ("main.temp_max", "temp_max_k");
    ("main.pressure", "pressure");
    ("wind.speed", "wind_speed");
    ("wind.deg", "wind_direction");
    ("coord.lat", "latitude");
    ("coord.lon", "longitude");
    ("weather_id", "weather_id");
    ("weather_main", "weather_main");
    ("weather_description", "weather_description");
    ("weather_icon", "weather_icon");
    ("sys.id", "sys_id");
    ("sys.country", "sys_country");
    ("sys_sunrise", "sys_sunrise");
    ("sys_sunset", "sys_sunset");
    ("collection_timestamp", "collection_timestamp") ].

Local Close Scope string_scope.

(** The loop over [k_cols]:
    [df_transformed[col.replace('_k', '_c')] = df_transformed[col] - 273.15]. *)
Fixpoint celsius_loop (k_cols : list string) (df_transformed : frame) : result frame :=
  match k_cols with
  | [] => Ok df_transformed
  | col :: k_cols' =>
      let col_c := str_replace "_k" "_c" col in
      kelvin ← getitem col df_transformed;
      celsius ← sub_273_15 kelvin;
      celsius_loop k_cols' (frame_set col_c celsius df_transformed)
  end.

(** The first part of [transform]: the columns it computes from the
    flattened document [df] (the weather descriptor, the two sun events, the
    time of collection). *)
Definition derive_columns (df : frame) (now : Z) : result frame :=
  weather ← getitem "weather" df;
  weather_data ← index0 weather;
  weather_id ← subscript weather_data "id";
  df ← set_scalar "weather_id" weather_id df;
  weather_main ← subscript weather_data "main";
  df ← set_scalar "weather_main" weather_main df;
  weather_description ← subscript weather_data "description";
  df ← set_scalar "weather_description" weather_description df;
  icon ← subscript weather_data "icon";
  weather_icon ← icon_url icon;
  let df := frame_set "weather_icon" weather_icon df in
  sunrise ← getitem "sys.sunrise" df;
  timezone ← getitem "timezone" df;
  sys_sunrise ← series_add sunrise timezone;
  let df := frame_set "sys_sunrise" sys_sunrise df in
  sunset ← getitem "sys.sunset" df;
  timezone ← getitem "timezone" df;
  sys_sunset ← series_add sunset timezone;
  let df := frame_set "sys_sunset" sys_sunset df in
  sys_sunrise ← getitem "sys_sunrise" df;
  sys_sunrise ← to_datetime_s sys_sunrise;
  sys_sunrise ← dt_round_ms sys_sunrise;
  let df := frame_set "sys_sunrise" sys_sunrise df in
  sys_sunset ← getitem "sys_sunset" df;
  sys_sunset ← to_datetime_s sys_sunset;
  sys_sunset ← dt_round_ms sys_sunset;
  let df := frame_set "sys_sunset" sys_sunset df in
  Ok (frame_set "collection_timestamp" (VTimestamp now) df).

(** [{k: v for k, v in columns_to_keep.items() if k in df.columns}] *)
Definition available_cols (df : frame) : list (string * string) :=
  List.filter (fun kv => has_col (fst kv) df) columns_to_keep.

(** The second part: the columns of [columns_to_keep] that are there, under
    their new names. *)
Definition keep_columns (df : frame) : result frame :=
  df_transformed ← frame_select (map fst (available_cols df)) df;
  Ok (frame_rename (available_cols df) df_transformed).

(** [[col for col in df_transformed.columns if '_k' in col]] *)
Definition k_cols (df_transformed : frame) : list string :=
  List.filter (str_contains "_k") (columns df_transformed).

(** [transform()]: [data] is the document read back from [RAW_PATH], [now]
    is [pd.Timestamp.now()].  The frame returned is the one written to
    [CLEAN_PATH]. *)
Definition transform (data : value) (now : Z) : result frame :=
  df ← json_normalize data;
  df ← derive_columns df now;
  df_transformed ← keep_columns df;
  celsius_loop (k_cols df_transformed) df_transformed.

(** ** Observations the provider's contract allows *)

Definition scalar (v : value) : bool :=
  match v with
  | VList _ | VDict _ => false
  | _ => true
  end.

(** A number of a [float64] or of an [int64] column. *)
Definition numeric (v : value) : bool :=
  match v with
  | VFloat _ => true
  | VInt z => in_int64 z
  | _ => false
  end.

(** The number a numeric cell holds once its column is [float64]. *)
Definition as_float (v : value) : float :=
  match v with
  | VFloat f => f
  | VInt z => float_of_int64 z
  | _ => PrimFloat.nan
  end.

(** A weather-condition descriptor with its four entries. *)
Definition descriptor_ok (w : value) : bool :=
  match w with
  | VDict d =>
      match frame_get "id" d, frame_get "main" d,
            frame_get "description" d, frame_get "icon" d with
      | Some id, Some main, Some description, Some (VStr _) =>
          scalar id && scalar main && scalar description
      | _, _, _, _ => false
      end
  | _ => false
  end.

(** Epoch seconds and an offset, both integers, that add up to a moment a
    timestamp can hold. *)
Definition epoch_ok (epoch timezone : value) : bool :=
  match epoch, timezone with
  | VInt x, VInt y =>
      in_int64 x && in_int64 y && negb (int64_add x y =? int64_min) &&
      in_timestamp_range (timestamp_from_epoch_seconds (int64_add x y))
  | _, _ => false
  end.

(** The temperatures of the document, with the Kelvin and the Celsius
    column each ends in. *)
Definition temperature_fields : list (string * (string * string)) :=
  [ ("main.temp", ("temperature_k", "temperature_c"));
    ("main.feels_like", ("thermal_sensation_k", "thermal_sensation_c"));
    ("main.temp_min", ("temp_min_k", "temp_min_c"));
    ("main.temp_max", ("temp_max_k", "temp_max_c")) ].

(** Humidity and coordinates, with the column each ends in. *)
Definition measurement_fields : list (string * string) :=
  [ ("main.humidity", "humidity"); ("coord.lat", "latitude"); ("coord.lon", "longitude") ].

(** What [transform] needs of a flattened document to go through: one
    complete weather descriptor, sun events and offset that make timestamps,
    and numbers for the temperatures that are there. *)
Definition transformable (df : frame) : bool :=
  match frame_get "weather" df, frame_get "sys.sunrise" df,
        frame_get "sys.sunset" df, frame_get "timezone" df with
  | Some (VList (w :: _)), Some sunrise, Some sunset, Some timezone =>
      descriptor_ok w && epoch_ok sunrise timezone && epoch_ok sunset timezone &&
      forallb (fun f => match frame_get (fst f) df with
                        | Some v => numeric v
                        | None => true
                        end) temperature_fields
  | _, _, _, _ => false
  end.

(** A valid observation: it goes through [transform] and has every
    temperature, the humidity and the coordinates. *)
Definition valid_observation (data : value) : bool :=
  match json_normalize data with
  | Ok df =>
      transformable df &&
      forallb (fun f => has_col (fst f) df) temperature_fields &&
      forallb (fun f => has_col (fst f) df) measurement_fields
  | Raise _ => false
  end.

(** ** The database *)

Inductive sql_type : Type :=
  | SERIAL
  | INT
  | FLOAT
  | VARCHAR (n : nat)
  | TIMESTAMP.

Record column_def : Type := ColumnDef {
  col_name : string;
  col_type : sql_type;
  col_not_null : bool
}.

(** A table: its columns, its rows in the order they were inserted (each
    row has one cell per column, [VNone] for NULL), and the next value of the
    sequence behind its [SERIAL] column. *)
Record table : Type := Table {
  tbl_columns : list column_def;
  tbl_rows : list frame;
  tbl_serial : Z
}.

(** The catalog: the tables of each schema. *)
Abbreviation db := (gmap string (gmap string table)).

Definition ascii_lower (c : ascii) : ascii :=
  let n := Ascii.N_of_ascii c in
  if ((65 <=? n) && (n <=? 90))%N then Ascii.ascii_of_N (n + 32) else c.

(** [c.lower()] on ASCII text; Postgres folds an unquoted identifier the
    same way. *)
Fixpoint str_lower (s : string) : string :=
  match s with
  | EmptyString => EmptyString
  | String c s' => String (ascii_lower c) (str_lower s')
  end.

Definition fold_identifier (c : column_def) : column_def :=
  ColumnDef (str_lower (col_name c)) (col_type c) (col_not_null c).

(** The table [schema.name], if there is one. *)
Definition lookup_table (schema name : string) (st : db) : option table :=
  st !! schema ≫= (fun tables => tables !! name).

(** [CREATE SCHEMA IF NOT EXISTS name] *)
Definition create_schema_if_not_exists (name : string) (st : db) : result db :=
  match st !! name with
  | Some _ => Ok st
  | None => Ok (<[name := ∅]> st)
  end.

(** [CREATE TABLE IF NOT EXISTS schema.name (cols)] *)
Definition create_table_if_not_exists (schema name : string)
    (cols : list column_def) (st : db) : result db :=
  match st !! schema with
  | None => Raise (InvalidSchemaName schema)
  | Some tables =>
      match tables !! name with
      | Some _ => Ok st
      | None =>
          Ok (<[schema := <[name := Table (map fold_identifier cols) [] 1]> tables]> st)
      end
  end.

Definition SCHEMA : string := "weather".
Definition TABLE : string := "weather_data".

(** [_ensure_schema_exists(engine)]; [SET search_path] touches the session
    only. *)
Definition _ensure_schema_exists (st : db) : result db :=
  create_schema_if_not_exists "weather" st.

Local Open Scope string_scope.

(** The columns of [create_table_sql], as they are written there. *)
Definition weather_data_columns : list column_def :=
  [ ColumnDef "id" SERIAL true;
    ColumnDef "city" (VARCHAR 100) true;
    ColumnDef "temperature_K" FLOAT true;
    ColumnDef "humidity" FLOAT true;
    ColumnDef "thermal_sensation_K" FLOAT true;
    ColumnDef "temp_min_K" FLOAT true;
    ColumnDef "temp_max_K" FLOAT true;
    ColumnDef "pressure" FLOAT false;
    ColumnDef "wind_speed" FLOAT false;
    ColumnDef "wind_direction" FLOAT false;
    ColumnDef "latitude" FLOAT true;
    ColumnDef "longitude" FLOAT true;
    ColumnDef "temperature_C" FLOAT true;
    ColumnDef "thermal_sensation_C" FLOAT true;
    ColumnDef "temp_min_C" FLOAT true;
    ColumnDef "temp_max_C" FLOAT true;
    ColumnDef "weather_id" INT true;
    ColumnDef "weather_main" (VARCHAR 100) true;
    ColumnDef "weather_description" (VARCHAR 255) true;
    ColumnDef "weather_icon" (VARCHAR 100) true;
    ColumnDef "sys_id" INT true;
    ColumnDef "sys_country" (VARCHAR 100) true;
    ColumnDef "sys_sunrise" TIMESTAMP true;
    ColumnDef "sys_sunset" TIMESTAMP true;
    ColumnDef "collection_timestamp" TIMESTAMP true ].

Local Close Scope string_scope.

(** [_ensure_table_exists(engine)] *)
Definition _ensure_table_exists (st : db) : result db :=
  create_table_if_not_exists "weather" "weather_data" weather_data_columns st.

(** The parameter pandas sends for a cell: [NaN] goes as NULL. *)
Definition sql_param (v : value) : value :=
  match v with
  | VFloat f => if PrimFloat.is_nan f then VNone else v
  | _ => v
  end.

(** The integers of a Postgres [INT] column. *)
Definition in_int32 (z : Z) : bool := (- 2 ^ 31 <=? z) && (z <? 2 ^ 31).

(** The cell a column of type [ty] stores for the parameter [v].  NULL is
    stored in every type (the NOT NULL check is separate), an integer sent
    to a FLOAT column is stored as a float, and an integer that does not fit
    the 32 bits of an INT column is refused; the other casts Postgres would
    try, and the error for a text longer than its VARCHAR, are outside the
    embedding. *)
Definition store (ty : sql_type) (v : value) : result value :=
  match ty, v with
  | _, VNone => Ok VNone
  | (SERIAL | INT), VInt z => if in_int32 z then Ok v else Raise NumericValueOutOfRange
  | FLOAT, VFloat _ => Ok v
  | FLOAT, VInt z => if in_int64 z then Ok (VFloat (float_of_int64 z)) else Raise OutsideModel
  | VARCHAR n, VStr s => if (String.length s <=? n)%nat then Ok v else Raise OutsideModel
  | TIMESTAMP, VTimestamp _ => Ok v
  | _, _ => Raise OutsideModel
  end.

(** The cell a row gets in column [c]: the parameter sent for it, or the
    column's default.  A frame that brings its own value for a [SERIAL]
    column is outside the embedding. *)
Definition cell_for (serial : Z) (df : frame) (c : column_def) : result (string * value) :=
  match frame_get (col_name c) df, col_type c with
  | Some _, SERIAL => Raise OutsideModel
  | Some v, ty =>
      cell ← store ty (sql_param v);
      Ok (col_name c, cell)
  | None, SERIAL => Ok (col_name c, VInt serial)
  | None, _ => Ok (col_name c, VNone)
  end.

Fixpoint cells_for (serial : Z) (df : frame) (cols : list column_def) : result frame :=
  match cols with
  | [] => Ok []
  | c :: cols' =>
      cell ← cell_for serial df c;
      rest ← cells_for serial df cols';
      Ok (cell :: rest)
  end.

(** The first NOT NULL column of [cols] that [row] leaves NULL. *)
Fixpoint not_null_violation (cols : list column_def) (row : frame) : option string :=
  match cols with
  | [] => None
  | c :: cols' =>
      match col_not_null c, frame_get (col_name c) row with
      | true, (Some VNone | None) => Some (col_name c)
      | _, _ => not_null_violation cols' row
      end
  end.

(** The first column of [df] that the table does not have. *)
Fixpoint unknown_column (cols : list column_def) (df : frame) : option string :=
  match df with
  | [] => None
  | (k, _) :: df' =>
      if existsb (fun c => String.eqb (col_name c) k) cols then unknown_column cols df'
      else Some k
  end.

(** [INSERT INTO t (columns of df) VALUES (cells of df)]: no upsert, no
    look at the rows already there. *)
Definition insert_row (t : table) (df : frame) : result table :=
  match unknown_column (tbl_columns t) df with
  | Some k => Raise (UndefinedColumn k)
  | None =>
      row ← cells_for (tbl_serial t) df (tbl_columns t);
      match not_null_violation (tbl_columns t) row with
      | Some k => Raise (NotNullViolation k)
      | None => Ok (Table (tbl_columns t) (tbl_rows t ++ [row]) (tbl_serial t + 1))
      end
  end.

(** [df.to_sql(name, conn, if_exists="append", index=False, schema=schema)]
    for the one-row frame of a pipeline run.  Without the table pandas would
    create one of its own making, which the embedding leaves out. *)
Definition to_sql (name schema : string) (df : frame) (st : db) : result db :=
  match st !! schema with
  | None => Raise (InvalidSchemaName schema)
  | Some tables =>
      match tables !! name with
      | None => Raise OutsideModel
      | Some t =>
          t' ← insert_row t df;
          Ok (<[schema := <[name := t']> tables]> st)
      end
  end.

(** The table [_ensure_table_exists] creates where there is none. *)
Definition fresh_weather_data : table :=
  Table (map fold_identifier weather_data_columns) [] 1.

(** The schema provisioner: the two calls [load()] makes before it
    writes. *)
Definition provision (st : db) : result db :=
  st ← _ensure_schema_exists st;
  _ensure_table_exists st.

(** [load()] from the frame [df] that [pd.read_csv(CLEAN_PATH)] returned.
    That frame is not the one [transform] wrote: [read_back], further down,
    gives the one from the other. *)
Definition load (df : frame) (st : db) : result db :=
  st ← _ensure_schema_exists st;
  st ← _ensure_table_exists st;
  to_sql "weather_data" "weather" df st.

(** ** The series query: [load_data] ([app.py]) *)

(** The [collection_timestamp] of a row, [None] when the cell is NULL. *)
Definition frame_ts (r : frame) : option Z :=
  match frame_get "collection_timestamp" r with
  | Some (VTimestamp t) => Some t
  | _ => None
  end.

(** Ascending order on [collection_timestamp], NULLs last: the order of
    [ORDER BY collection_timestamp ASC] and of
    [sort_values("collection_timestamp")]. *)
Definition ts_leb (a b : frame) : bool :=
  match frame_ts a, frame_ts b with
  | Some x, Some y => x <=? y
  | _, None => true
  | None, Some _ => false
  end.

Definition ts_le (a b : frame) : Prop := ts_leb a b = true.

(** What the embedding knows of a sort by timestamp: the rows come back
    rearranged in ascending order.  Neither Postgres nor pandas' default
    quicksort promises more; where two rows carry the same timestamp the
    order between them is the sort's own business. *)
Definition sorts_by_timestamp (sort : list frame -> list frame) : Prop :=
  forall l, Permutation (sort l) l /\ Sorted ts_le (sort l).

(** [collection_timestamp BETWEEN :start AND :end] *)
Definition between (start_dt end_dt : Z) (r : frame) : bool :=
  match frame_ts r with
  | Some t => (start_dt <=? t) && (t <=? end_dt)
  | None => false
  end.

(** [city = :city] *)
Definition city_is (city : string) (r : frame) : bool :=
  match frame_get "city" r with
  | Some (VStr c) => String.eqb c city
  | _ => false
  end.

(** [if city:] on a [str | None] *)
Definition truthy (city : option string) : bool :=
  match city with
  | Some (String _ _) => true
  | Some EmptyString | None => false
  end.

Definition has_column (k : string) (t : table) : bool :=
  existsb (fun c => String.eqb (col_name c) k) (tbl_columns t).

(** [pd.to_datetime] on a cell that a TIMESTAMP column returned. *)
Definition to_datetime (v : value) : result value :=
  match v with
  | VTimestamp t => Ok (VTimestamp t)
  | VNone => Ok VNone
  | _ => Raise OutsideModel
  end.

Fixpoint map_result {A B} (f : A -> result B) (l : list A) : result (list B) :=
  match l with
  | [] => Ok []
  | x :: l' =>
      y ← f x;
      rest ← map_result f l';
      Ok (y :: rest)
  end.

(** The two statements under [if not df.empty:], on one row. *)
Definition normalize_row (r : frame) : result frame :=
  let r := map (fun cv => (str_lower (fst cv), snd cv)) r in
  ts ← getitem "collection_timestamp" r;
  ts ← to_datetime ts;
  Ok (frame_set "collection_timestamp" ts r).

Section ReadPath.

(** [ORDER BY collection_timestamp ASC], as the database performs it. *)
Variable order_by : list frame -> list frame.

(** [df.sort_values("collection_timestamp")], as pandas performs it. *)
Variable sort_values : list frame -> list frame.

(** [load_data(city, start_dt, end_dt)], a DataFrame being the list of
    its rows. *)
Definition load_data (city : option string) (start_dt end_dt : Z) (st : db)
    : result (list frame) :=
  let filters := [between start_dt end_dt] in
  let filters :=
    match city with
    | Some c => if truthy city then filters ++ [city_is c] else filters
    | None => filters
    end in
  match lookup_table SCHEMA TABLE st with
  | None => Raise (UndefinedTable TABLE)
  | Some t =>
      if negb (has_column "collection_timestamp" t)
      then Raise (UndefinedColumn "collection_timestamp")
      else if truthy city && negb (has_column "city" t)
      then Raise (UndefinedColumn "city")
      else
        let rows :=
          order_by (List.filter (fun r => forallb (fun f => f r) filters) (tbl_rows t)) in
        match rows with
        | [] => Ok []
        | _ => map_result normalize_row rows
        end
  end.

(** [df.iloc[-1]] *)
Definition iloc_last (df : list frame) : result frame :=
  match last df with
  | Some r => Ok r
  | None => Raise IndexError
  end.

(** What [main] puts on the page below the toolbar: the warning
    ["No weather data found. ..."], or the hero section that [render_hero]
    draws from the frame, the latest row and the unit switch. *)
Inductive page : Type :=
  | NoData
  | Hero (df : list frame) (latest_row : frame) (unit_f : bool).

(** [main()] from the query on; [city] is the entry picked in the select
    box, [start_dt] and [end_dt] bound the two days shown, [unit_f] is the
    unit toggle. *)
Definition main (city : option string) (start_dt end_dt : Z) (unit_f : bool)
    (st : db) : result page :=
  df ← load_data city start_dt end_dt st;
  match df with
  | [] => Ok NoData
  | _ =>
      latest_row ← iloc_last (sort_values df);
      Ok (Hero df latest_row unit_f)
  end.

End ReadPath.

(** ** Hourly resampling ([render_hourly_chart], [render_extra_timeseries]) *)

Definition hour_ns : Z := 3600 * 1000000000.
Definition minute_ns : Z := 60 * 1000000000.

(** The start of the wall-clock hour that holds [ts]: the label of the bin
    [resample("1H")] puts [ts] in. *)
Definition bucket_start (ts : Z) : Z := ts / hour_ns * hour_ns.

(** A cell of a [float64] column. *)
Definition float_cell (v : value) : result float :=
  match v with
  | VFloat f => Ok f
  | VInt z => if in_int64 z then Ok (float_of_int64 z) else Raise OutsideModel
  | VNone => Ok PrimFloat.nan
  | _ => Raise OutsideModel
  end.

(** [df.set_index("collection_timestamp")[key]]: the series of the metric,
    indexed by time. *)
Definition indexed_series (key : string) (df : list frame) : result (list (Z * float)) :=
  map_result
    (fun r =>
       index ← getitem "collection_timestamp" r;
       v ← getitem key r;
       x ← float_cell v;
       match index with
       | VTimestamp t => Ok (t, x)
       | _ => Raise OutsideModel
       end) df.

(** The values that count towards the bin labelled [b]: those stamped
    within its hour, [NaN] skipped. *)
Definition contributors (b : Z) (s : list (Z * float)) : list float :=
  map snd
    (List.filter (fun tx => (bucket_start (fst tx) =? b) && negb (PrimFloat.is_nan (snd tx))) s).

(** One step of pandas' [group_mean]: the sum of a bin is kept with the
    compensation of Kahan's summation,
    [y = val - compensation; t = sumx + y;
     compensation = t - sumx - y; sumx = t],
    and a compensation that came out [NaN] is set back to zero. *)
Definition kahan_step (acc : float * float) (val : float) : float * float :=
  let (sumx, compensation) := acc in
  let y := (val - compensation)%float in
  let t := (sumx + y)%float in
  let compensation := (t - sumx - y)%float in
  let compensation := if PrimFloat.is_nan compensation then 0%float else compensation in
  (t, compensation).

(** The mean of a bin, [sumx / nobs]; of no value at all it is [NaN]. *)
Definition mean (xs : list float) : float :=
  (fst (fold_left kahan_step xs (0, 0)) / float_of_int64 (Z.of_nat (length xs)))%float.

(** The labels of the bins from the hour of the first stamp to the hour of
    the last, one per hour. *)
Definition bins (first last : Z) : list Z :=
  map (fun i => first + Z.of_nat i * hour_ns)
      (seq 0 (Z.to_nat ((last - first) / hour_ns + 1))).

(** [.resample("1H").mean()] *)
Definition resample_mean (s : list (Z * float)) : list (Z * float) :=
  match s with
  | [] => []
  | (t0, _) :: _ =>
      let first := bucket_start (fold_right Z.min t0 (map fst s)) in
      let last := bucket_start (fold_right Z.max t0 (map fst s)) in
      map (fun b => (b, mean (contributors b s))) (bins first last)
  end.

(** [.dropna()] *)
Definition dropna (s : list (Z * float)) : list (Z * float) :=
  List.filter (fun bx => negb (PrimFloat.is_nan (snd bx))) s.

(** [df.set_index("collection_timestamp")[key].resample("1H").mean()
       .dropna().reset_index()] *)
Definition hourly_mean (key : string) (df : list frame) : result (list (Z * float)) :=
  s ← indexed_series key df;
  Ok (dropna (resample_mean s)).

(** What [render_hourly_chart] shows: one of its two notices, or the area
    chart of the hourly temperatures in the unit asked for. *)
Inductive chart : Type :=
  | NoDataAvailable
  | NotEnoughData
  | AreaChart (points : list (Z * float)) (use_fahrenheit : bool).

Definition render_hourly_chart (df : list frame) (use_fahrenheit : bool) : result chart :=
  match df with
  | [] => Ok NoDataAvailable
  | _ =>
      hourly ← hourly_mean "temperature_c" df;
      match hourly with
      | [] => Ok NotEnoughData
      | _ =>
          Ok (AreaChart
                (map (fun bx => (fst bx, temp_display (snd bx) use_fahrenheit)) hourly)
                use_fahrenheit)
      end
  end.

(** ** A sort to run the read path with *)

Fixpoint insert_by_ts (r : frame) (l : list frame) : list frame :=
  match l with
  | [] => [r]
  | x :: l' => if ts_leb r x then r :: l else x :: insert_by_ts r l'
  end.

(** Insertion sort by timestamp; rows with equal timestamps keep their
    order. *)
Definition stable_sort (l : list frame) : list frame :=
  fold_right insert_by_ts [] l.

(** ** The shape of the stored table *)

(** The WHERE clause of [load_data] as one predicate on a row. *)
Definition selected (city : option string) (start_dt end_dt : Z) (r : frame) : bool :=
  between start_dt end_dt r &&
  match city with
  | Some c => if truthy city then city_is c r else true
  | None => true
  end.

(** A table is well formed when its column names are in lower case, as
    Postgres folds the unquoted identifiers of [create_table_sql], and every
    row has one cell for each column. *)
Definition table_wf (t : table) : Prop :=
  Forall (fun c => str_lower (col_name c) = col_name c) (tbl_columns t) /\
  Forall (fun r => columns r = map col_name (tbl_columns t)) (tbl_rows t).

(** The storage is well formed when [weather.weather_data], if it is there,
    is. *)
Definition db_wf (st : db) : Prop :=
  forall t, lookup_table SCHEMA TABLE st = Some t -> table_wf t.

(** ** What [transform] computes, in closed form *)

(** The frame [derive_columns] returns, given the entries it read. *)
Definition derived (df : frame) (now : Z) (weather_id weather_main weather_description : value)
    (icon : string) (sunrise sunset timezone : Z) : frame :=
  frame_set "collection_timestamp" (VTimestamp now)
    (frame_set "sys_sunset"
       (VTimestamp (round_nearest (timestamp_from_epoch_seconds (int64_add sunset timezone)) 1000000))
    (frame_set "sys_sunrise"
       (VTimestamp (round_nearest (timestamp_from_epoch_seconds (int64_add sunrise timezone)) 1000000))
    (frame_set "sys_sunset" (VInt (int64_add sunset timezone))
    (frame_set "sys_sunrise" (VInt (int64_add sunrise timezone))
    (frame_set "weather_icon"
       (VStr (String.append "https://openweathermap.org/img/wn/" (String.append icon "@2x.png")))
    (frame_set "weather_description" weather_description
    (frame_set "weather_main" weather_main
    (frame_set "weather_id" weather_id df)))))))).

(** The columns [derive_columns] writes. *)
Definition derived_columns : list string :=
  [ "weather_id"; "weather_main"; "weather_description"; "weather_icon";
    "sys_sunrise"; "sys_sunset"; "collection_timestamp" ]%string.

(** The frame [keep_columns] returns. *)
Definition kept (df : frame) : frame :=
  map (fun kv => (snd kv, default VNone (frame_get (fst kv) df))) (available_cols df).

(** The Kelvin columns and the Celsius columns of a row. *)
Definition kelvin_columns : list string := map (fun f => fst (snd f)) temperature_fields.
Definition celsius_columns : list string := map (fun f => snd (snd f)) temperature_fields.

(** The columns of the declared table that a row must fill: those that are
    NOT NULL and have no default. *)
Definition required_columns : list string :=
  map col_name
    (List.filter
       (fun c => col_not_null c &&
                 match col_type c with SERIAL => false | _ => true end)
       (tbl_columns fresh_weather_data)).

(** The flattened document of an observation. *)
Definition flattened (data : value) : frame :=
  match json_normalize data with
  | Ok df => df
  | Raise _ => []
  end.

(** ** Sample data *)

Local Open Scope string_scope.

(** The observation of the specification's scenario. *)
Definition rio : value :=
  VDict [ ("coord", VDict [("lon", VFloat (-43.2)); ("lat", VFloat (-22.9))]);
          ("weather", VList [VDict [("id", VInt 800); ("main", VStr "Clear");
                                    ("description", VStr "clear sky"); ("icon", VStr "01d")]]);
          ("main", VDict [("temp", VFloat 300.0); ("feels_like", VFloat 299.0);
                          ("temp_min", VFloat 298.5); ("temp_max", VFloat 301.25);
                          ("pressure", VInt 1012); ("humidity", VInt 80)]);
          ("wind", VDict [("speed", VFloat 5.5); ("deg", VInt 120)]);
          ("sys", VDict [("id", VInt 1); ("country", VStr "BR");
                         ("sunrise", VInt 1700000000); ("sunset", VInt 1700040000)]);
          ("timezone", VInt (-10800));
          ("name", VStr "Rio de Janeiro") ].

(** The same observation without its humidity. *)
Definition rio_without_humidity : value :=
  VDict [ ("coord", VDict [("lon", VFloat (-43.2)); ("lat", VFloat (-22.9))]);
          ("weather", VList [VDict [("id", VInt 800); ("main", VStr "Clear");
                                    ("description", VStr "clear sky"); ("icon", VStr "01d")]]);
          ("main", VDict [("temp", VFloat 300.0); ("feels_like", VFloat 299.0);
                          ("temp_min", VFloat 298.5); ("temp_max", VFloat 301.25);
                          ("pressure", VInt 1012)]);
          ("wind", VDict [("speed", VFloat 5.5); ("deg", VInt 120)]);
          ("sys", VDict [("id", VInt 1); ("country", VStr "BR");
                         ("sunrise", VInt 1700000000); ("sunset", VInt 1700040000)]);
          ("timezone", VInt (-10800));
          ("name", VStr "Rio de Janeiro") ].

(** An observation of another city, taken a quarter of an hour later. *)
Definition lisbon : value :=
  VDict [ ("coord", VDict [("lon", VFloat (-9.13)); ("lat", VFloat 38.72)]);
          ("weather", VList [VDict [("id", VInt 500); ("main", VStr "Rain");
                                    ("description", VStr "light rain"); ("icon", VStr "10n")]]);
          ("main", VDict [("temp", VFloat 288.0); ("feels_like", VFloat 287.5);
                          ("temp_min", VFloat 287.0); ("temp_max", VFloat 289.0);
                          ("pressure", VInt 1009); ("humidity", VInt 93)]);
          ("wind", VDict [("speed", VFloat 3.5); ("deg", VInt 250)]);
          ("sys", VDict [("id", VInt 6901); ("country", VStr "PT");
                         ("sunrise", VInt 1699946100); ("sunset", VInt 1699982640)]);
          ("timezone", VInt 0);
          ("name", VStr "Lisbon") ].

Local Close Scope string_scope.

(** 2023-11-14 22:30:00.123456, the time of the sample run. *)
Definition sample_now : Z := 1700001000123456000.

(** The row of the sample run. *)
Definition rio_row : frame :=
  match transform rio sample_now with
  | Ok df => df
  | Raise _ => []
  end.

Definition lisbon_row : frame :=
  match transform lisbon (sample_now + 15 * minute_ns) with
  | Ok df => df
  | Raise _ => []
  end.

(** The storage after the sample run, starting from an empty database. *)
Definition after_one_run : db :=
  match load rio_row ∅ with
  | Ok st => st
  | Raise _ => ∅
  end.

(** The storage once both cities have been loaded. *)
Definition two_cities : db :=
  match load lisbon_row after_one_run with
  | Ok st => st
  | Raise _ => ∅
  end.

(** The table both cities were loaded into. *)
Definition two_cities_table : table :=
  default fresh_weather_data (lookup_table "weather" "weather_data" two_cities).

(** A window around the sample run: the 14th and 15th of November 2023. *)
Definition window_start : Z := 1699920000000000000.
Definition window_end : Z := 1700092799999999000.

(** Two readings of humidity, at 10:05 and at 11:50 of 2023-11-14. *)
Definition humidity_row (ts : Z) (humidity : float) : frame :=
  [ ("collection_timestamp", VTimestamp ts); ("humidity", VFloat humidity) ].

Definition at_10_05 : Z := 1699956300000000000.
Definition at_11_50 : Z := 1699962600000000000.
Definition at_10_55 : Z := 1699959300000000000.
Definition at_11_05 : Z := 1699959900000000000.
Definition at_10_00 : Z := 1699956000000000000.
Definition at_11_00 : Z := 1699959600000000000.

(** * Further parts of the program *)

(** ** Runs of the pipeline and more sample data *)

(** The observation of the scenario, with entries of its own under two of
    the names [transform] writes. *)
Definition rio_stamped : value :=
  match rio with
  | VDict d =>
      VDict (("collection_timestamp", VStr "2000-01-01 00:00:00")
             :: ("weather_id", VInt 0) :: d)
  | v => v
  end.

(** The observation of the scenario with a null temperature. *)
Definition rio_null_temperature : value :=
  match rio with
  | VDict d => VDict (frame_set "main" (VDict [("temp", VNone)]) d)
  | v => v
  end.

(** Successive runs of the [load] task, one frame each. *)
Fixpoint load_all (dfs : list frame) (st : db) : result db :=
  match dfs with
  | [] => Ok st
  | df :: dfs' =>
      st ← load df st;
      load_all dfs' st
  end.

(** The observation of the scenario without [sys.id], which the provider
    leaves out for some places. *)
Definition rio_without_sys_id : value :=
  match rio with
  | VDict d =>
      VDict (frame_set "sys" (VDict [("country", VStr "BR"); ("sunrise", VInt 1700000000);
                                     ("sunset", VInt 1700040000)]) d)
  | v => v
  end.

(** The observation of the scenario without the direction of the wind. *)
Definition rio_without_wind_deg : value :=
  match rio with
  | VDict d => VDict (frame_set "wind" (VDict [("speed", VFloat 5.5)]) d)
  | v => v
  end.

Definition row_without_sys_id : frame :=
  match transform rio_without_sys_id sample_now with
  | Ok row => row
  | Raise _ => []
  end.

Definition row_without_wind_deg : frame :=
  match transform rio_without_wind_deg sample_now with
  | Ok row => row
  | Raise _ => []
  end.

(** A table whose keys are the numbers from one on, in the order of its
    rows, and whose sequence stands right after them. *)
Definition sequential (t : table) : Prop :=
  tbl_columns t = tbl_columns fresh_weather_data /\
  tbl_serial t = Z.of_nat (length (tbl_rows t)) + 1 /\
  map (frame_get "id") (tbl_rows t)
  = map (fun i => Some (VInt (Z.of_nat i))) (seq 1 (length (tbl_rows t))).

(** ** What a refused load leaves behind *)

(** The table after an INSERT that a NOT NULL column refused: no row is
    added, but the key the row had drawn from the sequence is gone, since
    a sequence is not rolled back. *)
Definition refused (t : table) : table :=
  Table (tbl_columns t) (tbl_rows t) (tbl_serial t + 1).

Definition set_weather_data (t : table) (st : db) : db :=
  <["weather"%string := <["weather_data"%string := t]> (default ∅ (st !! "weather"%string))]> st.

(** The storage a run of [load] leaves behind, whether it stored the row or
    not.  A row that a NOT NULL column refuses has drawn its key; a frame
    with a column the table does not have is refused before any key is
    drawn; after the other errors the embedding does not follow the
    storage.  In every case the schema and the table have been
    provisioned. *)
Definition after_load (df : frame) (st : db) : result db :=
  match load df st with
  | Ok st' => Ok st'
  | Raise (NotNullViolation _) =>
      st ← provision st;
      match lookup_table "weather" "weather_data" st with
      | Some t => Ok (set_weather_data (refused t) st)
      | None => Raise OutsideModel
      end
  | Raise (UndefinedColumn _) => provision st
  | Raise e => Raise e
  end.

(** Successive runs of the [load] task, stored or refused. *)
Fixpoint runs (dfs : list frame) (st : db) : result db :=
  match dfs with
  | [] => Ok st
  | df :: dfs' =>
      st ← after_load df st;
      runs dfs' st
  end.

(** A table of the declared columns whose keys go up from row to row and
    lie below the sequence, which at most [n] inserts have drawn from. *)
Definition keyed (n : Z) (t : table) : Prop :=
  tbl_columns t = tbl_columns fresh_weather_data /\
  1 <= tbl_serial t <= n + 1 /\
  exists ids,
    map (frame_get "id") (tbl_rows t) = map (fun i => Some (VInt i)) ids /\
    StronglySorted Z.lt ids /\
    Forall (fun i => 1 <= i < tbl_serial t) ids.

(** Three runs from an empty database: the second is refused for its
    missing [sys_id]. *)
Definition three_runs : db :=
  match runs [rio_row; row_without_sys_id; lisbon_row] ∅ with
  | Ok st => st
  | Raise _ => ∅
  end.

(** The entries that identify the place, with the column each ends in. *)
Definition identity_fields : list (string * string) :=
  [ ("name", "city"); ("sys.id", "sys_id"); ("sys.country", "sys_country") ]%string.

(** The measurements the table lets be NULL, with the column each ends
    in. *)
Definition optional_fields : list (string * string) :=
  [ ("main.pressure", "pressure"); ("wind.speed", "wind_speed");
    ("wind.deg", "wind_direction") ]%string.

(** ** The toolbar of [main] ([app.py]) *)

(** The [city] cell of a row as [SELECT city] returns it: a text or NULL. *)
Definition city_cell (r : frame) : result (option string) :=
  match frame_get "city" r with
  | Some (VStr c) => Ok (Some c)
  | Some VNone => Ok None
  | _ => Raise OutsideModel
  end.

(** What the embedding knows of [ORDER BY city]: the cities come back
    rearranged, in the order of the database's collation. *)
Definition orders_cities (sort : list string -> list string) : Prop :=
  forall l, Permutation (sort l) l.

(** The city the select box starts with:
    [default_city = cities[0] if cities else None] and
    [index=0 if default_city in cities else None]. *)
Definition initial_city (cities : list string) : option string :=
  let default_city := head cities in
  let index :=
    match default_city with
    | Some c => if existsb (String.eqb c) cities then Some 0%nat else None
    | None => None
    end in
  index ≫= (fun i => cities !! i).

Section Toolbar.

(** [ORDER BY city], as the database performs it. *)
Variable order_by_city : list string -> list string.

(** [list_cities()]: [SELECT DISTINCT city ... WHERE city IS NOT NULL
    ORDER BY city]. *)
Definition list_cities (st : db) : result (list string) :=
  match lookup_table SCHEMA TABLE st with
  | None => Raise (UndefinedTable TABLE)
  | Some t =>
      if negb (has_column "city" t) then Raise (UndefinedColumn "city")
      else
        cells ← map_result city_cell (tbl_rows t);
        Ok (order_by_city (remove_dups (omap id cells)))
  end.

Variable order_by : list frame -> list frame.
Variable sort_values : list frame -> list frame.

(** [main()] from the toolbar on, when nothing is cached and the select box
    holds its initial choice: both queries reach the database. *)
Definition main_from_toolbar (start_dt end_dt : Z) (unit_f : bool) (st : db)
    : result page :=
  cities ← list_cities st;
  main order_by sort_values (initial_city cities) start_dt end_dt unit_f st.

End Toolbar.

(** A sort of cities to run the toolbar with: insertion sort in the order
    of the bytes. *)
Fixpoint insert_city (c : string) (l : list string) : list string :=
  match l with
  | [] => [c]
  | x :: l' => if String.leb c x then c :: l else x :: insert_city c l'
  end.

Definition sort_cities (l : list string) : list string :=
  fold_right insert_city [] l.

(** ** The three small charts: [render_extra_timeseries] ([app.py]) *)

(** What one of the three columns shows: the notice [No {key} data], or
    the line chart of the hourly means. *)
Inductive panel : Type :=
  | NoKeyData (key : string)
  | LineChart (title key : string) (points : list (Z * float)).

Definition series_map : list (string * string) :=
  [ ("Humidity (%)", "humidity");
    ("Pressure (hPa)", "pressure");
    ("Wind speed (km/h)", "wind_speed") ]%string.

(** [render_extra_timeseries(df)]: the panels in the order of the columns;
    an error in one of them leaves the function, and the embedding then
    says nothing of the panels drawn before. *)
Definition render_extra_timeseries (df : list frame) : result (list panel) :=
  match df with
  | [] => Ok []
  | _ =>
      map_result
        (fun title_key =>
           s ← hourly_mean (snd title_key) df;
           match s with
           | [] => Ok (NoKeyData (snd title_key))
           | _ => Ok (LineChart (fst title_key) (snd title_key) s)
           end) series_map
  end.

(** Readings of the scenario with the pressure left NULL. *)
Definition metrics_row (ts : Z) (humidity wind_speed : float) : frame :=
  [ ("collection_timestamp", VTimestamp ts); ("humidity", VFloat humidity);
    ("pressure", VNone); ("wind_speed", VFloat wind_speed) ]%string.

Definition metrics_without_pressure : list frame :=
  [ metrics_row at_10_05 40 3; metrics_row at_11_50 60 5 ].

(** ** The hourly chart of [render_hero] ([app.py]) *)

(** A row of [hourly_data]: the label of the hour and the four aggregates. *)
Record hourly_point : Type := HourlyPoint {
  hp_time : Z;
  hp_humidity : float;
  hp_temperature_c : float;
  hp_weather_main : value;
  hp_weather_icon : value
}.

(** [df.set_index("collection_timestamp")[key]] for a column of any
    type. *)
Definition indexed_cells (key : string) (df : list frame) : result (list (Z * value)) :=
  map_result
    (fun r =>
       index ← getitem "collection_timestamp" r;
       v ← getitem key r;
       match index with
       | VTimestamp t => Ok (t, v)
       | _ => Raise OutsideModel
       end) df.

(** A cell that pandas counts as missing. *)
Definition isna (v : value) : bool :=
  match v with
  | VNone => true
  | VFloat f => PrimFloat.is_nan f
  | _ => false
  end.

(** The aggregate ["first"] of the bin labelled [b]: the first cell of the
    hour that is not missing, and a missing one where there is none. *)
Definition first_valid (b : Z) (s : list (Z * value)) : value :=
  match List.filter (fun tv => (bucket_start (fst tv) =? b) && negb (isna (snd tv))) s with
  | [] => VNone
  | tv :: _ => snd tv
  end.

(** The labels [resample("1H")] makes for an index. *)
Definition hour_bins (stamps : list Z) : list Z :=
  match stamps with
  | [] => []
  | t0 :: _ =>
      bins (bucket_start (fold_right Z.min t0 stamps))
           (bucket_start (fold_right Z.max t0 stamps))
  end.

(** [.dropna()] on [hourly_data]: a row goes when any of its four cells is
    missing. *)
Definition complete (p : hourly_point) : bool :=
  negb (PrimFloat.is_nan (hp_humidity p)) && negb (PrimFloat.is_nan (hp_temperature_c p)) &&
  negb (isna (hp_weather_main p)) && negb (isna (hp_weather_icon p)).

(** [df.set_index("collection_timestamp").resample("1H").agg({...})
       .dropna().reset_index()] *)
Definition hourly_data (df : list frame) : result (list hourly_point) :=
  humidity ← indexed_series "humidity" df;
  temperature_c ← indexed_series "temperature_c" df;
  weather_main ← indexed_cells "weather_main" df;
  weather_icon ← indexed_cells "weather_icon" df;
  Ok (List.filter complete
        (map (fun b => HourlyPoint b (mean (contributors b humidity))
                         (mean (contributors b temperature_c))
                         (first_valid b weather_main) (first_valid b weather_icon))
             (hour_bins (map fst humidity)))).

(** What [render_hero] puts under the metrics: nothing for an empty frame,
    the notice ["Not enough data to display hourly forecast."], or the
    chart of [hourly_data.head(8)] with the temperature written over each
    point. *)
Inductive forecast : Type :=
  | NoForecast
  | NotEnoughForecast
  | Forecast (points : list hourly_point) (temp_data : list float).

Definition hero_forecast (df : list frame) (use_fahrenheit : bool) : result forecast :=
  match df with
  | [] => Ok NoForecast
  | _ =>
      hourly ← hourly_data df;
      match hourly with
      | [] => Ok NotEnoughForecast
      | _ =>
          let hourly := firstn 8 hourly in
          Ok (Forecast hourly
                (map (fun p => temp_display (hp_temperature_c p) use_fahrenheit) hourly))
      end
  end.

(** One reading an hour from 10:05 on, for ten hours. *)
Definition reading (i : nat) : frame :=
  [ ("collection_timestamp", VTimestamp (at_10_05 + Z.of_nat i * hour_ns));
    ("humidity", VFloat 40); ("temperature_c", VFloat 20);
    ("weather_main", VStr "Clear");
    ("weather_icon", VStr "https://openweathermap.org/img/wn/01d@2x.png") ]%string.

Definition ten_hours : list frame := map reading (seq 0 10).

Definition ten_hours_points : list hourly_point :=
  match hero_forecast ten_hours false with
  | Ok (Forecast points _) => points
  | _ => []
  end.

(** ** The automatic refresh of [main] ([app.py]) *)

(** Two minutes, in the microseconds of a [datetime]. *)
Definition refresh_us : Z := 120 * 1000000.

(** The statements under [# --- Auto refresh every 2 minutes]: [now] is
    [datetime.now()] and [last_refresh] the entry [_last_auto_refresh_at] of
    the session state, both in microseconds.  The result is the entry
    afterwards, and whether the cache was cleared and the script started
    again.  A difference of [datetime]s is exact to the microsecond, and its
    [total_seconds()] is at least 120 exactly when the difference is at
    least 120000000 microseconds. *)
Definition auto_refresh (now : Z) (last_refresh : option Z) : option Z * bool :=
  match last_refresh with
  | None => (Some now, false)
  | Some last =>
      if refresh_us <=? now - last then (Some now, true) else (Some last, false)
  end.

(** The runs of the script in one session, at the times [nows]: the times
    at which the cache was cleared. *)
Fixpoint cache_clears (nows : list Z) (last_refresh : option Z) : list Z :=
  match nows with
  | [] => []
  | now :: nows' =>
      let (last_refresh', cleared) := auto_refresh now last_refresh in
      if cleared then now :: cache_clears nows' last_refresh'
      else cache_clears nows' last_refresh'
  end.

(** ** The connection URLs ([weather_pipeline.py], [app.py]) *)

(** [os.getenv(name, default)] on an environment.  A value is the bytes the
    environment holds; Python keeps a byte that is not UTF-8 as a lone
    surrogate, which stands for that byte and for nothing else. *)
Definition getenv (environ : gmap string string) (name fallback : string) : string :=
  match environ !! name with
  | Some v => v
  | None => fallback
  end.

(** [urllib.parse]'s [_ALWAYS_SAFE]: the letters, the digits and [_.-~]. *)
Definition always_safe (c : ascii) : bool :=
  let n := Ascii.N_of_ascii c in
  ((65 <=? n) && (n <=? 90) || (97 <=? n) && (n <=? 122) || (48 <=? n) && (n <=? 57)
   || (n =? 95) || (n =? 46) || (n =? 45) || (n =? 126))%N.

Definition hex_digit (n : N) : ascii :=
  if (n <? 10)%N then Ascii.ascii_of_N (48 + n) else Ascii.ascii_of_N (55 + n).

(** ['%{:02X}'.format(c)] *)
Definition percent (c : ascii) : string :=
  String "%" (String (hex_digit (Ascii.N_of_ascii c / 16))
                (String (hex_digit (Ascii.N_of_ascii c mod 16)) EmptyString)).

Fixpoint in_str (c : ascii) (s : string) : bool :=
  match s with
  | EmptyString => false
  | String x s' => Ascii.eqb x c || in_str c s'
  end.

(** Well-formed UTF-8: the bytes that follow a lead byte lie in the ranges
    [pending], which leave out the overlong forms, the surrogates and the
    code points past U+10FFFF. *)
Fixpoint utf8_tail (pending : list (N * N)) (s : string) : bool :=
  match s with
  | EmptyString => match pending with [] => true | _ :: _ => false end
  | String c s' =>
      let n := Ascii.N_of_ascii c in
      match pending with
      | (lo, hi) :: rest => ((lo <=? n) && (n <=? hi))%N && utf8_tail rest s'
      | [] =>
          if (n <=? 127)%N then utf8_tail [] s'
          else if ((194 <=? n) && (n <=? 223))%N then utf8_tail [(128, 191)%N] s'
          else if (n =? 224)%N then utf8_tail [(160, 191)%N; (128, 191)%N] s'
          else if ((225 <=? n) && (n <=? 236))%N
          then utf8_tail [(128, 191)%N; (128, 191)%N] s'
          else if (n =? 237)%N then utf8_tail [(128, 159)%N; (128, 191)%N] s'
          else if ((238 <=? n) && (n <=? 239))%N
          then utf8_tail [(128, 191)%N; (128, 191)%N] s'
          else if (n =? 240)%N
          then utf8_tail [(144, 191)%N; (128, 191)%N; (128, 191)%N] s'
          else if ((241 <=? n) && (n <=? 243))%N
          then utf8_tail [(128, 191)%N; (128, 191)%N; (128, 191)%N] s'
          else if (n =? 244)%N
          then utf8_tail [(128, 143)%N; (128, 191)%N; (128, 191)%N] s'
          else false
      end
  end.

Definition utf8_valid (s : string) : bool := utf8_tail [] s.

(** [s.encode('utf-8', 'strict')] on a text of the environment: its bytes,
    unless one of them is not UTF-8. *)
Definition encode_utf8 (s : string) : result string :=
  if utf8_valid s then Ok s else Raise UnicodeEncodeError.

(** [quote_from_bytes(bs, safe)] *)
Fixpoint quote_from_bytes (bs safe : string) : string :=
  match bs with
  | EmptyString => EmptyString
  | String c bs' =>
      String.append
        (if always_safe c || in_str c safe then String c EmptyString else percent c)
        (quote_from_bytes bs' safe)
  end.

(** [quote(s, safe)]: the text is encoded in UTF-8, then quoted byte by
    byte. *)
Definition quote (s safe : string) : result string :=
  bs ← encode_utf8 s;
  Ok (quote_from_bytes bs safe).

(** [quote_plus(s)] *)
Definition quote_plus (s : string) : result string :=
  if negb (str_contains " " s) then quote s ""
  else
    string ← quote s " ";
    Ok (str_replace " " "+" string).

(** [_pg_url_from_env(database)]; the line it prints is left out. *)
Definition _pg_url_from_env (environ : gmap string string) (database : string)
    : result string :=
  let host := getenv environ "DB_HOST" "localhost" in
  let user := getenv environ "DB_USER" "postgres" in
  let password := getenv environ "DB_PASSWORD" "" in
  let port := getenv environ "DB_PORT" "5432" in
  encoded_password ← quote_plus password;
  Ok (String.append "postgresql+psycopg2://"
        (String.append user (String.append ":" (String.append encoded_password
           (String.append "@" (String.append host (String.append ":" (String.append port
              (String.append "/" (String.append database "?sslmode=require")))))))))).

(** The error of the dashboard's configuration. *)
Inductive startup_error : Type :=
  | RuntimeError (message : string).

(** [get_env_variable(name, default)] *)
Definition get_env_variable (environ : gmap string string) (name : string)
    (fallback : option string) : startup_error + string :=
  match (match environ !! name with Some v => Some v | None => fallback end) with
  | None =>
      inl (RuntimeError
             (String.append "Environment variable " (String.append name " is required")))
  | Some value => inr value
  end.

Definition and_then {A B} (m : startup_error + A) (f : A -> startup_error + B)
    : startup_error + B :=
  match m with
  | inl e => inl e
  | inr a => f a
  end.

(** [get_engine()]: the URL it hands to [create_engine]. *)
Definition get_engine (environ : gmap string string) : startup_error + string :=
  and_then (get_env_variable environ "DB_HOST" None) (fun host =>
  and_then (get_env_variable environ "DB_USER" None) (fun user =>
  and_then (get_env_variable environ "DB_PASSWORD" None) (fun password =>
  and_then (get_env_variable environ "DB_DBNAME" None) (fun db =>
  and_then (get_env_variable environ "DB_PORT" None) (fun port =>
  inr (String.append "postgresql+psycopg2://"
         (String.append user (String.append ":" (String.append password
            (String.append "@" (String.append host (String.append ":"
               (String.append port (String.append "/" db)))))))))))))).

(** The variables [get_engine] reads, in the order it reads them. *)
Definition engine_variables : list string :=
  [ "DB_HOST"; "DB_USER"; "DB_PASSWORD"; "DB_DBNAME"; "DB_PORT" ]%string.

(** ** Reading an encoded text back

    No code of the repository reads the password back; the inverse below
    only serves to show that the encoding loses nothing. *)




Fixpoint str_forall (p : ascii -> bool) (s : string) : bool :=
  match s with
  | EmptyString => true
  | String c s' => p c && str_forall p s'
  end.

(** What [quote_plus] makes of one byte. *)
Definition encoded_byte (c : ascii) : string :=
  if always_safe c then String c EmptyString
  else if Ascii.eqb c " " then "+"%string
  else percent c.

Fixpoint encoded (s : string) : string :=
  match s with
  | EmptyString => EmptyString
  | String c s' => String.append (encoded_byte c) (encoded s')
  end.

(** ** The window of the page ([main], [app.py]) *)

Definition day_ns : Z := 24 * hour_ns.
Definition microsecond_ns : Z := 1000.

(** [datetime.now().date()], as the number of the day; [now] is the wall
    clock of [datetime.now()], here in nanoseconds. *)
Definition today (now : Z) : Z := now / day_ns.

(** [start_dt] and [end_dt] of [main]: the first moment of yesterday,
    [datetime.combine(today - timedelta(days=1), datetime.min.time())], and
    the last microsecond of today,
    [datetime.combine(today, datetime.max.time())]. *)
Definition date_range (now : Z) : Z * Z :=
  ((today now - 1) * day_ns, today now * day_ns + day_ns - microsecond_ns).

(** Half past midnight on 2023-11-15, two hours after the sample run. *)
Definition page_now : Z := sample_now + 2 * hour_ns.

(** ** The file between the tasks: [to_csv] and [read_csv] *)

(** The decimal digits of a natural number. *)
Definition decimal (n : Z) : string := NilZero.string_of_uint (N.to_uint (Z.to_N n)).

(** [n] written with exactly [k] digits, zeros in front. *)
Definition decimal_padded (k n : Z) : string :=
  match decimal (10 ^ k + n) with
  | String _ digits => digits
  | EmptyString => EmptyString
  end.

(** The shortest text of a float: with [v] the value of the float in units
    of [2^-sh], and [low] and [high] the ends of the interval of the numbers
    that round to it, the digits [d] of the decimal [d * 10^(e10 - n)] of [n]
    digits that lies in the interval, nearest to [v] and even on a tie, if
    there is one. *)
Definition shortest_digits (v low high : Z) (inclusive : bool) (sh e10 n : Z) : option Z :=
  let a := 10 ^ Z.max 0 (n - e10) in
  let b := 10 ^ Z.max 0 (e10 - n) * 2 ^ sh in
  let d0 := v * a / b in
  let inside d :=
    if inclusive then (low * a <=? d * b) && (d * b <=? high * a)
    else (low * a <? d * b) && (d * b <? high * a) in
  let distance d := Z.abs (d * b - v * a) in
  match inside d0, inside (d0 + 1) with
  | true, true =>
      if distance d0 <? distance (d0 + 1) then Some d0
      else if distance (d0 + 1) <? distance d0 then Some (d0 + 1)
      else if Z.even d0 then Some d0 else Some (d0 + 1)
  | true, false => Some d0
  | false, true => Some (d0 + 1)
  | false, false => None
  end.

(** The least number of digits, from [n] on, that gives such a decimal. *)
Fixpoint shortest (fuel : nat) (v low high : Z) (inclusive : bool) (sh e10 n : Z)
    : option (Z * Z) :=
  match fuel with
  | O => None
  | S fuel' =>
      match shortest_digits v low high inclusive sh e10 n with
      | Some d => Some (d, n)
      | None => shortest fuel' v low high inclusive sh e10 (n + 1)
      end
  end.

(** The number of digits before the point: the least [e10 >= 1] with
    [v * 2^-sh < 10^e10]. *)
Fixpoint integer_digits (fuel : nat) (v sh e10 : Z) : Z :=
  match fuel with
  | O => e10
  | S fuel' => if v <? 10 ^ e10 * 2 ^ sh then e10 else integer_digits fuel' v sh (e10 + 1)
  end.

(** [digits * 10^-k] in positional notation, without trailing zeros but
    with one digit after the point at least. *)
Fixpoint strip_zeros (fuel : nat) (digits k : Z) : Z * Z :=
  match fuel with
  | O => (digits, k)
  | S fuel' =>
      if (0 <? k) && (digits mod 10 =? 0) then strip_zeros fuel' (digits / 10) (k - 1)
      else (digits, k)
  end.

Definition positional (digits k : Z) : string :=
  let (digits, k) := strip_zeros 17 digits k in
  String.append (decimal (digits / 10 ^ k))
    (String.append "."
       (if k =? 0 then "0"%string else decimal_padded k (digits mod 10 ^ k))).

(** The text [to_csv] writes for a cell of a [float64] column: nothing for
    [NaN], and otherwise the shortest decimal that reads back to the float,
    as [repr] gives it.  The embedding follows the floats from 1 to
    [10^16] in magnitude, which are written without an exponent, and zero. *)
Definition float_text (f : float) : result string :=
  match Prim2SF f with
  | S754_nan => Ok EmptyString
  | S754_zero s => Ok (if s then "-0.0" else "0.0")%string
  | S754_infinity _ => Raise OutsideModel
  | S754_finite s m e =>
      let m := Z.pos m in
      let sh := 2 - e in
      let v := 4 * m in
      if (2 ^ 52 <=? m) && (-52 <=? e) && (e <=? 1) && (v <? 10 ^ 16 * 2 ^ sh) then
        let low := if m =? 2 ^ 52 then v - 1 else v - 2 in
        let high := v + 2 in
        let e10 := integer_digits 16 v sh 1 in
        match shortest 17 v low high (Z.even m) sh e10 1 with
        | Some (d, n) =>
            let text :=
              if n <=? e10 then positional (d * 10 ^ (e10 - n)) 0
              else positional d (n - e10) in
            Ok (if s then String "-" text else text)
        | None => Raise OutsideModel
        end
      else Raise OutsideModel
  end.

Definition digit_value (c : ascii) : option Z :=
  let n := Z.of_N (Ascii.N_of_ascii c) in
  if (48 <=? n) && (n <=? 57) then Some (n - 48) else None.

(** The first loop of pandas' [precise_xstrtod], over the digits before
    the point: up to 17 digits are taken into [number], in binary64; each
    further one raises [exponent]. *)
Fixpoint integer_part (s : string) (number : float) (num_digits exponent : Z)
    : string * float * Z * Z :=
  match s with
  | String c s' =>
      match digit_value c with
      | Some d =>
          if num_digits <? 17
          then integer_part s' (number * 10 + float_of_int64 d)%float (num_digits + 1) exponent
          else integer_part s' number num_digits (exponent + 1)
      | None => (s, number, num_digits, exponent)
      end
  | EmptyString => (s, number, num_digits, exponent)
  end.

(** Its second loop, over the digits after the point: digits past the
    seventeenth are passed over. *)
Fixpoint decimal_part (s : string) (number : float) (num_digits num_decimals : Z)
    : string * float * Z * Z :=
  match s with
  | String c s' =>
      match digit_value c with
      | Some d =>
          if num_digits <? 17
          then decimal_part s' (number * 10 + float_of_int64 d)%float (num_digits + 1)
                 (num_decimals + 1)
          else decimal_part s' number num_digits num_decimals
      | None => (s, number, num_digits, num_decimals)
      end
  | EmptyString => (s, number, num_digits, num_decimals)
  end.

(** [precise_xstrtod], the converter [read_csv] uses for a [float64] cell
    by default, on a text with an optional sign, digits, and digits after a
    point: the digits are gathered in binary64 and the result is scaled by
    the power of ten, which is exact up to [10^18].  Texts with an exponent
    and longer scalings are outside the embedding. *)
Definition precise_xstrtod (s : string) : result float :=
  let (negative, s) :=
    match s with
    | String "-" s' => (true, s')
    | String "+" s' => (false, s')
    | _ => (false, s)
    end in
  let '(s, number, num_digits, exponent) := integer_part s 0 0 0 in
  let '(s, number, num_digits, num_decimals) :=
    match s with
    | String "." s' => decimal_part s' number num_digits 0
    | _ => (s, number, num_digits, 0)
    end in
  let exponent := exponent - num_decimals in
  match s with
  | EmptyString =>
      if num_digits =? 0 then Raise OutsideModel
      else
        let number := if negative then (- number)%float else number in
        if (-18 <=? exponent) && (exponent <=? 0)
        then Ok (number / float_of_int64 (10 ^ (- exponent)))%float
        else Raise OutsideModel
  | String _ _ => Raise OutsideModel
  end.

(** The float [read_csv] reads from the text [to_csv] wrote for a float. *)
Definition csv_float (f : float) : result float :=
  text ← float_text f;
  match text with
  | EmptyString => Ok PrimFloat.nan
  | _ => precise_xstrtod text
  end.

(** The texts [read_csv] takes for a missing value. *)
Definition na_values : list string :=
  [ ""; "#N/A"; "#N/A N/A"; "#NA"; "-1.#IND"; "-1.#QNAN"; "-NaN"; "-nan"; "1.#IND";
    "1.#QNAN"; "<NA>"; "N/A"; "NA"; "NULL"; "NaN"; "n/a"; "nan"; "null" ]%string.

(** Words that, in some spelling, [read_csv] may take for a missing value, a
    number or a truth value; apart from the spellings of [na_values], the
    embedding does not say what it reads from them. *)
Definition reserved_words : list string :=
  [ "na"; "n/a"; "nan"; "null"; "none"; "<na>"; "inf"; "infinity"; "true"; "false" ]%string.

Definition plain_byte (c : ascii) : bool :=
  let n := Ascii.N_of_ascii c in ((32 <=? n) && negb (n =? 127))%N.

Definition starts_with_letter (s : string) : bool :=
  match s with
  | String c _ =>
      let n := Ascii.N_of_ascii c in
      ((65 <=? n) && (n <=? 90) || (97 <=? n) && (n <=? 122) || (128 <=? n))%N
  | EmptyString => false
  end.

(** The cell [read_csv] reads from the text [to_csv] wrote for a text: a
    missing value for a text of [na_values], and the text itself when it
    starts with a letter, holds no control character and is none of the
    reserved words, so that it cannot be read as a number.  Other texts are
    outside the embedding. *)
Definition csv_text (s : string) : result value :=
  if existsb (String.eqb s) na_values then Ok (VFloat PrimFloat.nan)
  else if starts_with_letter s && str_forall plain_byte s && utf8_valid s
          && negb (existsb (String.eqb (str_lower s)) reserved_words)
  then Ok (VStr s)
  else Raise OutsideModel.

(** The cell [pd.read_csv(CLEAN_PATH)] gives [load] for a cell of the frame
    [transform] wrote with [to_csv(CLEAN_PATH, index=False)].  A null and a
    [NaN] are written as nothing and come back as [NaN]; an integer and a
    truth value come back as they were; a float comes back as
    [precise_xstrtod] reads its text; a timestamp is written to the
    microsecond and comes back as the text the database reads the same
    timestamp from. *)
Definition csv_cell (v : value) : result value :=
  match v with
  | VNone => Ok (VFloat PrimFloat.nan)
  | VBool b => Ok (VBool b)
  | VInt z => if in_int64 z then Ok (VInt z) else Raise OutsideModel
  | VFloat f =>
      x ← csv_float f;
      Ok (VFloat x)
  | VStr s => csv_text s
  | VTimestamp t => if t mod 1000 =? 0 then Ok (VTimestamp t) else Raise OutsideModel
  | VList _ | VDict _ => Raise OutsideModel
  end.

(** The frame [load] reads back from the file [transform] wrote: the same
    columns, which [transform] never names twice, each with the cell read
    back. *)
Fixpoint distinct (l : list string) : bool :=
  match l with
  | [] => true
  | x :: l' => negb (existsb (String.eqb x) l') && distinct l'
  end.

Definition read_back (df : frame) : result frame :=
  if distinct (columns df) then
    map_result
      (fun kv =>
         cell ← csv_cell (snd kv);
         Ok (fst kv, cell)) df
  else Raise OutsideModel.

(** The observation of the scenario on a day of 298.21 K. *)
Definition warm : value :=
  match rio with
  | VDict d =>
      VDict (frame_set "main"
               (VDict [("temp", VFloat 298.21); ("feels_like", VFloat 298.0);
                       ("temp_min", VFloat 297.0); ("temp_max", VFloat 299.5);
                       ("pressure", VInt 1012); ("humidity", VInt 80)]) d)
  | v => v
  end.

Definition warm_row : frame :=
  match transform warm sample_now with
  | Ok row => row
  | Raise _ => []
  end.

(** The storage after the run of that day, from an empty database, and the
    row it stored. *)
Definition warm_run : db :=
  match read_back warm_row ≫= fun df => load df ∅ with
  | Ok st => st
  | Raise _ => ∅
  end.

Definition warm_stored : frame :=
  match lookup_table "weather" "weather_data" warm_run with
  | Some t => default [] (last (tbl_rows t))
  | None => []
  end.


(** * Properties *)

(** Unfolds the binds of [result] and of [option] once their first
    computation is known. *)
Ltac result_simpl :=
  cbn [mbind mret result_bind result_ret option_bind option_ret] in *.

(** ** Unit conversion *)

(** C7. The temperature shown is the stored Celsius value itself when the
    Fahrenheit switch is off and [C * 9 / 5 + 32] when it is on, so 0 shows
    as 32 and 100 as 212; the conversion is applied to the hourly means when
    the chart is drawn, over the Celsius values the query returned. *)
Theorem temp_display_unit :
  (forall temp_c, temp_display temp_c false = temp_c) /\
  (forall temp_c, temp_display temp_c true = (temp_c * 9 / 5 + 32)%float) /\
  temp_display 0 true = 32%float /\
  temp_display 100 true = 212%float /\
  (forall df use_fahrenheit points unit,
     render_hourly_chart df use_fahrenheit = Ok (AreaChart points unit) ->
     exists hourly,
       hourly_mean "temperature_c" df = Ok hourly /\
       unit = use_fahrenheit /\
       points = map (fun bx => (fst bx, temp_display (snd bx) use_fahrenheit)) hourly).
Proof.
  repeat split; try reflexivity.
  intros df use_fahrenheit points unit H.
  unfold render_hourly_chart in H.
  destruct df as [|r df]; [discriminate|].
  destruct (hourly_mean "temperature_c" (r :: df)) as [hourly|e]; simpl in H; [|discriminate].
  destruct hourly as [|p hourly]; [discriminate|].
  injection H as <- <-. eexists; repeat split; reflexivity.
Qed.





(** ** Hourly buckets *)

Lemma hour_ns_pos : 0 < hour_ns.
Proof. reflexivity. Qed.

(** A bucket starts on the hour and holds the stamps of that hour. *)
Lemma bucket_start_spec (t : Z) :
  bucket_start t mod hour_ns = 0 /\ bucket_start t <= t < bucket_start t + hour_ns.
Proof.
  unfold bucket_start. pose proof hour_ns_pos as Hpos.
  split.
  - apply Z.mod_mul. lia.
  - pose proof (Z.mul_div_le t hour_ns Hpos).
    pose proof (Z.mul_succ_div_gt t hour_ns Hpos). lia.
Qed.

(** Two stamps share a bucket exactly when they lie in the same hour. *)
Lemma bucket_start_unique (t b : Z) :
  b mod hour_ns = 0 -> b <= t < b + hour_ns -> bucket_start t = b.
Proof.
  intros Hb Ht. unfold bucket_start. pose proof hour_ns_pos as Hpos.
  apply Z.mod_divide in Hb; [|lia]. destruct Hb as [q ->].
  f_equal. symmetry. apply (Z.div_unique_pos t hour_ns q (t - q * hour_ns)); lia.
Qed.

Lemma mean_nil_nan : PrimFloat.is_nan (mean []) = true.
Proof. reflexivity. Qed.

Lemma map_result_In {A B} (f : A -> result B) (l : list A) (l' : list B) (y : B) :
  map_result f l = Ok l' -> In y l' -> exists x, In x l /\ f x = Ok y.
Proof.
  revert l'. induction l as [|a l IH]; intros l' H Hy; simpl in H.
  - injection H as <-. destruct Hy.
  - destruct (f a) as [b|e] eqn:Hfa; simpl in H; [|discriminate].
    destruct (map_result f l) as [rest|e] eqn:Hrest; simpl in H; [|discriminate].
    injection H as <-. destruct Hy as [<-|Hy].
    + exists a. split; [now left|exact Hfa].
    + destruct (IH rest eq_refl Hy) as (x & Hx & Hfx).
      exists x. split; [now right|exact Hfx].
Qed.

Lemma contributors_In (b : Z) (s : list (Z * float)) (x : float) :
  In x (contributors b s) <->
  exists t, In (t, x) s /\ bucket_start t = b /\ PrimFloat.is_nan x = false.
Proof.
  unfold contributors. rewrite in_map_iff. split.
  - intros ([t x'] & Hx & Hin). simpl in Hx. subst x'.
    apply filter_In in Hin. destruct Hin as [Hin Hc]. simpl in Hc.
    apply andb_true_iff in Hc. destruct Hc as [Hb Hn].
    exists t. repeat split; [exact Hin|lia|].
    now destruct (PrimFloat.is_nan x).
  - intros (t & Hin & Hb & Hn). exists (t, x). split; [reflexivity|].
    apply filter_In. split; [exact Hin|]. simpl. rewrite Hn.
    apply andb_true_iff. split; [lia|reflexivity].
Qed.

(** Every row of the indexed series comes from a row of the frame. *)
Lemma indexed_series_In (key : string) (df : list frame) (s : list (Z * float))
    (t : Z) (x : float) :
  indexed_series key df = Ok s -> In (t, x) s ->
  exists r, In r df /\ frame_ts r = Some t /\
            (getitem key r ≫= float_cell) = Ok x.
Proof.
  intros Hs Hin. unfold indexed_series in Hs.
  destruct (map_result_In _ _ _ _ Hs Hin) as (r & Hr & Hf).
  exists r. split; [exact Hr|].
  cbn beta in Hf. unfold frame_ts.
  destruct (getitem "collection_timestamp" r) as [index|e] eqn:Hidx; cbn in Hf; [|discriminate].
  unfold getitem in Hidx.
  destruct (frame_get "collection_timestamp" r) as [index'|]; [|discriminate].
  injection Hidx as ->.
  destruct (getitem key r) as [v|e]; cbn in Hf |- *; [|discriminate].
  destruct (float_cell v) as [x'|e]; cbn in Hf; [|discriminate].
  destruct index; try discriminate. injection Hf as <- <-. split; reflexivity.
Qed.

(** What [hourly_mean] emits for a bucket is the mean of at least one
    value. *)
Lemma hourly_mean_In (key : string) (df : list frame) (hourly : list (Z * float))
    (b : Z) (m : float) :
  hourly_mean key df = Ok hourly -> In (b, m) hourly ->
  exists s, indexed_series key df = Ok s /\
            m = mean (contributors b s) /\ contributors b s <> [].
Proof.
  intros H Hin. unfold hourly_mean in H.
  destruct (indexed_series key df) as [s|e]; simpl in H; [|discriminate].
  injection H as <-. exists s. split; [reflexivity|].
  apply filter_In in Hin. destruct Hin as [Hin Hnan]. simpl in Hnan.
  assert (Hm : m = mean (contributors b s)).
  { unfold resample_mean in Hin. destruct s as [|[t0 x0] s]; [destruct Hin|].
    apply in_map_iff in Hin. destruct Hin as (b' & Heq & _).
    injection Heq as -> ->. reflexivity. }
  split; [exact Hm|].
  intros Hnil. rewrite Hnil in Hm. subst m. rewrite mean_nil_nan in Hnan. discriminate.
Qed.

Lemma ninety_minutes_apart (t1 t2 : Z) :
  Z.abs (t2 - t1) = 90 * minute_ns -> bucket_start t1 <> bucket_start t2.
Proof.
  intros H Heq.
  pose proof (bucket_start_spec t1) as [_ H1].
  pose proof (bucket_start_spec t2) as [_ H2].
  rewrite Heq in H1. unfold minute_ns, hour_ns in *. lia.
Qed.

Lemma ten_minutes_apart (t1 t2 : Z) :
  t2 - t1 = 10 * minute_ns ->
  (t1 - bucket_start t1 < 50 * minute_ns -> bucket_start t2 = bucket_start t1) /\
  (50 * minute_ns <= t1 - bucket_start t1 -> bucket_start t2 = bucket_start t1 + hour_ns).
Proof.
  intros H. pose proof (bucket_start_spec t1) as [Hm H1].
  split; intros Hoff; apply bucket_start_unique.
  - exact Hm.
  - unfold minute_ns, hour_ns in *. lia.
  - rewrite <- Z.add_mod_idemp_l, Hm by (unfold hour_ns; lia). reflexivity.
  - unfold minute_ns, hour_ns in *. lia.
Qed.

(** C3, as stated, fails for two readings ten minutes apart that straddle
    an hour: 10:55 falls in the bucket of 10:00 and 11:05 in the bucket of
    11:00, and [hourly_mean] emits both. *)
Lemma ten_minutes_apart_two_buckets :
  at_11_05 - at_10_55 = 10 * minute_ns /\
  bucket_start at_10_55 = at_10_00 /\
  bucket_start at_11_05 = at_11_00 /\
  hourly_mean "humidity" [humidity_row at_10_55 40; humidity_row at_11_05 60]
  = Ok [(at_10_00, 40%float); (at_11_00, 60%float)].
Proof. repeat split; reflexivity. Qed.

(** The scenario of the specification: readings of 40 at 10:05 and of 60
    at 11:50 give the buckets 10:00 with 40 and 11:00 with 60. *)
Example hourly_mean_scenario :
  hourly_mean "humidity" [humidity_row at_10_05 40; humidity_row at_11_50 60]
  = Ok [(at_10_00, 40%float); (at_11_00, 60%float)].
Proof. reflexivity. Qed.

(** Three readings in one hour: the mean is the compensated sum over three,
    [0.19999999999999998], where adding from the left would give
    [0.20000000000000004]. *)
Example hourly_mean_compensated :
  hourly_mean "humidity"
    [humidity_row at_10_05 0.1; humidity_row (at_10_05 + 10 * minute_ns) 0.2;
     humidity_row (at_10_05 + 20 * minute_ns) 0.3]
  = Ok [(at_10_00, 0.19999999999999998%float)] /\
  ((0.1 + 0.2 + 0.3) / 3 = 0.20000000000000004)%float.
Proof. split; reflexivity. Qed.

(** C3, amended. [hourly_mean] groups the rows by the wall-clock hour of
    their [collection_timestamp] and averages the metric in each hour: every
    bucket it emits starts on the hour, carries the mean of the values
    stamped within that hour and has at least one row of the frame behind it;
    two readings 90 minutes apart fall in different buckets; two readings 10
    minutes apart fall in the same bucket when the earlier one lies less than
    50 minutes into its hour, and in consecutive buckets otherwise. *)
Theorem hourly_mean_buckets :
  (forall key df hourly b m,
     hourly_mean key df = Ok hourly -> In (b, m) hourly ->
     b mod hour_ns = 0 /\
     exists s, indexed_series key df = Ok s /\
       m = mean (contributors b s) /\
       exists r t x, In r df /\ frame_ts r = Some t /\ bucket_start t = b /\
                     (getitem key r ≫= float_cell) = Ok x /\
                     PrimFloat.is_nan x = false /\ In x (contributors b s)) /\
  (forall b s x,
     In x (contributors b s) <->
     exists t, In (t, x) s /\ b <= t < b + hour_ns /\ bucket_start t = b /\
               PrimFloat.is_nan x = false) /\
  (forall t1 t2,
     Z.abs (t2 - t1) = 90 * minute_ns -> bucket_start t1 <> bucket_start t2) /\
  (forall t1 t2,
     t2 - t1 = 10 * minute_ns ->
     (t1 - bucket_start t1 < 50 * minute_ns -> bucket_start t2 = bucket_start t1) /\
     (50 * minute_ns <= t1 - bucket_start t1 ->
      bucket_start t2 = bucket_start t1 + hour_ns)).
Proof.
  split; [|split; [|split]].
  - intros key df hourly b m H Hin.
    destruct (hourly_mean_In _ _ _ _ _ H Hin) as (s & Hs & Hm & Hne).
    destruct (contributors b s) as [|x xs] eqn:Hc; [congruence|].
    assert (Hx : In x (contributors b s)) by (rewrite Hc; now left).
    pose proof Hx as Hx'. apply contributors_In in Hx'.
    destruct Hx' as (t & Ht & Hb & Hn).
    destruct (indexed_series_In _ _ _ _ _ Hs Ht) as (r & Hr & Hts & Hv).
    split.
    { rewrite <- Hb. apply bucket_start_spec. }
    exists s. rewrite Hc. repeat split; [exact Hs|exact Hm|].
    exists r, t, x. rewrite <- Hc. repeat split; assumption.
  - intros b s x. rewrite contributors_In. split.
    + intros (t & Hin & Hb & Hn). exists t. repeat split; try assumption;
        rewrite <- Hb; apply bucket_start_spec.
    + intros (t & Hin & _ & Hb & Hn). exists t. repeat split; assumption.
  - exact ninety_minutes_apart.
  - exact ten_minutes_apart.
Qed.

Lemma hourly_mean_buckets_witness :
  bucket_start at_10_05 <> bucket_start (at_10_05 + 90 * minute_ns) /\
  bucket_start (at_10_05 + 10 * minute_ns) = bucket_start at_10_05 /\
  bucket_start at_11_05 = bucket_start at_10_55 + hour_ns.
Proof.
  destruct hourly_mean_buckets as (_ & _ & H90 & H10).
  split; [|split].
  - apply H90. reflexivity.
  - apply (H10 at_10_05 (at_10_05 + 10 * minute_ns)); reflexivity.
  - apply (H10 at_10_55 at_11_05); [reflexivity|]. vm_compute. discriminate.
Defined.

(** ** Provisioning *)

Lemma load_provision (df : frame) (st : db) :
  load df st = provision st ≫= to_sql "weather_data" "weather" df.
Proof.
  unfold load, provision.
  destruct (_ensure_schema_exists st) as [st1|e]; reflexivity.
Qed.

(** What provisioning returns, by what it finds. *)
Lemma provision_cases (st : db) :
  match st !! "weather" with
  | None =>
      provision st = Ok (<["weather" := {["weather_data" := fresh_weather_data]}]> st)
  | Some tables =>
      match tables !! "weather_data" with
      | Some _ => provision st = Ok st
      | None =>
          provision st
          = Ok (<["weather" := <["weather_data" := fresh_weather_data]> tables]> st)
      end
  end.
Proof.
  unfold provision, _ensure_schema_exists, _ensure_table_exists,
    create_schema_if_not_exists, create_table_if_not_exists.
  destruct (st !! "weather") as [tables|] eqn:Hs; cbn.
  - rewrite Hs. destruct (tables !! "weather_data"); reflexivity.
  - rewrite lookup_insert_eq, lookup_empty. cbn.
    rewrite insert_insert_eq. reflexivity.
Qed.

(** What provisioning does to the catalog. *)
Lemma provision_outcome (st : db) :
  exists st1,
    provision st = Ok st1 /\
    provision st1 = Ok st1 /\
    (forall schema name t,
       lookup_table schema name st = Some t -> lookup_table schema name st1 = Some t) /\
    (forall schema, schema <> "weather" -> st1 !! schema = st !! schema) /\
    (forall name,
       name <> "weather_data" ->
       lookup_table "weather" name st1 = lookup_table "weather" name st) /\
    lookup_table "weather" "weather_data" st1
    = Some (default fresh_weather_data (lookup_table "weather" "weather_data" st)) /\
    dom st1 = {["weather"]} ∪ dom st.
Proof.
  pose proof (provision_cases st) as H. unfold lookup_table.
  destruct (st !! "weather") as [tables|] eqn:Hs.
  - destruct (tables !! "weather_data") as [t0|] eqn:Ht.
    + exists st. rewrite Hs. cbn. rewrite Ht. repeat split; try done.
      apply set_eq. intros k. rewrite elem_of_union, elem_of_singleton.
      split; [tauto|]. intros [->|Hk]; [|exact Hk].
      apply elem_of_dom. eauto.
    + eexists. split; [exact H|].
      split; [|split; [|split; [|split; [|split]]]].
      * pose proof (provision_cases
          (<["weather" := <["weather_data" := fresh_weather_data]> tables]> st)) as H2.
        rewrite lookup_insert_eq in H2. rewrite lookup_insert_eq in H2. exact H2.
      * intros schema name t Hl.
        destruct (decide (schema = "weather")) as [->|Hne].
        -- rewrite lookup_insert_eq. rewrite Hs in Hl. cbn in Hl |- *.
           destruct (decide (name = "weather_data")) as [->|Hn]; [congruence|].
           rewrite lookup_insert_ne by congruence. exact Hl.
        -- rewrite lookup_insert_ne by congruence. exact Hl.
      * intros schema Hne. rewrite lookup_insert_ne by congruence. reflexivity.
      * intros name Hn. rewrite lookup_insert_eq. cbn.
        rewrite lookup_insert_ne by congruence. reflexivity.
      * rewrite lookup_insert_eq. cbn. rewrite lookup_insert_eq, Ht. reflexivity.
      * rewrite dom_insert_L. reflexivity.
  - eexists. split; [exact H|].
    split; [|split; [|split; [|split; [|split]]]].
    * pose proof (provision_cases
        (<["weather" := {["weather_data" := fresh_weather_data]}]> st)) as H2.
      rewrite lookup_insert_eq in H2. rewrite lookup_singleton_eq in H2. exact H2.
    * intros schema name t Hl.
      destruct (decide (schema = "weather")) as [->|Hne].
      -- rewrite Hs in Hl. discriminate.
      -- rewrite lookup_insert_ne by congruence. exact Hl.
    * intros schema Hne. rewrite lookup_insert_ne by congruence. reflexivity.
    * intros name Hn. rewrite lookup_insert_eq. cbn.
      rewrite lookup_singleton_ne by congruence. reflexivity.
    * rewrite lookup_insert_eq. cbn. rewrite lookup_singleton_eq. reflexivity.
    * rewrite dom_insert_L. reflexivity.
Qed.

(** C6. Provisioning succeeds on every state of the storage, and a second
    run straight after returns the state of the first unchanged. It creates
    the schema and the table only where they are missing: every table there
    before is still there as it was, with its columns and rows, and every
    other schema is untouched. *)
Theorem provision_idempotent (st : db) :
  exists st1,
    provision st = Ok st1 /\
    provision st1 = Ok st1 /\
    (forall schema name t,
       lookup_table schema name st = Some t -> lookup_table schema name st1 = Some t) /\
    (forall schema, schema <> "weather" -> st1 !! schema = st !! schema) /\
    (forall name,
       name <> "weather_data" ->
       lookup_table "weather" name st1 = lookup_table "weather" name st) /\
    lookup_table "weather" "weather_data" st1
    = Some (default fresh_weather_data (lookup_table "weather" "weather_data" st)) /\
    dom st1 = {["weather"]} ∪ dom st.
Proof. exact (provision_outcome st). Qed.

(** ** Frames *)

Lemma frame_get_set_eq (k : string) (v : value) (df : frame) :
  frame_get k (frame_set k v df) = Some v.
Proof.
  induction df as [|[c w] df IH]; simpl.
  - now rewrite String.eqb_refl.
  - destruct (String.eqb c k) eqn:E; simpl; rewrite E; [reflexivity|exact IH].
Qed.

Lemma frame_get_set_ne (k k' : string) (v : value) (df : frame) :
  k <> k' -> frame_get k' (frame_set k v df) = frame_get k' df.
Proof.
  intros Hne. induction df as [|[c w] df IH]; simpl.
  - apply String.eqb_neq in Hne. now rewrite Hne.
  - destruct (String.eqb c k) eqn:E; simpl.
    + apply String.eqb_eq in E. subst c.
      apply String.eqb_neq in Hne. now rewrite Hne.
    + destruct (String.eqb c k'); [reflexivity|exact IH].
Qed.

Lemma frame_set_same (k : string) (v : value) (df : frame) :
  frame_get k df = Some v -> frame_set k v df = df.
Proof.
  induction df as [|[c w] df IH]; simpl; [discriminate|].
  destruct (String.eqb c k); intros H.
  - now injection H as ->.
  - now rewrite IH.
Qed.

Lemma columns_frame_set_same (k : string) (v : value) (df : frame) :
  has_col k df = true -> columns (frame_set k v df) = columns df.
Proof.
  unfold has_col. induction df as [|[c w] df IH]; simpl; [discriminate|].
  destruct (String.eqb c k); intros H; simpl; [reflexivity|].
  now rewrite IH.
Qed.

Lemma has_col_In (k : string) (df : frame) :
  has_col k df = true <-> In k (columns df).
Proof.
  unfold has_col. induction df as [|[c w] df IH]; simpl.
  - split; [discriminate|tauto].
  - destruct (String.eqb_spec c k) as [->|Hne].
    + split; auto.
    + rewrite IH. split; [auto|]. intros [E|H]; [contradiction|exact H].
Qed.

(** ** Appending *)

(** What [insert_row] does when it succeeds. *)
Lemma insert_row_Ok (t t' : table) (df : frame) :
  insert_row t df = Ok t' ->
  exists row,
    unknown_column (tbl_columns t) df = None /\
    cells_for (tbl_serial t) df (tbl_columns t) = Ok row /\
    not_null_violation (tbl_columns t) row = None /\
    t' = Table (tbl_columns t) (tbl_rows t ++ [row]) (tbl_serial t + 1).
Proof.
  unfold insert_row. intros H.
  destruct (unknown_column (tbl_columns t) df); [discriminate|].
  destruct (cells_for (tbl_serial t) df (tbl_columns t)) as [row|e]; cbn in H; [|discriminate].
  destruct (not_null_violation (tbl_columns t) row) eqn:Hnn; [discriminate|].
  injection H as <-. exists row. repeat split; assumption.
Qed.

Lemma cells_for_columns (n : Z) (df : frame) (cols : list column_def) (row : frame) :
  cells_for n df cols = Ok row -> columns row = map col_name cols.
Proof.
  revert row. induction cols as [|c cols IH]; intros row H; simpl in H.
  - now injection H as <-.
  - destruct (cell_for n df c) as [cell|e] eqn:Hc; cbn in H; [|discriminate].
    destruct (cells_for n df cols) as [rest|e]; cbn in H; [|discriminate].
    injection H as <-. simpl. rewrite (IH rest eq_refl). f_equal.
    unfold cell_for in Hc.
    destruct (frame_get (col_name c) df) as [v|].
    + destruct (col_type c); try discriminate;
        (destruct (store _ (sql_param v)); cbn in Hc; [|discriminate]);
        now injection Hc as <-.
    + destruct (col_type c); now injection Hc as <-.
Qed.

(** Two cells that differ at most in the number drawn from the sequence,
    and not at all in a column the frame fills. *)
Definition same_cell (df : frame) (a b : string * value) : Prop :=
  fst a = fst b /\
  (snd a = snd b \/
   (has_col (fst a) df = false /\ exists z z', snd a = VInt z /\ snd b = VInt z')).

Lemma cell_for_fst (n : Z) (df : frame) (c : column_def) (cell : string * value) :
  cell_for n df c = Ok cell -> fst cell = col_name c.
Proof.
  unfold cell_for. intros H.
  destruct (frame_get (col_name c) df) as [v|].
  - destruct (col_type c); try discriminate;
      (destruct (store _ (sql_param v)); result_simpl; [|discriminate]);
      now injection H as <-.
  - destruct (col_type c); now injection H as <-.
Qed.

Lemma cell_for_serial (n n' : Z) (df : frame) (c : column_def) (cell : string * value) :
  cell_for n df c = Ok cell ->
  exists cell', cell_for n' df c = Ok cell' /\ same_cell df cell cell'.
Proof.
  intros H. pose proof (cell_for_fst _ _ _ _ H) as Hfst.
  unfold cell_for in *. unfold same_cell, has_col.
  destruct (frame_get (col_name c) df) as [v|] eqn:Hg.
  - exists cell. destruct (col_type c); try discriminate;
      (split; [exact H|split; [reflexivity|now left]]).
  - destruct (col_type c); injection H as <-; eexists; (split; [reflexivity|]);
      (split; [reflexivity|]); simpl; rewrite Hg; try (now left); right; eauto.
Qed.

Lemma cells_for_serial (n n' : Z) (df : frame) (cols : list column_def) (row : frame) :
  cells_for n df cols = Ok row ->
  exists row', cells_for n' df cols = Ok row' /\ Forall2 (same_cell df) row row'.
Proof.
  revert row. induction cols as [|c cols IH]; intros row H; simpl in H.
  - injection H as <-. exists []. split; [reflexivity|constructor].
  - destruct (cell_for n df c) as [cell|e] eqn:Hc; result_simpl; [|discriminate].
    destruct (cells_for n df cols) as [rest|e]; result_simpl; [|discriminate].
    injection H as <-.
    destruct (cell_for_serial n n' df c cell Hc) as (cell' & Hc' & Hs).
    destruct (IH rest eq_refl) as (rest' & Hr' & HF).
    exists (cell' :: rest'). simpl. rewrite Hc', Hr'. result_simpl.
    split; [reflexivity|now constructor].
Qed.

Lemma same_cell_get (df : frame) (k : string) (row row' : frame) :
  Forall2 (same_cell df) row row' ->
  match frame_get k row, frame_get k row' with
  | Some a, Some b =>
      a = b \/ (has_col k df = false /\ exists z z', a = VInt z /\ b = VInt z')
  | None, None => True
  | _, _ => False
  end.
Proof.
  induction 1 as [|[c a] [c' b] row row' [Hk Hv] HF IH]; simpl; [exact I|].
  simpl in Hk, Hv. subst c'.
  destruct (String.eqb_spec c k) as [->|Hne]; [exact Hv|exact IH].
Qed.

(** The two rows agree on every column the frame fills. *)
Lemma same_cell_filled (df : frame) (k : string) (row row' : frame) :
  Forall2 (same_cell df) row row' -> has_col k df = true ->
  frame_get k row = frame_get k row'.
Proof.
  intros HF Hk. pose proof (same_cell_get df k row row' HF) as Hg.
  destruct (frame_get k row) as [a|], (frame_get k row') as [b|]; try contradiction;
    [|reflexivity].
  destruct Hg as [->|[Hno _]]; [reflexivity|congruence].
Qed.

Lemma same_cell_not_null (df : frame) (cols : list column_def) (row row' : frame) :
  Forall2 (same_cell df) row row' ->
  not_null_violation cols row = not_null_violation cols row'.
Proof.
  intros HF. induction cols as [|c cols IH]; simpl; [reflexivity|].
  pose proof (same_cell_get df (col_name c) row row' HF) as Hg.
  destruct (col_not_null c); [|exact IH].
  destruct (frame_get (col_name c) row) as [a|], (frame_get (col_name c) row') as [b|];
    try contradiction; [|reflexivity].
  destruct Hg as [->|(_ & z & z' & -> & ->)]; [|exact IH].
  destruct b; try reflexivity; exact IH.
Qed.

(** The cell stored for a column that the frame fills. *)
Lemma cells_for_get (n : Z) (df : frame) (cols : list column_def) (row : frame)
    (k : string) (v : value) :
  cells_for n df cols = Ok row ->
  frame_get k df = Some v ->
  existsb (fun c => String.eqb (col_name c) k) cols = true ->
  exists ty v', store ty (sql_param v) = Ok v' /\ frame_get k row = Some v'.
Proof.
  intros H Hv. revert row H. induction cols as [|c cols IH]; intros row H Hex; simpl in *.
  - discriminate.
  - destruct (cell_for n df c) as [cell|e] eqn:Hc; cbn in H; [|discriminate].
    destruct (cells_for n df cols) as [rest|e]; cbn in H; [|discriminate].
    injection H as <-. simpl.
    destruct (String.eqb_spec (col_name c) k) as [E|Hne].
    + unfold cell_for in Hc. rewrite E, Hv in Hc.
      destruct (col_type c) eqn:Hty; try discriminate;
        (destruct (store _ (sql_param v)) as [v'|] eqn:Hst; cbn in Hc; [|discriminate]);
        injection Hc as <-; simpl; rewrite ?E, String.eqb_refl; eauto.
    + pose proof (cell_for_fst _ _ _ _ Hc) as Hfst.
      destruct cell as [c0 w0]. simpl in Hfst. subst c0.
      apply String.eqb_neq in Hne. rewrite Hne. simpl in Hex.
      exact (IH rest eq_refl Hex).
Qed.

Lemma unknown_column_None (cols : list column_def) (df : frame) (k : string) :
  unknown_column cols df = None -> has_col k df = true ->
  existsb (fun c => String.eqb (col_name c) k) cols = true.
Proof.
  unfold has_col. induction df as [|[c w] df IH]; simpl; [discriminate|].
  destruct (existsb (fun c0 => String.eqb (col_name c0) c) cols) eqn:Hex; [|discriminate].
  intros Hu. destruct (String.eqb_spec c k) as [->|Hne]; [auto|].
  intros H. exact (IH Hu H).
Qed.

(** A second insertion of the same frame succeeds where the first did, and
    adds a row that differs at most in the number drawn from the sequence. *)
Lemma insert_row_again (t t1 : table) (df : frame) :
  insert_row t df = Ok t1 ->
  exists row1 row2,
    t1 = Table (tbl_columns t) (tbl_rows t ++ [row1]) (tbl_serial t + 1) /\
    insert_row t1 df
    = Ok (Table (tbl_columns t) (tbl_rows t ++ [row1; row2]) (tbl_serial t + 2)) /\
    cells_for (tbl_serial t) df (tbl_columns t) = Ok row1 /\
    cells_for (tbl_serial t + 1) df (tbl_columns t) = Ok row2 /\
    unknown_column (tbl_columns t) df = None /\
    Forall2 (same_cell df) row1 row2.
Proof.
  intros H. destruct (insert_row_Ok _ _ _ H) as (row1 & Hu & Hc & Hnn & ->).
  destruct (cells_for_serial _ (tbl_serial t + 1) _ _ _ Hc) as (row2 & Hc2 & HF).
  exists row1, row2. split; [reflexivity|]. split; [|auto].
  unfold insert_row. simpl. rewrite Hu, Hc2. cbn.
  rewrite <- (same_cell_not_null _ _ _ _ HF), Hnn.
  rewrite <- app_assoc. simpl. do 2 f_equal. lia.
Qed.

(** ** Loading *)

Abbreviation weather_data st := (lookup_table "weather" "weather_data" st).

Lemma provision_lookup (st stp : db) :
  provision st = Ok stp ->
  weather_data stp = Some (default fresh_weather_data (weather_data st)) /\
  provision stp = Ok stp.
Proof.
  intros H. destruct (provision_outcome st) as (st1 & H1 & H2 & _ & _ & _ & H3 & _).
  rewrite H in H1. injection H1 as ->. split; assumption.
Qed.

Lemma provision_existing (st : db) (t : table) :
  weather_data st = Some t -> provision st = Ok st.
Proof.
  intros H. pose proof (provision_cases st) as Hc. unfold lookup_table in H.
  destruct (st !! "weather") as [tables|]; [|discriminate]. cbn in H.
  now rewrite H in Hc.
Qed.

Lemma to_sql_Ok (df : frame) (st : db) (t t' : table) :
  weather_data st = Some t -> insert_row t df = Ok t' ->
  exists st', to_sql "weather_data" "weather" df st = Ok st' /\ weather_data st' = Some t'.
Proof.
  unfold lookup_table, to_sql. intros H Hi.
  destruct (st !! "weather") as [tables|]; [|discriminate]. cbn in H.
  rewrite H, Hi. result_simpl. eexists. split; [reflexivity|].
  rewrite lookup_insert_eq. result_simpl. apply lookup_insert_eq.
Qed.

Lemma to_sql_inv (df : frame) (st st' : db) :
  to_sql "weather_data" "weather" df st = Ok st' ->
  exists t t', weather_data st = Some t /\ insert_row t df = Ok t' /\
               weather_data st' = Some t'.
Proof.
  unfold lookup_table, to_sql. intros H.
  destruct (st !! "weather") as [tables|]; [|discriminate]. result_simpl.
  destruct (tables !! "weather_data") as [t|]; [|discriminate].
  destruct (insert_row t df) as [t'|e] eqn:Hi; result_simpl; [|discriminate].
  injection H as <-. exists t, t'. split; [reflexivity|split; [exact Hi|]].
  rewrite lookup_insert_eq. result_simpl. apply lookup_insert_eq.
Qed.

(** A successful [load] has inserted the frame into the table that was
    there, or into a fresh one. *)
Lemma load_inv (df : frame) (st st1 : db) :
  load df st = Ok st1 ->
  exists t1,
    insert_row (default fresh_weather_data (weather_data st)) df = Ok t1 /\
    weather_data st1 = Some t1.
Proof.
  rewrite load_provision. intros H.
  destruct (provision st) as [stp|e] eqn:Hp; cbn in H; [|discriminate].
  destruct (provision_lookup _ _ Hp) as [Hl _].
  destruct (to_sql_inv _ _ _ H) as (t & t' & Ht & Hi & Ht').
  rewrite Hl in Ht. injection Ht as <-. eauto.
Qed.

Lemma load_existing (df : frame) (st : db) (t t' : table) :
  weather_data st = Some t -> insert_row t df = Ok t' ->
  exists st', load df st = Ok st' /\ weather_data st' = Some t'.
Proof.
  intros Ht Hi. rewrite load_provision, (provision_existing _ _ Ht). cbn.
  exact (to_sql_Ok _ _ _ _ Ht Hi).
Qed.

(** ** Well-formed storage *)

Lemma fresh_weather_data_wf : table_wf fresh_weather_data.
Proof. split; [repeat constructor|constructor]. Qed.

Lemma insert_row_wf (t t' : table) (df : frame) :
  table_wf t -> insert_row t df = Ok t' -> table_wf t'.
Proof.
  intros [Hc Hr] H. destruct (insert_row_Ok _ _ _ H) as (row & _ & Hrow & _ & ->).
  split; simpl; [exact Hc|].
  apply Forall_app. split; [exact Hr|].
  constructor; [|constructor]. exact (cells_for_columns _ _ _ _ Hrow).
Qed.

Lemma db_wf_empty : db_wf ∅.
Proof. intros t H. unfold lookup_table in H. rewrite lookup_empty in H. discriminate. Qed.

(** The pipeline keeps the storage well formed. *)
Lemma load_wf (df : frame) (st st1 : db) :
  db_wf st -> load df st = Ok st1 -> db_wf st1.
Proof.
  intros Hwf H t1 Ht1. destruct (load_inv _ _ _ H) as (t1' & Hi & Ht1').
  change (weather_data st1 = Some t1) in Ht1.
  rewrite Ht1' in Ht1. injection Ht1 as ->.
  refine (insert_row_wf _ _ _ _ Hi).
  destruct (weather_data st) as [t|] eqn:Ht; simpl.
  - apply Hwf. exact Ht.
  - exact fresh_weather_data_wf.
Qed.

(** ** The series query *)

Lemma filters_selected (city : option string) (start_dt end_dt : Z) (r : frame) :
  forallb (fun f : frame -> bool => f r)
    (match city with
     | Some c =>
         if truthy city then [between start_dt end_dt] ++ [city_is c]
         else [between start_dt end_dt]
     | None => [between start_dt end_dt]
     end)
  = selected city start_dt end_dt r.
Proof.
  unfold selected. destruct city as [c|]; [destruct (truthy (Some c))|]; simpl;
    now rewrite ?andb_true_r.
Qed.

Lemma map_result_id {A} (f : A -> result A) (l : list A) :
  (forall x, In x l -> f x = Ok x) -> map_result f l = Ok l.
Proof.
  induction l as [|a l IH]; intros H; simpl; [reflexivity|].
  rewrite (H a) by now left. cbn. rewrite IH by (intros; apply H; now right).
  reflexivity.
Qed.

Lemma between_frame_ts (start_dt end_dt : Z) (r : frame) :
  between start_dt end_dt r = true <->
  exists ts, frame_ts r = Some ts /\ start_dt <= ts <= end_dt.
Proof.
  unfold between. destruct (frame_ts r) as [t|].
  - rewrite andb_true_iff, !Z.leb_le. split.
    + intros H. exists t. auto.
    + intros (ts & E & H). now injection E as ->.
  - split; [discriminate|]. intros (ts & E & _). discriminate.
Qed.

(** On a row with lower-case columns and a timestamp, the clean-up of
    [load_data] changes nothing. *)
Lemma normalize_row_id (r : frame) (ts : Z) :
  Forall (fun c => str_lower c = c) (columns r) ->
  frame_ts r = Some ts -> normalize_row r = Ok r.
Proof.
  intros Hlow Hts. unfold normalize_row.
  assert (Hmap : map (fun cv : string * value => (str_lower (fst cv), snd cv)) r = r).
  { clear Hts. induction r as [|[c v] r IH]; simpl; [reflexivity|].
    inversion Hlow as [|? ? Hc Hr]; subst. simpl in Hc. rewrite Hc, IH by exact Hr.
    reflexivity. }
  rewrite Hmap. unfold frame_ts in Hts. unfold getitem.
  destruct (frame_get "collection_timestamp" r) as [v|] eqn:Hg; [|discriminate].
  destruct v; try discriminate. injection Hts as ->. cbn.
  now rewrite (frame_set_same _ _ _ Hg).
Qed.

Section SeriesQuery.

Context (order_by : list frame -> list frame).
Context (Horder : sorts_by_timestamp order_by).

(** On well-formed storage the query returns the selected rows of the
    table, sorted. *)
Lemma load_data_wf (city : option string) (start_dt end_dt : Z) (st : db) (t : table) :
  db_wf st ->
  weather_data st = Some t ->
  has_column "collection_timestamp" t = true ->
  (truthy city = true -> has_column "city" t = true) ->
  load_data order_by city start_dt end_dt st
  = Ok (order_by (List.filter (selected city start_dt end_dt) (tbl_rows t))).
Proof.
  intros Hwf Ht Hts Hcity. unfold load_data.
  change (lookup_table SCHEMA TABLE st) with (weather_data st).
  rewrite Ht, Hts. simpl negb. cbv iota.
  assert (Hc : truthy city && negb (has_column "city" t) = false).
  { destruct (truthy city); [now rewrite Hcity|reflexivity]. }
  rewrite Hc.
  rewrite (filter_ext _ _ (filters_selected city start_dt end_dt)).
  set (rows := order_by _).
  assert (Hrows : map_result normalize_row rows = Ok rows).
  { apply map_result_id. intros r Hr.
    destruct (Horder (List.filter (selected city start_dt end_dt) (tbl_rows t)))
      as [Hperm _].
    apply (Permutation_in _ Hperm) in Hr. apply filter_In in Hr.
    destruct Hr as [Hin Hsel]. unfold selected in Hsel.
    apply andb_true_iff in Hsel. destruct Hsel as [Hb _].
    apply between_frame_ts in Hb. destruct Hb as (ts & Hfts & _).
    apply (normalize_row_id r ts); [|exact Hfts].
    destruct (Hwf t Ht) as [Hcols Hrs].
    rewrite List.Forall_forall in Hrs. rewrite (Hrs r Hin).
    apply Forall_map. exact Hcols. }
  destruct rows; [reflexivity|exact Hrows].
Qed.

End SeriesQuery.

(** ** Sorting by timestamp *)

Lemma ts_le_refl (a : frame) : ts_le a a.
Proof. unfold ts_le, ts_leb. destruct (frame_ts a); [apply Z.leb_refl|reflexivity]. Qed.

Lemma ts_le_trans (a b c : frame) : ts_le a b -> ts_le b c -> ts_le a c.
Proof.
  unfold ts_le, ts_leb.
  destruct (frame_ts a), (frame_ts b), (frame_ts c); try discriminate; try reflexivity.
  rewrite !Z.leb_le. lia.
Qed.

Lemma ts_le_total (a b : frame) : ts_leb a b = false -> ts_le b a.
Proof.
  unfold ts_le, ts_leb.
  destruct (frame_ts a), (frame_ts b); try discriminate; try reflexivity.
  rewrite Z.leb_gt, Z.leb_le. lia.
Qed.

(** In the order of timestamps, a row with a timestamp is below another
    exactly when its timestamp is. *)
Lemma ts_le_Some (a b : frame) (x y : Z) :
  frame_ts a = Some x -> frame_ts b = Some y -> ts_le a b <-> x <= y.
Proof. unfold ts_le, ts_leb. intros -> ->. apply Z.leb_le. Qed.

Lemma insert_by_ts_perm (r : frame) (l : list frame) :
  Permutation (insert_by_ts r l) (r :: l).
Proof.
  induction l as [|x l IH]; simpl; [reflexivity|].
  destruct (ts_leb r x); [reflexivity|].
  rewrite IH. apply perm_swap.
Qed.

Lemma insert_by_ts_sorted (r : frame) (l : list frame) :
  Sorted ts_le l -> Sorted ts_le (insert_by_ts r l).
Proof.
  induction l as [|x l IH]; intros Hs; simpl.
  - repeat constructor.
  - destruct (ts_leb r x) eqn:E.
    + constructor; [exact Hs|]. constructor. exact E.
    + inversion Hs as [|? ? Hl Hhd]; subst. constructor; [exact (IH Hl)|].
      destruct l as [|y l]; simpl.
      * constructor. exact (ts_le_total _ _ E).
      * destruct (ts_leb r y); constructor.
        -- exact (ts_le_total _ _ E).
        -- now inversion Hhd.
Qed.

(** The insertion sort is a sort by timestamp. *)
Lemma stable_sort_sorts : sorts_by_timestamp stable_sort.
Proof.
  intros l. unfold stable_sort. induction l as [|r l [IHp IHs]]; simpl.
  - split; [reflexivity|constructor].
  - split.
    + rewrite insert_by_ts_perm. now constructor.
    + apply insert_by_ts_sorted. exact IHs.
Qed.

(** The last row of a sorted frame is above all the others. *)
Lemma sorted_last (l : list frame) (x : frame) :
  Sorted ts_le l -> last l = Some x -> In x l /\ forall r, In r l -> ts_le r x.
Proof.
  intros Hs. apply Sorted_StronglySorted in Hs; [|exact ts_le_trans].
  induction Hs as [|a l Hs IH Hall]; intros Hlast; [discriminate|].
  destruct l as [|b l].
  - injection Hlast as <-. split; [now left|].
    intros r [<-|[]]. apply ts_le_refl.
  - change (last (b :: l) = Some x) in Hlast.
    destruct (IH Hlast) as [Hin Hmax]. split; [now right|].
    intros r [<-|Hr]; [|exact (Hmax r Hr)].
    rewrite List.Forall_forall in Hall. exact (Hall x Hin).
Qed.

(** ** The query without a city *)

Section QueryTheorems.

Context (order_by : list frame -> list frame).
Context (Horder : sorts_by_timestamp order_by).

(** C9. With [None] or the empty string for the city, [load_data] applies
    no city filter: both calls are the same query, and on the stored table
    it returns, in ascending order of [collection_timestamp], the rows of
    every city whose timestamp lies in the inclusive range. *)
Theorem load_data_without_city (start_dt end_dt : Z) (st : db) (t : table) :
  db_wf st ->
  weather_data st = Some t ->
  has_column "collection_timestamp" t = true ->
  load_data order_by (Some EmptyString) start_dt end_dt st
  = load_data order_by None start_dt end_dt st /\
  exists df,
    load_data order_by None start_dt end_dt st = Ok df /\
    Permutation df (List.filter (between start_dt end_dt) (tbl_rows t)) /\
    Sorted ts_le df /\
    (forall r, In r df <->
               In r (tbl_rows t) /\
               exists ts, frame_ts r = Some ts /\ start_dt <= ts <= end_dt).
Proof.
  intros Hwf Ht Hts. split; [reflexivity|].
  rewrite (load_data_wf order_by Horder None start_dt end_dt st t Hwf Ht Hts)
    by discriminate.
  assert (Hsel : forall r, selected None start_dt end_dt r = between start_dt end_dt r).
  { intros r. unfold selected. apply andb_true_r. }
  rewrite (filter_ext _ _ Hsel).
  destruct (Horder (List.filter (between start_dt end_dt) (tbl_rows t))) as [Hperm Hsorted].
  eexists. split; [reflexivity|]. split; [exact Hperm|]. split; [exact Hsorted|].
  intros r. rewrite <- between_frame_ts, <- filter_In. split.
  - apply Permutation_in. exact Hperm.
  - apply Permutation_in. symmetry. exact Hperm.
Qed.

End QueryTheorems.

(** ** Appending an observation twice *)

Lemma store_timestamp (ty : sql_type) (ts : Z) (v' : value) :
  store ty (sql_param (VTimestamp ts)) = Ok v' -> v' = VTimestamp ts.
Proof. destruct ty; simpl; intros H; try discriminate; now injection H as <-. Qed.

Lemma store_str (ty : sql_type) (s : string) (v' : value) :
  store ty (sql_param (VStr s)) = Ok v' -> v' = VStr s.
Proof.
  destruct ty; simpl; intros H; try discriminate.
  destruct (String.length s <=? n)%nat; [|discriminate]. now injection H as <-.
Qed.

(** The row stored for a frame has the frame's timestamp, and is selected
    by every query whose window holds that timestamp and whose city, if it
    names one, is the frame's. *)
Lemma stored_row_selected (n : Z) (df : frame) (cols : list column_def) (row : frame)
    (city : option string) (start_dt end_dt ts : Z) :
  cells_for n df cols = Ok row ->
  unknown_column cols df = None ->
  frame_get "collection_timestamp" df = Some (VTimestamp ts) ->
  start_dt <= ts <= end_dt ->
  (forall c, city = Some c -> truthy city = true -> frame_get "city" df = Some (VStr c)) ->
  frame_ts row = Some ts /\ selected city start_dt end_dt row = true.
Proof.
  intros Hc Hu Hts Hwin Hcity.
  assert (Hrow : frame_ts row = Some ts).
  { destruct (cells_for_get _ _ _ _ _ _ Hc Hts) as (ty & v' & Hst & Hg).
    - apply (unknown_column_None _ df); [exact Hu|]. unfold has_col. now rewrite Hts.
    - apply store_timestamp in Hst. subst v'. unfold frame_ts. now rewrite Hg. }
  split; [exact Hrow|].
  unfold selected. apply andb_true_iff. split.
  - apply between_frame_ts. eauto.
  - destruct city as [c|]; [|reflexivity].
    destruct (truthy (Some c)) eqn:Htr; [|reflexivity].
    pose proof (Hcity c eq_refl eq_refl) as Hg.
    destruct (cells_for_get _ _ _ _ _ _ Hc Hg) as (ty & v' & Hst & Hg').
    + apply (unknown_column_None _ df); [exact Hu|]. unfold has_col. now rewrite Hg.
    + apply store_str in Hst. subst v'. unfold city_is. rewrite Hg'. apply String.eqb_refl.
Qed.

Section AppendTheorems.

Context (order_by : list frame -> list frame).
Context (Horder : sorts_by_timestamp order_by).

(** C8. When an observation has been appended, appending it again
    succeeds: the table then holds, after the rows it had, one row for each
    of the two appends, alike in every column of the observation, and a
    range query whose inclusive window holds their [collection_timestamp]
    (for every city, or for the observation's own) returns both. *)
Theorem append_twice (df : frame) (st st1 : db) (city : option string)
    (start_dt end_dt ts : Z) :
  db_wf st ->
  load df st = Ok st1 ->
  frame_get "collection_timestamp" df = Some (VTimestamp ts) ->
  start_dt <= ts <= end_dt ->
  (forall c, city = Some c -> truthy city = true ->
             frame_get "city" df = Some (VStr c)) ->
  exists st2 t2 row1 row2 result,
    load df st1 = Ok st2 /\
    weather_data st2 = Some t2 /\
    tbl_rows t2
    = tbl_rows (default fresh_weather_data (weather_data st)) ++ [row1; row2] /\
    (forall k, has_col k df = true -> frame_get k row1 = frame_get k row2) /\
    frame_ts row1 = Some ts /\ frame_ts row2 = Some ts /\
    load_data order_by city start_dt end_dt st2 = Ok result /\
    Permutation result
      (List.filter (selected city start_dt end_dt)
         (tbl_rows (default fresh_weather_data (weather_data st))) ++ [row1; row2]) /\
    In row1 result /\ In row2 result.
Proof.
  intros Hwf Hload Hts Hwin Hcity.
  destruct (load_inv _ _ _ Hload) as (t1 & Hins & Ht1).
  set (t := default fresh_weather_data (weather_data st)) in *.
  destruct (insert_row_again _ _ _ Hins) as (row1 & row2 & -> & Hins2 & Hc1 & Hc2 & Hu & HF).
  destruct (load_existing _ _ _ _ Ht1 Hins2) as (st2 & Hload2 & Ht2).
  destruct (stored_row_selected _ _ _ _ city start_dt end_dt ts Hc1 Hu Hts Hwin Hcity)
    as [Hts1 Hsel1].
  destruct (stored_row_selected _ _ _ _ city start_dt end_dt ts Hc2 Hu Hts Hwin Hcity)
    as [Hts2 Hsel2].
  pose proof (load_wf _ _ _ (load_wf _ _ _ Hwf Hload) Hload2) as Hwf2.
  assert (Hcol : forall k, has_col k df = true ->
                           has_column k
                             (Table (tbl_columns t) (tbl_rows t ++ [row1; row2])
                                (tbl_serial t + 2)) = true).
  { intros k Hk. exact (unknown_column_None _ _ _ Hu Hk). }
  eexists st2, _, row1, row2, _.
  split; [exact Hload2|]. split; [exact Ht2|]. split; [reflexivity|].
  split; [intros k Hk; exact (same_cell_filled _ _ _ _ HF Hk)|].
  split; [exact Hts1|]. split; [exact Hts2|].
  rewrite (load_data_wf order_by Horder city start_dt end_dt st2 _ Hwf2 Ht2).
  - simpl tbl_rows. rewrite List.filter_app. simpl List.filter. rewrite Hsel1, Hsel2.
    destruct (Horder (List.filter (selected city start_dt end_dt) (tbl_rows t)
                        ++ [row1; row2])) as [Hperm _].
    split; [reflexivity|]. split; [exact Hperm|].
    split; apply (Permutation_in _ (Permutation_sym Hperm)), in_or_app; right; simpl; auto.
  - apply Hcol. unfold has_col. now rewrite Hts.
  - intros Htr. destruct city as [c|]; [|discriminate].
    apply Hcol. unfold has_col. now rewrite (Hcity c eq_refl Htr).
Qed.

End AppendTheorems.

(** ** The latest row *)

Lemma last_is_Some {A} (l : list A) : l <> [] -> exists x, last l = Some x.
Proof.
  induction l as [|a l IH]; [congruence|]. intros _.
  destruct l as [|b l]; [now exists a|].
  destruct IH as [x Hx]; [congruence|]. exists x. exact Hx.
Qed.

Lemma Permutation_not_nil {A} (l l' : list A) : Permutation l l' -> l' <> [] -> l <> [].
Proof. intros Hp Hne ->. apply Permutation_nil in Hp. contradiction. Qed.

Section LatestTheorems.

Context (order_by sort_values : list frame -> list frame).
Context (Horder : sorts_by_timestamp order_by).
Context (Hsort : sorts_by_timestamp sort_values).

(** Whatever the query returns, [main] ends with a page: the notice when
    the frame is empty, the hero section of the last row in timestamp order
    otherwise. *)
Lemma main_page (city : option string) (start_dt end_dt : Z) (unit_f : bool)
    (st : db) (df : list frame) :
  load_data order_by city start_dt end_dt st = Ok df ->
  match df with
  | [] => main order_by sort_values city start_dt end_dt unit_f st = Ok NoData
  | _ =>
      exists latest_row,
        main order_by sort_values city start_dt end_dt unit_f st
        = Ok (Hero df latest_row unit_f) /\
        In latest_row df /\ forall r, In r df -> ts_le r latest_row
  end.
Proof.
  intros Hq. unfold main. rewrite Hq. result_simpl.
  destruct df as [|r0 df]; [reflexivity|].
  destruct (Hsort (r0 :: df)) as [Hperm Hsorted].
  destruct (last_is_Some (sort_values (r0 :: df))) as [x Hx].
  { apply (Permutation_not_nil _ _ Hperm). discriminate. }
  destruct (sorted_last _ _ Hsorted Hx) as [Hin Hmax].
  exists x. unfold iloc_last. rewrite Hx. result_simpl.
  split; [reflexivity|]. split.
  - exact (Permutation_in _ Hperm Hin).
  - intros r Hr. apply Hmax. exact (Permutation_in _ (Permutation_sym Hperm) Hr).
Qed.

(** C4. The read path never raises on the result of the query: an empty
    result gives the "no data" page, any other the hero section of a row of
    the result that no row exceeds in the order of [collection_timestamp].
    On the stored table, the rows being those the query selects, the page
    is "no data" when there is none and otherwise shows a selected row whose
    timestamp is the greatest of all. *)
Theorem main_latest (city : option string) (start_dt end_dt : Z) (unit_f : bool)
    (st : db) :
  (forall df,
     load_data order_by city start_dt end_dt st = Ok df ->
     match df with
     | [] => main order_by sort_values city start_dt end_dt unit_f st = Ok NoData
     | _ =>
         exists latest_row,
           main order_by sort_values city start_dt end_dt unit_f st
           = Ok (Hero df latest_row unit_f) /\
           In latest_row df /\ forall r, In r df -> ts_le r latest_row
     end) /\
  (forall t,
     db_wf st ->
     weather_data st = Some t ->
     has_column "collection_timestamp" t = true ->
     (truthy city = true -> has_column "city" t = true) ->
     match List.filter (selected city start_dt end_dt) (tbl_rows t) with
     | [] => main order_by sort_values city start_dt end_dt unit_f st = Ok NoData
     | rows =>
         exists df latest_row ts,
           main order_by sort_values city start_dt end_dt unit_f st
           = Ok (Hero df latest_row unit_f) /\
           Permutation df rows /\
           In latest_row rows /\
           frame_ts latest_row = Some ts /\
           forall r, In r rows -> exists ts', frame_ts r = Some ts' /\ ts' <= ts
     end).
Proof.
  split; [intros df; apply main_page|].
  intros t Hwf Ht Hts Hcity.
  pose proof (load_data_wf order_by Horder city start_dt end_dt st t Hwf Ht Hts Hcity) as Hq.
  pose proof (main_page city start_dt end_dt unit_f st _ Hq) as Hp.
  destruct (Horder (List.filter (selected city start_dt end_dt) (tbl_rows t)))
    as [Hperm _].
  assert (Hsel : forall r,
             In r (List.filter (selected city start_dt end_dt) (tbl_rows t)) ->
             exists ts, frame_ts r = Some ts).
  { intros r Hr. apply filter_In in Hr. destruct Hr as [_ Hr].
    unfold selected in Hr. apply andb_true_iff in Hr. destruct Hr as [Hb _].
    apply between_frame_ts in Hb. destruct Hb as (ts & Hb & _). eauto. }
  destruct (List.filter (selected city start_dt end_dt) (tbl_rows t)) as [|r0 rows] eqn:Hrows.
  - symmetry in Hperm. apply Permutation_nil in Hperm. rewrite Hperm in Hp. exact Hp.
  - destruct (order_by (r0 :: rows)) as [|d0 df] eqn:Hdf.
    { apply Permutation_nil in Hperm. discriminate. }
    destruct Hp as (latest_row & Hmain & Hin & Hmax).
    pose proof (Permutation_in _ Hperm Hin) as Hin'.
    destruct (Hsel _ Hin') as [ts Hlts].
    exists (d0 :: df), latest_row, ts.
    split; [exact Hmain|]. split; [exact Hperm|]. split; [exact Hin'|].
    split; [exact Hlts|].
    intros r Hr. destruct (Hsel _ Hr) as [ts' Hrts]. exists ts'. split; [exact Hrts|].
    apply (ts_le_Some r latest_row ts' ts Hrts Hlts).
    apply Hmax. exact (Permutation_in _ (Permutation_sym Hperm) Hr).
Qed.

End LatestTheorems.

(** ** The normalizer, step by step *)

(** Two column names written out are different. *)
Ltac names_differ := clear; intros Heq; discriminate Heq.

(** Reads a column back through the assignments made after it. *)
Ltac frame_get_simpl :=
  repeat first
    [ rewrite frame_get_set_eq
    | rewrite frame_get_set_ne by names_differ ].

(** Takes the first computation of a successful chain apart: [x] names its
    result and [E] the equation that says so. *)
Tactic Notation "bind_inv" hyp(H) "as" ident(x) ident(E) :=
  match type of H with
  | (?m ≫= _) = Ok _ =>
      destruct m as [x|] eqn:E; result_simpl; [|discriminate H]
  end.

Lemma round_nearest_multiple (values unit : Z) :
  1 < unit -> values mod unit = 0 -> round_nearest values unit = values.
Proof.
  intros Hu Hm. unfold round_nearest. rewrite Hm.
  assert (Hhalf : 0 < unit / 2) by (apply Z.div_str_pos; lia).
  replace (0 >? unit / 2) with false by (rewrite Z.gtb_ltb; symmetry; apply Z.ltb_ge; lia).
  replace (0 =? unit / 2) with false by (symmetry; apply Z.eqb_neq; lia).
  simpl. lia.
Qed.

(** Rounding a whole second to the millisecond changes nothing. *)
Lemma round_ms_seconds (s : Z) :
  round_nearest (timestamp_from_epoch_seconds s) 1000000 = timestamp_from_epoch_seconds s.
Proof.
  apply round_nearest_multiple; [lia|]. unfold timestamp_from_epoch_seconds.
  replace (s * 1000000000) with (s * 1000 * 1000000) by lia. apply Z.mod_mul. lia.
Qed.

Lemma int64_add_exact (a b : Z) : in_int64 (a + b) = true -> int64_add a b = a + b.
Proof.
  unfold in_int64, int64_add, int64_min, int64_max. intros H.
  apply andb_true_iff in H. destruct H as [H1 H2].
  apply Z.leb_le in H1, H2. rewrite Z.mod_small; lia.
Qed.

Lemma set_scalar_Ok (k : string) (v : value) (df df' : frame) :
  set_scalar k v df = Ok df' -> scalar v = true /\ df' = frame_set k v df.
Proof. destruct v; simpl; intros H; try discriminate; injection H as <-; auto. Qed.

Lemma series_add_Ok (a b v : value) :
  series_add a b = Ok v ->
  exists x y, a = VInt x /\ b = VInt y /\ in_int64 x = true /\ in_int64 y = true /\
              v = VInt (int64_add x y).
Proof.
  destruct a, b; simpl; intros H; try discriminate.
  destruct (in_int64 z) eqn:Hz, (in_int64 z0) eqn:Hz0; simpl in H; try discriminate.
  injection H as <-. eauto 10.
Qed.

Lemma to_datetime_s_Ok (s : Z) (v : value) :
  to_datetime_s (VInt s) = Ok v ->
  (s =? int64_min) = false /\
  in_timestamp_range (timestamp_from_epoch_seconds s) = true /\
  v = VTimestamp (timestamp_from_epoch_seconds s).
Proof.
  simpl. destruct (s =? int64_min); [discriminate|].
  destruct (in_timestamp_range (timestamp_from_epoch_seconds s)); [|discriminate].
  intros H. injection H as <-. auto.
Qed.

(** What a successful [derive_columns] has read and written. *)
Lemma derive_columns_Ok (df df' : frame) (now : Z) :
  derive_columns df now = Ok df' ->
  exists d rest weather_id weather_main weather_description icon sunrise sunset timezone,
    frame_get "weather" df = Some (VList (VDict d :: rest)) /\
    frame_get "id" d = Some weather_id /\
    frame_get "main" d = Some weather_main /\
    frame_get "description" d = Some weather_description /\
    frame_get "icon" d = Some (VStr icon) /\
    frame_get "sys.sunrise" df = Some (VInt sunrise) /\
    frame_get "sys.sunset" df = Some (VInt sunset) /\
    frame_get "timezone" df = Some (VInt timezone) /\
    epoch_ok (VInt sunrise) (VInt timezone) = true /\
    epoch_ok (VInt sunset) (VInt timezone) = true /\
    df' = derived df now weather_id weather_main weather_description icon
            sunrise sunset timezone.
Proof.
  unfold derive_columns. intros H.
  bind_inv H as weather Hweather.
  bind_inv H as wd Hwd.
  bind_inv H as weather_id Hid.
  bind_inv H as df1 Hdf1. apply set_scalar_Ok in Hdf1. destruct Hdf1 as [_ ->].
  bind_inv H as weather_main Hmain.
  bind_inv H as df2 Hdf2. apply set_scalar_Ok in Hdf2. destruct Hdf2 as [_ ->].
  bind_inv H as weather_description Hdesc.
  bind_inv H as df3 Hdf3. apply set_scalar_Ok in Hdf3. destruct Hdf3 as [_ ->].
  bind_inv H as icon_v Hicon.
  bind_inv H as weather_icon Hurl.
  cbv zeta in H.
  bind_inv H as sunrise_v Hsr.
  bind_inv H as timezone_v Htz.
  bind_inv H as sys_sunrise Hadd1.
  bind_inv H as sunset_v Hss.
  bind_inv H as timezone_v' Htz'.
  bind_inv H as sys_sunset Hadd2.
  bind_inv H as sys_sunrise' Hget1.
  bind_inv H as sunrise_ts Hdt1.
  bind_inv H as sunrise_ms Hround1.
  bind_inv H as sys_sunset' Hget2.
  bind_inv H as sunset_ts Hdt2.
  bind_inv H as sunset_ms Hround2.
  injection H as <-.
  (* the descriptor *)
  unfold getitem in Hweather.
  destruct (frame_get "weather" df) as [w|] eqn:Hw; [|discriminate]. injection Hweather as ->.
  destruct wd as [| | | | | |d|]; try discriminate.
  destruct weather as [| | | |s|[|w0 rest]| |]; try discriminate;
    [destruct s as [|? ?]; discriminate|].
  injection Hwd as ->.
  simpl in Hid, Hmain, Hdesc, Hicon. unfold getitem in Hid, Hmain, Hdesc, Hicon.
  destruct (frame_get "id" d) as [id'|] eqn:Gid; [|discriminate]. injection Hid as ->.
  destruct (frame_get "main" d) as [main'|] eqn:Gmain; [|discriminate]. injection Hmain as ->.
  destruct (frame_get "description" d) as [description'|] eqn:Gdesc; [|discriminate].
  injection Hdesc as ->.
  destruct (frame_get "icon" d) as [icon'|] eqn:Gicon; [|discriminate]. injection Hicon as ->.
  destruct icon_v as [| | | |icon| | |]; try discriminate. injection Hurl as <-.
  (* the sun events *)
  unfold getitem in Hsr, Htz, Hss, Htz', Hget1, Hget2.
  revert Hsr Htz Hss Htz' Hget1 Hget2. frame_get_simpl. intros Hsr Htz Hss Htz' Hget1 Hget2.
  destruct (frame_get "sys.sunrise" df) as [sr|] eqn:Gsr; [|discriminate]. injection Hsr as ->.
  destruct (frame_get "timezone" df) as [tz|] eqn:Gtz; [|discriminate]. injection Htz as ->.
  injection Htz' as ->.
  destruct (frame_get "sys.sunset" df) as [ss|] eqn:Gss; [|discriminate]. injection Hss as ->.
  apply series_add_Ok in Hadd1. destruct Hadd1 as (x & y & -> & -> & Hx & Hy & ->).
  apply series_add_Ok in Hadd2. destruct Hadd2 as (x' & y' & -> & Hy' & Hx' & _ & ->).
  injection Hy' as <-.
  injection Hget1 as <-. injection Hget2 as <-.
  apply to_datetime_s_Ok in Hdt1. destruct Hdt1 as (Hn1 & Hr1 & ->).
  apply to_datetime_s_Ok in Hdt2. destruct Hdt2 as (Hn2 & Hr2 & ->).
  injection Hround1 as <-. injection Hround2 as <-.
  exists d, rest, weather_id, weather_main, weather_description, icon, x, x', y.
  unfold epoch_ok. rewrite Hx, Hy, Hx', Hn1, Hn2, Hr1, Hr2.
  repeat split; try assumption; reflexivity.
Qed.

Lemma series_add_int (x y : Z) :
  in_int64 x = true -> in_int64 y = true ->
  series_add (VInt x) (VInt y) = Ok (VInt (int64_add x y)).
Proof. intros Hx Hy. simpl. now rewrite Hx, Hy. Qed.

Lemma to_datetime_s_int (s : Z) :
  (s =? int64_min) = false ->
  in_timestamp_range (timestamp_from_epoch_seconds s) = true ->
  to_datetime_s (VInt s) = Ok (VTimestamp (timestamp_from_epoch_seconds s)).
Proof. intros Hn Hr. simpl. now rewrite Hn, Hr. Qed.

(** [derive_columns] goes through on a document with a complete descriptor
    and sun events that make timestamps. *)
Lemma derive_columns_runs (df : frame) (now : Z) (d : frame) (rest : list value)
    (weather_id weather_main weather_description : value) (icon : string)
    (sunrise sunset timezone : Z) :
  frame_get "weather" df = Some (VList (VDict d :: rest)) ->
  frame_get "id" d = Some weather_id -> scalar weather_id = true ->
  frame_get "main" d = Some weather_main -> scalar weather_main = true ->
  frame_get "description" d = Some weather_description ->
  scalar weather_description = true ->
  frame_get "icon" d = Some (VStr icon) ->
  frame_get "sys.sunrise" df = Some (VInt sunrise) ->
  frame_get "sys.sunset" df = Some (VInt sunset) ->
  frame_get "timezone" df = Some (VInt timezone) ->
  epoch_ok (VInt sunrise) (VInt timezone) = true ->
  epoch_ok (VInt sunset) (VInt timezone) = true ->
  derive_columns df now
  = Ok (derived df now weather_id weather_main weather_description icon
          sunrise sunset timezone).
Proof.
  intros Hw Hid Sid Hmain Smain Hdesc Sdesc Hicon Hsr Hss Htz Hok1 Hok2.
  unfold epoch_ok in Hok1, Hok2.
  apply andb_true_iff in Hok1. destruct Hok1 as [Hok1 Hr1].
  apply andb_true_iff in Hok1. destruct Hok1 as [Hok1 Hn1].
  apply andb_true_iff in Hok1. destruct Hok1 as [Hx Hy].
  apply andb_true_iff in Hok2. destruct Hok2 as [Hok2 Hr2].
  apply andb_true_iff in Hok2. destruct Hok2 as [Hok2 Hn2].
  apply andb_true_iff in Hok2. destruct Hok2 as [Hx' _].
  apply negb_true_iff in Hn1, Hn2.
  assert (Hset : forall k v df0, scalar v = true -> set_scalar k v df0 = Ok (frame_set k v df0)).
  { intros k v df0. destruct v; simpl; intros; try discriminate; reflexivity. }
  unfold derive_columns, getitem. rewrite Hw. result_simpl.
  simpl index0. result_simpl. simpl subscript. unfold getitem.
  rewrite Hid. result_simpl. rewrite (Hset _ _ _ Sid). result_simpl.
  rewrite Hmain. result_simpl. rewrite (Hset _ _ _ Smain). result_simpl.
  rewrite Hdesc. result_simpl. rewrite (Hset _ _ _ Sdesc). result_simpl.
  rewrite Hicon. result_simpl. simpl icon_url. result_simpl. cbv zeta.
  frame_get_simpl. rewrite Hsr. result_simpl. rewrite Htz. result_simpl.
  rewrite (series_add_int _ _ Hx Hy). result_simpl.
  frame_get_simpl. rewrite Hss. result_simpl. rewrite Htz. result_simpl.
  rewrite (series_add_int _ _ Hx' Hy). result_simpl.
  frame_get_simpl. result_simpl.
  rewrite (to_datetime_s_int _ Hn1 Hr1). result_simpl.
  simpl dt_round_ms. result_simpl. frame_get_simpl. result_simpl.
  rewrite (to_datetime_s_int _ Hn2 Hr2). result_simpl.
  reflexivity.
Qed.

(** ** Keeping and renaming the columns *)

Lemma columns_to_keep_sources : NoDup (map fst columns_to_keep).
Proof. apply (bool_decide_unpack _). vm_compute. reflexivity. Qed.

Lemma columns_to_keep_targets : NoDup (map snd columns_to_keep).
Proof. apply (bool_decide_unpack _). vm_compute. reflexivity. Qed.

Lemma renamed_In (mapping : list (string * string)) (k c : string) :
  NoDup (map fst mapping) -> In (k, c) mapping -> renamed mapping k = c.
Proof.
  induction mapping as [|[k' c'] mapping IH]; intros Hnd Hin; [destruct Hin|].
  simpl in *. inversion Hnd as [|? ? Hnotin Hnd']; subst.
  destruct Hin as [E|Hin].
  - injection E as -> ->. now rewrite String.eqb_refl.
  - destruct (String.eqb_spec k' k) as [->|Hne]; [|exact (IH Hnd' Hin)].
    exfalso. apply Hnotin, list_elem_of_In, in_map_iff. exists (k, c). auto.
Qed.

Lemma NoDup_map_filter {A B} (f : A -> B) (P : A -> bool) (l : list A) :
  NoDup (map f l) -> NoDup (map f (List.filter P l)).
Proof.
  induction l as [|a l IH]; simpl; intros Hnd; [constructor|].
  inversion Hnd as [|? ? Hnotin Hnd']; subst.
  destruct (P a); simpl; [|exact (IH Hnd')].
  constructor; [|exact (IH Hnd')].
  intros Hin. apply Hnotin. apply list_elem_of_In. apply list_elem_of_In in Hin.
  apply in_map_iff in Hin. destruct Hin as (x & <- & Hx).
  apply filter_In in Hx. apply in_map. tauto.
Qed.

Lemma frame_select_present (cols : list string) (df : frame) :
  Forall (fun k => has_col k df = true) cols ->
  frame_select cols df = Ok (map (fun k => (k, default VNone (frame_get k df))) cols).
Proof.
  induction 1 as [|k cols Hk _ IH]; simpl; [reflexivity|].
  unfold getitem, has_col in *. destruct (frame_get k df); [|discriminate].
  result_simpl. rewrite IH. reflexivity.
Qed.

Lemma available_cols_In (df : frame) (kv : string * string) :
  In kv (available_cols df) <-> In kv columns_to_keep /\ has_col (fst kv) df = true.
Proof. unfold available_cols. apply filter_In. Qed.

Lemma available_cols_present (df : frame) :
  Forall (fun k => has_col k df = true) (map fst (available_cols df)).
Proof.
  apply List.Forall_forall. intros k Hk. apply in_map_iff in Hk.
  destruct Hk as (kv & <- & Hkv). apply available_cols_In in Hkv. tauto.
Qed.

Lemma rename_available (df : frame) :
  frame_rename (available_cols df)
    (map (fun k => (k, default VNone (frame_get k df))) (map fst (available_cols df)))
  = kept df.
Proof.
  unfold frame_rename, kept. rewrite !map_map.
  apply map_ext_in. intros [k c] Hin. cbn [fst snd]. f_equal.
  apply renamed_In; [|exact Hin].
  apply NoDup_map_filter. exact columns_to_keep_sources.
Qed.

(** [keep_columns] never fails. *)
Lemma keep_columns_kept (df : frame) : keep_columns df = Ok (kept df).
Proof.
  unfold keep_columns. rewrite (frame_select_present _ _ (available_cols_present df)).
  result_simpl. rewrite rename_available. reflexivity.
Qed.

(** A kept column holds the cell of its source. *)
Lemma kept_get (df : frame) (k c : string) :
  In (k, c) columns_to_keep -> frame_get c (kept df) = frame_get k df.
Proof.
  unfold kept, available_cols. generalize columns_to_keep_targets.
  generalize columns_to_keep as l.
  induction l as [|[k' c'] l IH]; intros Hnd Hin; [destruct Hin|].
  simpl in Hnd. inversion Hnd as [|? ? Hnotin Hnd']; subst.
  simpl. destruct Hin as [E|Hin].
  - injection E as -> ->. unfold has_col.
    destruct (frame_get k df) as [v|] eqn:Hg; simpl.
    + now rewrite String.eqb_refl, Hg.
    + match goal with |- frame_get c ?X = None => destruct (has_col c X) eqn:Hhas end.
      * exfalso. apply Hnotin, list_elem_of_In.
        apply has_col_In in Hhas. unfold columns in Hhas. rewrite map_map in Hhas.
        apply in_map_iff in Hhas. destruct Hhas as (kv & Hc & Hkv). simpl in Hc.
        apply filter_In in Hkv. apply in_map_iff. exists kv. tauto.
      * unfold has_col in Hhas.
        match goal with |- ?g = None => destruct g; [discriminate|reflexivity] end.
  - assert (c' <> c).
    { intros ->. apply Hnotin, list_elem_of_In, in_map_iff. exists (k, c). auto. }
    destruct (has_col k' df); simpl.
    + apply String.eqb_neq in H. rewrite H. exact (IH Hnd' Hin).
    + exact (IH Hnd' Hin).
Qed.

Lemma kept_columns (df : frame) : columns (kept df) = map snd (available_cols df).
Proof. unfold kept, columns. rewrite map_map. reflexivity. Qed.

(** A column of the kept frame is the target of an available source. *)
Lemma kept_has_col (df : frame) (c : string) :
  has_col c (kept df) = true <->
  exists k, In (k, c) columns_to_keep /\ has_col k df = true.
Proof.
  rewrite has_col_In, kept_columns, in_map_iff. unfold available_cols. split.
  - intros ([k c'] & <- & Hin). apply filter_In in Hin. exists k. exact Hin.
  - intros (k & Hin & Hk). exists (k, c). split; [reflexivity|].
    apply filter_In. auto.
Qed.

(** ** The Celsius loop *)

Lemma filter_map_comm {A B} (f : A -> B) (Q : B -> bool) (l : list A) :
  List.filter Q (map f l) = map f (List.filter (fun x => Q (f x)) l).
Proof.
  induction l as [|a l IH]; simpl; [reflexivity|].
  destruct (Q (f a)); simpl; now rewrite IH.
Qed.

Lemma filter_filter_comm {A} (P Q : A -> bool) (l : list A) :
  List.filter P (List.filter Q l) = List.filter Q (List.filter P l).
Proof.
  induction l as [|a l IH]; simpl; [reflexivity|].
  destruct (P a) eqn:HP, (Q a) eqn:HQ; simpl; rewrite ?HP, ?HQ, IH; reflexivity.
Qed.

(** The loop runs over the Kelvin columns whose source is in the
    document. *)
Lemma k_cols_kept (df : frame) :
  k_cols (kept df)
  = map (fun f => fst (snd f))
        (List.filter (fun f => has_col (fst f) df) temperature_fields).
Proof.
  unfold k_cols. rewrite kept_columns. unfold available_cols.
  rewrite filter_map_comm, filter_filter_comm.
  change (List.filter (fun x => str_contains "_k" (snd x)) columns_to_keep)
    with (map (fun f : string * (string * string) => (fst f, fst (snd f))) temperature_fields).
  rewrite filter_map_comm, map_map. reflexivity.
Qed.

Lemma celsius_names :
  map (str_replace "_k" "_c") kelvin_columns = celsius_columns.
Proof. reflexivity. Qed.

Lemma temperature_fields_kept (f : string * (string * string)) :
  In f temperature_fields ->
  In (fst f, fst (snd f)) columns_to_keep /\
  str_replace "_k" "_c" (fst (snd f)) = snd (snd f).
Proof.
  intros Hin. simpl in Hin.
  repeat (destruct Hin as [<-|Hin]; [split; [simpl; tauto|reflexivity]|]).
  destruct Hin.
Qed.

(** No Celsius column is a column [keep_columns] produces. *)
Lemma celsius_not_kept (c : string) :
  In c celsius_columns -> ~ In c (map snd columns_to_keep).
Proof.
  intros Hin. simpl in Hin.
  repeat (destruct Hin as [<-|Hin];
          [rewrite <- list_elem_of_In; apply (bool_decide_unpack _); vm_compute; reflexivity|]).
  destruct Hin.
Qed.

Lemma celsius_columns_NoDup : NoDup celsius_columns.
Proof. apply (bool_decide_unpack _). vm_compute. reflexivity. Qed.

(** What the loop leaves: next to each Kelvin column it went over, the
    Celsius column with that cell less 273.15; every other column as it
    was. *)
Lemma celsius_loop_Ok (cols : list string) (df out : frame) :
  celsius_loop cols df = Ok out ->
  (forall a b, In a cols -> In b cols -> str_replace "_k" "_c" a <> b) ->
  NoDup (map (str_replace "_k" "_c") cols) ->
  (forall col, In col cols ->
     exists v c, frame_get col df = Some v /\ sub_273_15 v = Ok c /\
                 frame_get (str_replace "_k" "_c" col) out = Some c) /\
  (forall k, ~ In k (map (str_replace "_k" "_c") cols) -> frame_get k out = frame_get k df).
Proof.
  revert df. induction cols as [|col cols IH]; intros df H Hne Hnd.
  - simpl in H. injection H as <-. split; [intros ? []|reflexivity].
  - cbn [celsius_loop] in H. cbv zeta in H.
    bind_inv H as v Hv. bind_inv H as c Hc.
    unfold getitem in Hv. destruct (frame_get col df) as [v'|] eqn:Hg; [|discriminate].
    injection Hv as ->.
    cbn [map] in Hnd. apply NoDup_cons in Hnd. destruct Hnd as [Hnotin Hnd].
    rewrite list_elem_of_In in Hnotin.
    destruct (IH _ H) as [IH1 IH2]; [intros a b Ha Hb; apply Hne; now right|exact Hnd|].
    split.
    + intros col' [<-|Hin].
      * exists v, c. split; [exact Hg|]. split; [exact Hc|].
        rewrite (IH2 _ Hnotin). apply frame_get_set_eq.
      * destruct (IH1 col' Hin) as (v' & c' & Hg' & Hc' & Hout).
        exists v', c'. split; [|auto].
        rewrite <- Hg'. symmetry. apply frame_get_set_ne.
        apply Hne; [now left|now right].
    + intros k Hk. rewrite IH2 by (intros ?; apply Hk; now right).
      apply frame_get_set_ne. intros <-. apply Hk. now left.
Qed.

(** The loop goes through when every column it goes over holds a
    number. *)
Lemma celsius_loop_runs (cols : list string) (df : frame) :
  (forall a b, In a cols -> In b cols -> str_replace "_k" "_c" a <> b) ->
  (forall col, In col cols -> exists v c, frame_get col df = Some v /\ sub_273_15 v = Ok c) ->
  exists out, celsius_loop cols df = Ok out.
Proof.
  revert df. induction cols as [|col cols IH]; intros df Hne Hall.
  - eexists. reflexivity.
  - destruct (Hall col) as (v & c & Hg & Hc); [now left|].
    cbn [celsius_loop]. cbv zeta. unfold getitem. rewrite Hg. result_simpl.
    rewrite Hc. result_simpl.
    apply IH.
    + intros a b Ha Hb. apply Hne; now right.
    + intros col' Hin. destruct (Hall col') as (v' & c' & Hg' & Hc'); [now right|].
      exists v', c'. split; [|exact Hc'].
      rewrite <- Hg'. apply frame_get_set_ne. apply Hne; [now left|now right].
Qed.

Lemma sub_273_15_numeric (v : value) :
  numeric v = true -> sub_273_15 v = Ok (VFloat (as_float v - 273.15)%float).
Proof. destruct v; simpl; try discriminate; [now intros ->|reflexivity]. Qed.

Lemma kelvin_not_celsius (a b : string) :
  In a kelvin_columns -> In b kelvin_columns -> str_replace "_k" "_c" a <> b.
Proof.
  intros Ha Hb. simpl in Ha, Hb.
  repeat (destruct Ha as [<-|Ha]);
    repeat (destruct Hb as [<-|Hb]); try (vm_compute; discriminate); contradiction.
Qed.

Lemma loop_columns_kelvin (df : frame) (col : string) :
  In col (k_cols (kept df)) <->
  exists f, In f temperature_fields /\ has_col (fst f) df = true /\ col = fst (snd f).
Proof.
  rewrite k_cols_kept, in_map_iff. split.
  - intros (f & <- & Hf). apply filter_In in Hf. exists f. tauto.
  - intros (f & Hf & Hk & ->). exists f. split; [reflexivity|]. apply filter_In. auto.
Qed.

Lemma loop_columns_incl (df : frame) (col : string) :
  In col (k_cols (kept df)) -> In col kelvin_columns.
Proof.
  intros H. apply loop_columns_kelvin in H. destruct H as (f & Hf & _ & ->).
  unfold kelvin_columns.
  exact (in_map (fun f : string * (string * string) => fst (snd f)) _ _ Hf).
Qed.

Lemma loop_columns_NoDup (df : frame) :
  NoDup (map (str_replace "_k" "_c") (k_cols (kept df))).
Proof.
  rewrite k_cols_kept, map_map. apply NoDup_map_filter.
  apply (bool_decide_unpack _). vm_compute. reflexivity.
Qed.

(** ** The normalizer as a whole *)

Lemma derived_get_other (df : frame) (now : Z) (weather_id weather_main weather_description : value)
    (icon : string) (sunrise sunset timezone : Z) (k : string) :
  ~ In k derived_columns ->
  frame_get k (derived df now weather_id weather_main weather_description icon
                 sunrise sunset timezone)
  = frame_get k df.
Proof.
  intros Hk. unfold derived.
  repeat (rewrite frame_get_set_ne;
          [|intros <-; apply Hk; simpl; tauto]).
  reflexivity.
Qed.

Lemma derived_get_sunrise (df : frame) (now : Z) (weather_id weather_main weather_description : value)
    (icon : string) (sunrise sunset timezone : Z) :
  frame_get "sys_sunrise"
    (derived df now weather_id weather_main weather_description icon sunrise sunset timezone)
  = Some (VTimestamp (timestamp_from_epoch_seconds (int64_add sunrise timezone))).
Proof. unfold derived. frame_get_simpl. now rewrite round_ms_seconds. Qed.

Lemma derived_get_sunset (df : frame) (now : Z) (weather_id weather_main weather_description : value)
    (icon : string) (sunrise sunset timezone : Z) :
  frame_get "sys_sunset"
    (derived df now weather_id weather_main weather_description icon sunrise sunset timezone)
  = Some (VTimestamp (timestamp_from_epoch_seconds (int64_add sunset timezone))).
Proof. unfold derived. frame_get_simpl. now rewrite round_ms_seconds. Qed.

Lemma derived_get_collection_timestamp (df : frame) (now : Z)
    (weather_id weather_main weather_description : value)
    (icon : string) (sunrise sunset timezone : Z) :
  frame_get "collection_timestamp"
    (derived df now weather_id weather_main weather_description icon sunrise sunset timezone)
  = Some (VTimestamp now).
Proof. unfold derived. now frame_get_simpl. Qed.

(** The sources of the temperatures, the humidity and the coordinates are
    none of the columns [derive_columns] writes. *)
Lemma temperature_source_not_derived (f : string * (string * string)) :
  In f temperature_fields -> ~ In (fst f) derived_columns.
Proof.
  intros Hin. simpl in Hin.
  repeat (destruct Hin as [<-|Hin];
          [rewrite <- list_elem_of_In; apply (bool_decide_unpack _); vm_compute; reflexivity|]).
  destruct Hin.
Qed.

Lemma measurement_source_not_derived (f : string * string) :
  In f measurement_fields -> ~ In (fst f) derived_columns /\ In f columns_to_keep.
Proof.
  intros Hin. simpl in Hin.
  repeat (destruct Hin as [<-|Hin];
          [split; [rewrite <- list_elem_of_In; apply (bool_decide_unpack _);
                   vm_compute; reflexivity|simpl; tauto]|]).
  destruct Hin.
Qed.

Lemma has_col_false (k : string) (df : frame) :
  has_col k df = false <-> frame_get k df = None.
Proof. unfold has_col. destruct (frame_get k df); split; congruence. Qed.

Lemma bind_Ok {A B} (a : A) (f : A -> result B) : (Ok a ≫= f) = f a.
Proof. reflexivity. Qed.

Lemma bind_Ok_inv {A B} (m : result A) (f : A -> result B) (b : B) :
  m ≫= f = Ok b -> exists a, m = Ok a /\ f a = Ok b.
Proof.
  destruct m as [a|e]; [|discriminate]. intros H. exists a. split; [reflexivity|exact H].
Qed.

(** What a successful [transform] went through. *)
Lemma transform_Ok (data : value) (now : Z) (row : frame) :
  transform data now = Ok row ->
  exists df df',
    json_normalize data = Ok df /\
    derive_columns df now = Ok df' /\
    celsius_loop (k_cols (kept df')) (kept df') = Ok row.
Proof.
  unfold transform. intros H.
  apply bind_Ok_inv in H. destruct H as (df & Hdf & H).
  apply bind_Ok_inv in H. destruct H as (df' & Hdf' & H).
  apply bind_Ok_inv in H. destruct H as (t & Ht & H).
  rewrite keep_columns_kept in Ht. injection Ht as <-.
  exists df, df'. split; [exact Hdf|]. split; [exact Hdf'|exact H].
Qed.

(** [transform] once the document is flattened and its columns derived. *)
Lemma transform_steps (data : value) (now : Z) (df df' : frame) :
  json_normalize data = Ok df ->
  derive_columns df now = Ok df' ->
  transform data now = celsius_loop (k_cols (kept df')) (kept df').
Proof.
  intros H1 H2. unfold transform.
  rewrite H1, (bind_Ok df). cbv beta.
  rewrite H2, (bind_Ok df'). cbv beta.
  rewrite keep_columns_kept.
  exact (bind_Ok (kept df') (fun t => celsius_loop (k_cols t) t)).
Qed.

(** [transform] fails the way [derive_columns] does. *)
Lemma transform_derive_fails (data : value) (now : Z) (df : frame) (e : exn) :
  json_normalize data = Ok df ->
  derive_columns df now = Raise e ->
  transform data now = Raise e.
Proof.
  intros H1 H2. unfold transform.
  rewrite H1, (bind_Ok df). cbv beta. rewrite H2. reflexivity.
Qed.

(** After the loop a column that is not a Celsius column is as
    [keep_columns] left it. *)
Lemma transform_get_kept (df' row : frame) (c : string) :
  celsius_loop (k_cols (kept df')) (kept df') = Ok row ->
  ~ In c celsius_columns ->
  frame_get c row = frame_get c (kept df').
Proof.
  intros Hloop Hc.
  destruct (celsius_loop_Ok _ _ _ Hloop) as [_ Hother].
  - intros a b Ha Hb. apply kelvin_not_celsius; eapply loop_columns_incl; eassumption.
  - apply loop_columns_NoDup.
  - apply Hother. intros Hin. apply Hc.
    apply in_map_iff in Hin. destruct Hin as (col & <- & Hcol).
    rewrite <- celsius_names. apply in_map. eapply loop_columns_incl. exact Hcol.
Qed.

(** A column of [columns_to_keep] holds the cell of its source, and is
    missing when its source is. *)
Lemma transform_get_target (df' row : frame) (k c : string) :
  celsius_loop (k_cols (kept df')) (kept df') = Ok row ->
  In (k, c) columns_to_keep ->
  frame_get c row = frame_get k df'.
Proof.
  intros Hloop Hin. rewrite (transform_get_kept _ _ _ Hloop).
  - now apply kept_get.
  - intros Hc. apply (celsius_not_kept c Hc). apply in_map_iff. exists (k, c). auto.
Qed.

(** The Celsius column of a temperature: the Kelvin cell less 273.15 when
    the temperature is in the document, missing when it is not. *)
Lemma transform_get_celsius (df' row : frame) (f : string * (string * string)) :
  celsius_loop (k_cols (kept df')) (kept df') = Ok row ->
  In f temperature_fields ->
  match frame_get (fst f) df' with
  | Some v => exists c, sub_273_15 v = Ok c /\ frame_get (snd (snd f)) row = Some c
  | None => frame_get (snd (snd f)) row = None
  end.
Proof.
  intros Hloop Hf. destruct (temperature_fields_kept f Hf) as [Hkeep Hname].
  destruct (celsius_loop_Ok _ _ _ Hloop) as [Hcols Hother].
  { intros a b Ha Hb. apply kelvin_not_celsius; eapply loop_columns_incl; eassumption. }
  { apply loop_columns_NoDup. }
  destruct (frame_get (fst f) df') as [v|] eqn:Hg.
  - destruct (Hcols (fst (snd f))) as (v' & c & Hv' & Hc & Hout).
    { apply loop_columns_kelvin. exists f. unfold has_col. rewrite Hg. auto. }
    rewrite (kept_get _ _ _ Hkeep), Hg in Hv'. injection Hv' as <-.
    exists c. rewrite <- Hname. auto.
  - rewrite Hother.
    + destruct (frame_get (snd (snd f)) (kept df')) eqn:Hk; [|reflexivity].
      exfalso. assert (Hhas : has_col (snd (snd f)) (kept df') = true)
        by (unfold has_col; now rewrite Hk).
      apply kept_has_col in Hhas. destruct Hhas as (k & Hin & _).
      apply (celsius_not_kept (snd (snd f))).
      * unfold celsius_columns.
        exact (in_map (fun f : string * (string * string) => snd (snd f)) _ _ Hf).
      * apply in_map_iff. exists (k, snd (snd f)). auto.
    + intros Hin. apply in_map_iff in Hin. destruct Hin as (col & Hcol & Hin).
      apply loop_columns_kelvin in Hin. destruct Hin as (g & Hg' & Hhas & ->).
      destruct (temperature_fields_kept g Hg') as [_ Hname'].
      rewrite Hname', <- Hname in Hcol.
      assert (g = f).
      { clear - Hf Hg' Hcol Hname Hname'. rewrite Hname in Hcol.
        simpl in Hf, Hg'.
        repeat (destruct Hf as [<-|Hf]);
          repeat (destruct Hg' as [<-|Hg']); try reflexivity; try contradiction;
          simpl in Hcol; discriminate. }
      subst g. unfold has_col in Hhas. now rewrite Hg in Hhas.
Qed.

Lemma transformable_inv (df : frame) :
  transformable df = true ->
  exists d rest weather_id weather_main weather_description icon sunrise sunset timezone,
    frame_get "weather" df = Some (VList (VDict d :: rest)) /\
    (frame_get "id" d = Some weather_id /\ scalar weather_id = true) /\
    (frame_get "main" d = Some weather_main /\ scalar weather_main = true) /\
    (frame_get "description" d = Some weather_description /\
     scalar weather_description = true) /\
    frame_get "icon" d = Some (VStr icon) /\
    frame_get "sys.sunrise" df = Some (VInt sunrise) /\
    frame_get "sys.sunset" df = Some (VInt sunset) /\
    frame_get "timezone" df = Some (VInt timezone) /\
    epoch_ok (VInt sunrise) (VInt timezone) = true /\
    epoch_ok (VInt sunset) (VInt timezone) = true /\
    (forall f v, In f temperature_fields -> frame_get (fst f) df = Some v ->
                 numeric v = true).
Proof.
  unfold transformable. intros H.
  destruct (frame_get "weather" df) as [[| | | | |[|w rest]| |]|] eqn:Gw; try discriminate.
  destruct (frame_get "sys.sunrise" df) as [sr|] eqn:Gsr; [|discriminate].
  destruct (frame_get "sys.sunset" df) as [ss|] eqn:Gss; [|discriminate].
  destruct (frame_get "timezone" df) as [tz|] eqn:Gtz; [|discriminate].
  apply andb_true_iff in H. destruct H as [H Htemp].
  apply andb_true_iff in H. destruct H as [H Hss].
  apply andb_true_iff in H. destruct H as [Hw Hsr].
  destruct w as [| | | | | |d|]; try discriminate. simpl in Hw.
  destruct (frame_get "id" d) as [weather_id|] eqn:Gid; [|discriminate].
  destruct (frame_get "main" d) as [weather_main|] eqn:Gmain; [|discriminate].
  destruct (frame_get "description" d) as [weather_description|] eqn:Gdesc; [|discriminate].
  destruct (frame_get "icon" d) as [[| | | |icon| | |]|] eqn:Gicon; try discriminate.
  apply andb_true_iff in Hw. destruct Hw as [Hw Sdesc].
  apply andb_true_iff in Hw. destruct Hw as [Sid Smain].
  destruct sr as [| |sunrise| | | | |]; try discriminate.
  destruct tz as [| |timezone| | | | |]; try discriminate.
  destruct ss as [| |sunset| | | | |]; try discriminate.
  exists d, rest, weather_id, weather_main, weather_description, icon, sunrise, sunset, timezone.
  do 10 (split; [auto|]).
  intros f v Hf Hv. rewrite forallb_forall in Htemp.
  specialize (Htemp f Hf). now rewrite Hv in Htemp.
Qed.

(** [transform] goes through on every transformable document, whichever of
    the temperatures, the humidity and the coordinates it has. *)
Lemma transform_runs (data : value) (now : Z) (df : frame) :
  json_normalize data = Ok df ->
  transformable df = true ->
  exists row, transform data now = Ok row.
Proof.
  intros Hdf Ht.
  destruct (transformable_inv df Ht)
    as (d & rest & weather_id & weather_main & weather_description & icon & sunrise
        & sunset & timezone & Hw & [Hid Sid] & [Hmain Smain] & [Hdesc Sdesc] & Hicon
        & Hsr & Hss & Htz & Hok1 & Hok2 & Hnum).
  pose proof (derive_columns_runs df now d rest _ _ _ _ _ _ _
                Hw Hid Sid Hmain Smain Hdesc Sdesc Hicon Hsr Hss Htz Hok1 Hok2) as Hderive.
  rewrite (transform_steps _ _ _ _ Hdf Hderive).
  apply celsius_loop_runs.
  - intros a b Ha Hb. apply kelvin_not_celsius; eapply loop_columns_incl; eassumption.
  - intros col Hcol. apply loop_columns_kelvin in Hcol.
    destruct Hcol as (f & Hf & Hhas & ->).
    destruct (temperature_fields_kept f Hf) as [Hkeep _].
    rewrite (kept_get _ _ _ Hkeep).
    unfold has_col in Hhas.
    rewrite derived_get_other in Hhas |- * by (apply temperature_source_not_derived; exact Hf).
    destruct (frame_get (fst f) df) as [v|] eqn:Hg; [|discriminate].
    exists v. eexists. split; [reflexivity|].
    apply sub_273_15_numeric. exact (Hnum f v Hf Hg).
Qed.

(** ** A partial row is not stored *)

Lemma not_null_violation_None (cols : list column_def) (row : frame) (c : column_def) :
  not_null_violation cols row = None -> In c cols -> col_not_null c = true ->
  exists v, frame_get (col_name c) row = Some v /\ v <> VNone.
Proof.
  induction cols as [|c' cols IH]; intros H Hin Hnn; [destruct Hin|].
  simpl in H. destruct Hin as [->|Hin].
  - rewrite Hnn in H. destruct (frame_get (col_name c) row) as [v|]; [|discriminate].
    exists v. split; [reflexivity|]. intros ->. discriminate.
  - apply IH; [|exact Hin|exact Hnn].
    destruct (col_not_null c'); [|exact H].
    destruct (frame_get (col_name c') row) as [[]|]; try discriminate; exact H.
Qed.

(** A column the frame leaves out, and that has no default, is stored as
    NULL. *)
Lemma cells_for_absent (n : Z) (df : frame) (cols : list column_def) (row : frame)
    (k : string) :
  cells_for n df cols = Ok row ->
  frame_get k df = None ->
  (forall c, In c cols -> col_name c = k -> col_type c <> SERIAL) ->
  In k (map col_name cols) ->
  frame_get k row = Some VNone.
Proof.
  intros H Hk. revert row H.
  induction cols as [|c cols IH]; intros row H Hser Hin; [destruct Hin|].
  simpl in H.
  destruct (cell_for n df c) as [cell|e] eqn:Hc; result_simpl; [|discriminate].
  destruct (cells_for n df cols) as [rest|e]; result_simpl; [|discriminate].
  injection H as <-. pose proof (cell_for_fst _ _ _ _ Hc) as Hfst.
  destruct cell as [c0 w0]. simpl in Hfst. subst c0. simpl.
  destruct (String.eqb_spec (col_name c) k) as [E|Hne].
  - unfold cell_for in Hc. rewrite E, Hk in Hc.
    pose proof (Hser c ltac:(now left) E) as Hty.
    destruct (col_type c); try contradiction; now injection Hc as <-.
  - apply (IH rest eq_refl).
    + intros c' Hc'. apply Hser. now right.
    + destruct Hin as [E|Hin]; [contradiction|exact Hin].
Qed.

Lemma required_columns_spec (k : string) :
  In k required_columns ->
  (exists c, In c (tbl_columns fresh_weather_data) /\ col_name c = k /\
             col_not_null c = true) /\
  (forall c, In c (tbl_columns fresh_weather_data) -> col_name c = k ->
             col_type c <> SERIAL).
Proof.
  unfold required_columns. intros Hin. apply in_map_iff in Hin.
  destruct Hin as (c & <- & Hc). apply filter_In in Hc. destruct Hc as [Hc Hreq].
  apply andb_true_iff in Hreq. destruct Hreq as [Hnn Hty].
  split; [exists c; auto|].
  intros c' Hc' Hname Hser.
  assert (Hid : col_name c' = "id").
  { clear - Hc' Hser. simpl in Hc'.
    repeat (destruct Hc' as [<-|Hc']; [try reflexivity; discriminate|]). destruct Hc'. }
  rewrite Hid in Hname.
  clear - Hc Hname Hty. simpl in Hc.
  repeat (destruct Hc as [<-|Hc]; [discriminate|]). destruct Hc.
Qed.

(** [load] refuses a row that lacks a required column of the declared
    table. *)
Lemma load_partial_row (row : frame) (st : db) (k : string) :
  tbl_columns (default fresh_weather_data (weather_data st))
  = tbl_columns fresh_weather_data ->
  In k required_columns -> has_col k row = false ->
  is_ok (load row st) = false.
Proof.
  intros Hcols Hk Hrow.
  destruct (load row st) as [st1|e] eqn:Hload; [exfalso|reflexivity].
  destruct (load_inv _ _ _ Hload) as (t1 & Hins & _).
  destruct (insert_row_Ok _ _ _ Hins) as (r & _ & Hcells & Hnn & _).
  rewrite Hcols in Hcells, Hnn.
  destruct (required_columns_spec k Hk) as [(c & Hc & <- & Hnotnull) Hser].
  destruct (not_null_violation_None _ _ c Hnn Hc Hnotnull) as (v & Hv & Hne).
  rewrite (cells_for_absent _ _ _ _ (col_name c) Hcells) in Hv.
  - injection Hv as <-. contradiction.
  - apply has_col_false. exact Hrow.
  - exact Hser.
  - now apply in_map.
Qed.

(** ** The normalizer: missing fields, Celsius, sun events *)

Lemma measurement_required (f : string * string) :
  In f measurement_fields -> In (snd f) required_columns.
Proof.
  intros Hin. simpl in Hin.
  repeat (destruct Hin as [<-|Hin]; [vm_compute; tauto|]). destruct Hin.
Qed.

Lemma temperature_required (f : string * (string * string)) :
  In f temperature_fields -> In (fst (snd f)) required_columns.
Proof.
  intros Hin. simpl in Hin.
  repeat (destruct Hin as [<-|Hin]; [vm_compute; tauto|]). destruct Hin.
Qed.

(** C1, as stated, fails: the observation of the scenario without its
    humidity goes through [transform], which returns a row that has no
    [humidity] column and every other column. *)
Lemma transform_without_humidity :
  (json_normalize rio_without_humidity ≫= fun df => Ok (has_col "main.humidity" df))
  = Ok false /\
  is_ok (transform rio_without_humidity sample_now) = true /\
  (transform rio_without_humidity sample_now ≫= fun row =>
     Ok (has_col "humidity" row, has_col "temperature_k" row, has_col "temperature_c" row))
  = Ok (false, true, true).
Proof. repeat split; vm_compute; reflexivity. Qed.

(** C1, amended. A missing condition field makes [transform] fail and
    return no row: without the [weather] entry it raises [KeyError], with an
    empty [weather] list [IndexError], with a descriptor that has no [id]
    [KeyError], and whenever it returns a row the descriptor had its four
    entries. A missing temperature, humidity or coordinate does not make it
    fail: on a document that is otherwise in order it returns a row, and the
    row lacks the column of each missing field (for a temperature, the Kelvin
    and the Celsius column). Such a row is not stored: [load] refuses it
    against the declared table. *)
Theorem transform_missing_fields (data : value) (now : Z) (df : frame) :
  json_normalize data = Ok df ->
  (frame_get "weather" df = None -> transform data now = Raise (KeyError "weather")) /\
  (frame_get "weather" df = Some (VList []) -> transform data now = Raise IndexError) /\
  (forall d rest,
     frame_get "weather" df = Some (VList (VDict d :: rest)) ->
     frame_get "id" d = None -> transform data now = Raise (KeyError "id")) /\
  (transformable df = true -> exists row, transform data now = Ok row) /\
  (forall row,
     transform data now = Ok row ->
     (exists d rest,
        frame_get "weather" df = Some (VList (VDict d :: rest)) /\
        forall key, In key ["id"; "main"; "description"; "icon"]%string ->
                    has_col key d = true) /\
     (forall f, In f measurement_fields -> has_col (fst f) df = false ->
        has_col (snd f) row = false /\
        forall st,
          tbl_columns (default fresh_weather_data (weather_data st))
          = tbl_columns fresh_weather_data ->
          is_ok (load row st) = false) /\
     (forall f, In f temperature_fields -> has_col (fst f) df = false ->
        has_col (fst (snd f)) row = false /\ has_col (snd (snd f)) row = false /\
        forall st,
          tbl_columns (default fresh_weather_data (weather_data st))
          = tbl_columns fresh_weather_data ->
          is_ok (load row st) = false)).
Proof.
  intros Hdf.
  split; [|split; [|split; [|split]]].
  - intros Hw. apply (transform_derive_fails _ _ _ _ Hdf).
    unfold derive_columns, getitem. now rewrite Hw.
  - intros Hw. apply (transform_derive_fails _ _ _ _ Hdf).
    unfold derive_columns, getitem. now rewrite Hw.
  - intros d rest Hw Hid. apply (transform_derive_fails _ _ _ _ Hdf).
    unfold derive_columns, getitem. rewrite Hw. result_simpl.
    simpl index0. result_simpl. simpl subscript. unfold getitem. now rewrite Hid.
  - intros Ht. exact (transform_runs data now df Hdf Ht).
  - intros row Hrow.
    destruct (transform_Ok _ _ _ Hrow) as (df0 & df' & Hdf0 & Hderive & Hloop).
    rewrite Hdf in Hdf0. injection Hdf0 as <-.
    destruct (derive_columns_Ok _ _ _ Hderive)
      as (d & rest & weather_id & weather_main & weather_description & icon & sunrise
          & sunset & timezone & Hw & Hid & Hmain & Hdesc & Hicon & _ & _ & _ & _ & _ & ->).
    split; [|split].
    + exists d, rest. split; [exact Hw|].
      intros key Hkey. unfold has_col. simpl in Hkey.
      destruct Hkey as [<-|[<-|[<-|[<-|[]]]]];
        [rewrite Hid|rewrite Hmain|rewrite Hdesc|rewrite Hicon]; reflexivity.
    + intros f Hf Habs.
      destruct (measurement_source_not_derived f Hf) as [Hnd Hkeep].
      assert (Hmiss : has_col (snd f) row = false).
      { apply has_col_false. destruct f as [k c]. cbn [fst snd] in *.
        rewrite (transform_get_target _ _ k c Hloop Hkeep).
        rewrite (derived_get_other _ _ _ _ _ _ _ _ _ _ Hnd).
        now apply has_col_false. }
      split; [exact Hmiss|].
      intros st Hcols.
      exact (load_partial_row row st _ Hcols (measurement_required f Hf) Hmiss).
    + intros f Hf Habs.
      destruct (temperature_fields_kept f Hf) as [Hkeep _].
      pose proof (temperature_source_not_derived f Hf) as Hnd.
      apply has_col_false in Habs.
      assert (Hk : has_col (fst (snd f)) row = false).
      { apply has_col_false.
        rewrite (transform_get_target _ _ _ _ Hloop Hkeep).
        now rewrite (derived_get_other _ _ _ _ _ _ _ _ _ _ Hnd). }
      split; [exact Hk|]. split.
      * apply has_col_false.
        pose proof (transform_get_celsius _ _ f Hloop Hf) as Hc.
        rewrite (derived_get_other _ _ _ _ _ _ _ _ _ _ Hnd), Habs in Hc. exact Hc.
      * intros st Hcols.
        exact (load_partial_row row st _ Hcols (temperature_required f Hf) Hk).
Qed.

Lemma transform_missing_fields_witness :
  exists row, transform rio_without_humidity sample_now = Ok row.
Proof.
  assert (Hdf : json_normalize rio_without_humidity = Ok (flattened rio_without_humidity))
    by (vm_compute; reflexivity).
  destruct (transform_missing_fields rio_without_humidity sample_now _ Hdf)
    as (_ & _ & _ & Hruns & _).
  apply Hruns. vm_compute. reflexivity.
Defined.

(** ** The file between [transform] and [load] *)

Example float_text_scenario :
  float_text 300 = Ok "300.0"%string /\
  float_text 26.850000000000023 = Ok "26.850000000000023"%string /\
  float_text (-43.2) = Ok "-43.2"%string /\
  float_text 1331469212937131.75 = Ok "1331469212937131.8"%string /\
  float_text 9007199254740992 = Ok "9007199254740992.0"%string /\
  float_text 1.0100000000000477 = Ok "1.0100000000000477"%string /\
  float_text 1 = Ok "1.0"%string /\
  float_text 9999999999999998 = Ok "9999999999999998.0"%string /\
  float_text 1e16 = Raise OutsideModel /\
  float_text 0.5 = Raise OutsideModel.
Proof. vm_compute. repeat split. Qed.

Example csv_float_scenario :
  csv_float 300 = Ok 300%float /\
  csv_float 26.850000000000023 = Ok 26.850000000000023%float /\
  csv_float 274.16 = Ok 274.16%float /\
  csv_float 1.0100000000000477 = Ok 1.0100000000000475%float /\
  csv_float (-63.889999999999986) = Ok (-63.88999999999999)%float.
Proof. vm_compute. repeat split. Qed.

(** ** What is stored of a Celsius value *)





(** C2 fails as stated: on a day of 298.21 K the Celsius temperature
    computed is [25.060000000000002], its text in the file reads back as
    [25.06], and that is what the table holds. *)
Lemma celsius_stored_differs :
  valid_observation warm = true /\
  frame_get "temperature_k" warm_row = Some (VFloat 298.21) /\
  frame_get "temperature_c" warm_row = Some (VFloat (298.21 - 273.15)) /\
  (298.21 - 273.15 = 25.060000000000002)%float /\
  float_text 25.060000000000002 = Ok "25.060000000000002"%string /\
  precise_xstrtod "25.060000000000002" = Ok 25.06%float /\
  (read_back warm_row ≫= fun df => load df ∅) = Ok warm_run /\
  frame_get "temperature_k" warm_stored = Some (VFloat 298.21) /\
  frame_get "temperature_c" warm_stored = Some (VFloat 25.06) /\
  PrimFloat.eqb 25.06 (298.21 - 273.15) = false.
Proof. repeat (split; [vm_compute; reflexivity|]). vm_compute. reflexivity. Qed.



(** The scenario of the specification: 300 K is stored as 26.85 degrees
    Celsius, up to the rounding of binary64. *)
Example transform_scenario :
  frame_get "temperature_c" rio_row = Some (VFloat (300 - 273.15)%float) /\
  frame_get "weather_icon" rio_row
  = Some (VStr "https://openweathermap.org/img/wn/01d@2x.png") /\
  frame_get "sys_country" rio_row = Some (VStr "BR").
Proof. repeat split; vm_compute; reflexivity. Qed.

(** C5. Whenever [transform] returns a row, its [sys_sunrise] is the
    timestamp that lies [sunrise + timezone] seconds after the epoch and its
    [sys_sunset] the one that lies [sunset + timezone] seconds after it, the
    sums being those of two [int64] columns: the offset is added before the
    conversion, so the cell holds local time under a timestamp without zone.
    It returns a row on every transformable document. *)
Theorem sun_events_offset_shifted (data : value) (now : Z) :
  (forall df, json_normalize data = Ok df -> transformable df = true ->
              exists row, transform data now = Ok row) /\
  (forall row,
     transform data now = Ok row ->
     exists df sunrise sunset timezone,
       json_normalize data = Ok df /\
       frame_get "sys.sunrise" df = Some (VInt sunrise) /\
       frame_get "sys.sunset" df = Some (VInt sunset) /\
       frame_get "timezone" df = Some (VInt timezone) /\
       frame_get "sys_sunrise" row
       = Some (VTimestamp (timestamp_from_epoch_seconds (int64_add sunrise timezone))) /\
       frame_get "sys_sunset" row
       = Some (VTimestamp (timestamp_from_epoch_seconds (int64_add sunset timezone))) /\
       (in_int64 (sunrise + timezone) = true ->
        frame_get "sys_sunrise" row
        = Some (VTimestamp (timestamp_from_epoch_seconds (sunrise + timezone)))) /\
       (in_int64 (sunset + timezone) = true ->
        frame_get "sys_sunset" row
        = Some (VTimestamp (timestamp_from_epoch_seconds (sunset + timezone))))).
Proof.
  split; [intros df; apply transform_runs|].
  intros row Hrow.
  destruct (transform_Ok _ _ _ Hrow) as (df & df' & Hdf & Hderive & Hloop).
  destruct (derive_columns_Ok _ _ _ Hderive)
    as (d & rest & weather_id & weather_main & weather_description & icon & sunrise
        & sunset & timezone & _ & _ & _ & _ & _ & Hsr & Hss & Htz & _ & _ & ->).
  exists df, sunrise, sunset, timezone.
  assert (Hrise : frame_get "sys_sunrise" row
                  = Some (VTimestamp (timestamp_from_epoch_seconds
                                        (int64_add sunrise timezone)))).
  { rewrite (transform_get_target _ _ "sys_sunrise" "sys_sunrise" Hloop) by (simpl; tauto).
    apply derived_get_sunrise. }
  assert (Hset : frame_get "sys_sunset" row
                 = Some (VTimestamp (timestamp_from_epoch_seconds
                                       (int64_add sunset timezone)))).
  { rewrite (transform_get_target _ _ "sys_sunset" "sys_sunset" Hloop) by (simpl; tauto).
    apply derived_get_sunset. }
  repeat (split; [assumption|]). split.
  - intros Hfit. now rewrite <- (int64_add_exact _ _ Hfit).
  - intros Hfit. now rewrite <- (int64_add_exact _ _ Hfit).
Qed.

Lemma sun_events_offset_shifted_witness :
  exists row, transform rio sample_now = Ok row.
Proof.
  apply (proj1 (sun_events_offset_shifted rio sample_now) (flattened rio)).
  - vm_compute. reflexivity.
  - vm_compute. reflexivity.
Defined.

(** In the scenario the sun rises at 22:13:20 UTC; the row says 19:13:20,
    the hour of Rio de Janeiro. *)
Example sunrise_scenario :
  frame_get "sys_sunrise" rio_row
  = Some (VTimestamp (timestamp_from_epoch_seconds (1700000000 + -10800))).
Proof. vm_compute. reflexivity. Qed.

(** ** The sample runs *)

Lemma after_one_run_loaded : load rio_row ∅ = Ok after_one_run.
Proof. vm_compute. reflexivity. Qed.

Lemma two_cities_loaded : load lisbon_row after_one_run = Ok two_cities.
Proof. vm_compute. reflexivity. Qed.

Lemma two_cities_wf : db_wf two_cities.
Proof.
  apply (load_wf lisbon_row after_one_run); [|exact two_cities_loaded].
  apply (load_wf rio_row ∅); [exact db_wf_empty|exact after_one_run_loaded].
Qed.

Lemma load_data_without_city_witness :
  load_data stable_sort (Some EmptyString) window_start window_end two_cities
  = load_data stable_sort None window_start window_end two_cities /\
  exists df,
    load_data stable_sort None window_start window_end two_cities = Ok df /\
    Permutation df (List.filter (between window_start window_end) (tbl_rows two_cities_table)) /\
    Sorted ts_le df /\
    (forall r, In r df <->
               In r (tbl_rows two_cities_table) /\
               exists ts, frame_ts r = Some ts /\ window_start <= ts <= window_end).
Proof.
  apply (load_data_without_city stable_sort stable_sort_sorts
           window_start window_end two_cities two_cities_table).
  - exact two_cities_wf.
  - vm_compute. reflexivity.
  - vm_compute. reflexivity.
Defined.

(** Both cities come back when the city is the empty string. *)
Example load_data_empty_city :
  (load_data stable_sort (Some EmptyString) window_start window_end two_cities ≫= fun df =>
     Ok (map (frame_get "city") df))
  = Ok [Some (VStr "Rio de Janeiro"); Some (VStr "Lisbon")].
Proof. vm_compute. reflexivity. Qed.

Lemma append_twice_witness :
  exists st2 t2 row1 row2 result,
    load rio_row after_one_run = Ok st2 /\
    weather_data st2 = Some t2 /\
    tbl_rows t2
    = tbl_rows (default fresh_weather_data (weather_data ∅)) ++ [row1; row2] /\
    (forall k, has_col k rio_row = true -> frame_get k row1 = frame_get k row2) /\
    frame_ts row1 = Some sample_now /\ frame_ts row2 = Some sample_now /\
    load_data stable_sort (Some "Rio de Janeiro"%string) window_start window_end st2
    = Ok result /\
    Permutation result
      (List.filter (selected (Some "Rio de Janeiro"%string) window_start window_end)
         (tbl_rows (default fresh_weather_data (weather_data ∅))) ++ [row1; row2]) /\
    In row1 result /\ In row2 result.
Proof.
  apply (append_twice stable_sort stable_sort_sorts rio_row ∅ after_one_run
           (Some "Rio de Janeiro"%string) window_start window_end sample_now).
  - exact db_wf_empty.
  - exact after_one_run_loaded.
  - vm_compute. reflexivity.
  - vm_compute. split; discriminate.
  - intros c Hc _. injection Hc as <-. vm_compute. reflexivity.
Defined.

Lemma main_latest_witness :
  (forall df,
     load_data stable_sort None window_start window_end two_cities = Ok df ->
     match df with
     | [] => main stable_sort stable_sort None window_start window_end false two_cities
             = Ok NoData
     | _ =>
         exists latest_row,
           main stable_sort stable_sort None window_start window_end false two_cities
           = Ok (Hero df latest_row false) /\
           In latest_row df /\ forall r, In r df -> ts_le r latest_row
     end) /\
  (forall t,
     db_wf two_cities ->
     weather_data two_cities = Some t ->
     has_column "collection_timestamp" t = true ->
     (truthy None = true -> has_column "city" t = true) ->
     match List.filter (selected None window_start window_end) (tbl_rows t) with
     | [] => main stable_sort stable_sort None window_start window_end false two_cities
             = Ok NoData
     | rows =>
         exists df latest_row ts,
           main stable_sort stable_sort None window_start window_end false two_cities
           = Ok (Hero df latest_row false) /\
           Permutation df rows /\
           In latest_row rows /\
           frame_ts latest_row = Some ts /\
           forall r, In r rows -> exists ts', frame_ts r = Some ts' /\ ts' <= ts
     end).
Proof.
  exact (main_latest stable_sort stable_sort stable_sort_sorts stable_sort_sorts
           None window_start window_end false two_cities).
Defined.

(** The scenario of the specification: with the table there and no row in
    it, the page is "no data"; after the two loads it shows the row loaded
    last. *)
Example main_scenario :
  (provision ∅ ≫= main stable_sort stable_sort None window_start window_end false)
  = Ok NoData /\
  (main stable_sort stable_sort None window_start window_end false two_cities ≫= fun p =>
     Ok match p with
        | Hero _ latest_row _ => frame_get "city" latest_row
        | NoData => None
        end)
  = Ok (Some (VStr "Lisbon")).
Proof. split; vm_compute; reflexivity. Qed.

(** * Further properties of the pipeline *)

(** ** The row [transform] returns *)

Lemma derived_get_descriptor (df : frame) (now : Z)
    (weather_id weather_main weather_description : value)
    (icon : string) (sunrise sunset timezone : Z) :
  let df' := derived df now weather_id weather_main weather_description icon
               sunrise sunset timezone in
  frame_get "weather_id" df' = Some weather_id /\
  frame_get "weather_main" df' = Some weather_main /\
  frame_get "weather_description" df' = Some weather_description /\
  frame_get "weather_icon" df'
  = Some (VStr (String.append "https://openweathermap.org/img/wn/"
                  (String.append icon "@2x.png"))).
Proof. unfold derived. repeat split; now frame_get_simpl. Qed.

(** X1. Whenever [transform] returns a row, its [collection_timestamp] is
    the time of the call, whatever the document holds, an entry of that very
    name included. *)
Theorem transform_stamps_now (data : value) (now : Z) (row : frame) :
  transform data now = Ok row ->
  frame_get "collection_timestamp" row = Some (VTimestamp now).
Proof.
  intros Hrow.
  destruct (transform_Ok _ _ _ Hrow) as (df & df' & _ & Hderive & Hloop).
  destruct (derive_columns_Ok _ _ _ Hderive)
    as (d & rest & weather_id & weather_main & weather_description & icon & sunrise
        & sunset & timezone & _ & _ & _ & _ & _ & _ & _ & _ & _ & _ & ->).
  rewrite (transform_get_target _ _ "collection_timestamp" "collection_timestamp" Hloop)
    by (simpl; tauto).
  apply derived_get_collection_timestamp.
Qed.

Lemma transform_stamps_now_witness :
  frame_get "collection_timestamp"
    (match transform rio_stamped sample_now with Ok row => row | Raise _ => [] end)
  = Some (VTimestamp sample_now).
Proof.
  apply (transform_stamps_now rio_stamped sample_now). vm_compute. reflexivity.
Defined.

(** X2. The condition columns of a row come from the first entry of the
    document's [weather] list and from nowhere else: [weather_id],
    [weather_main] and [weather_description] are its [id], [main] and
    [description], and [weather_icon] is its [icon] between
    ["https://openweathermap.org/img/wn/"] and ["@2x.png"]. Further entries of
    the list, and entries of the document named like these columns, play no
    part. *)
Theorem transform_descriptor (data : value) (now : Z) (row : frame) :
  transform data now = Ok row ->
  exists df d rest icon,
    json_normalize data = Ok df /\
    frame_get "weather" df = Some (VList (VDict d :: rest)) /\
    frame_get "weather_id" row = frame_get "id" d /\
    frame_get "weather_main" row = frame_get "main" d /\
    frame_get "weather_description" row = frame_get "description" d /\
    frame_get "icon" d = Some (VStr icon) /\
    frame_get "weather_icon" row
    = Some (VStr (String.append "https://openweathermap.org/img/wn/"
                    (String.append icon "@2x.png"))).
Proof.
  intros Hrow.
  destruct (transform_Ok _ _ _ Hrow) as (df & df' & Hdf & Hderive & Hloop).
  destruct (derive_columns_Ok _ _ _ Hderive)
    as (d & rest & weather_id & weather_main & weather_description & icon & sunrise
        & sunset & timezone & Hw & Hid & Hmain & Hdesc & Hicon & _ & _ & _ & _ & _ & ->).
  destruct (derived_get_descriptor df now weather_id weather_main weather_description
              icon sunrise sunset timezone) as (Gid & Gmain & Gdesc & Gicon).
  exists df, d, rest, icon.
  split; [exact Hdf|]. split; [exact Hw|].
  rewrite (transform_get_target _ _ "weather_id" "weather_id" Hloop) by (simpl; tauto).
  rewrite (transform_get_target _ _ "weather_main" "weather_main" Hloop) by (simpl; tauto).
  rewrite (transform_get_target _ _ "weather_description" "weather_description" Hloop)
    by (simpl; tauto).
  rewrite (transform_get_target _ _ "weather_icon" "weather_icon" Hloop) by (simpl; tauto).
  rewrite Gid, Gmain, Gdesc, Gicon, Hid, Hmain, Hdesc. auto.
Qed.

Lemma transform_descriptor_witness :
  exists df d rest icon,
    json_normalize rio_stamped = Ok df /\
    frame_get "weather" df = Some (VList (VDict d :: rest)) /\
    frame_get "weather_id" (match transform rio_stamped sample_now with
                            | Ok row => row | Raise _ => [] end)
    = frame_get "id" d /\
    frame_get "weather_main" (match transform rio_stamped sample_now with
                              | Ok row => row | Raise _ => [] end)
    = frame_get "main" d /\
    frame_get "weather_description" (match transform rio_stamped sample_now with
                                     | Ok row => row | Raise _ => [] end)
    = frame_get "description" d /\
    frame_get "icon" d = Some (VStr icon) /\
    frame_get "weather_icon" (match transform rio_stamped sample_now with
                              | Ok row => row | Raise _ => [] end)
    = Some (VStr (String.append "https://openweathermap.org/img/wn/"
                    (String.append icon "@2x.png"))).
Proof.
  apply (transform_descriptor rio_stamped sample_now). vm_compute. reflexivity.
Defined.

(** A column of [columns_to_keep] that [transform] does not write itself
    holds the cell of the flattened document. *)
Lemma transform_get_source (data : value) (now : Z) (df row : frame) (k c : string) :
  json_normalize data = Ok df ->
  transform data now = Ok row ->
  In (k, c) columns_to_keep -> ~ In k derived_columns ->
  frame_get c row = frame_get k df.
Proof.
  intros Hdf Hrow Hkeep Hnd.
  destruct (transform_Ok _ _ _ Hrow) as (df0 & df' & Hdf0 & Hderive & Hloop).
  rewrite Hdf in Hdf0. injection Hdf0 as <-.
  destruct (derive_columns_Ok _ _ _ Hderive)
    as (d & rest & weather_id & weather_main & weather_description & icon & sunrise
        & sunset & timezone & _ & _ & _ & _ & _ & _ & _ & _ & _ & _ & ->).
  rewrite (transform_get_target _ _ k c Hloop Hkeep).
  apply derived_get_other. exact Hnd.
Qed.

(** X3. Every other column of [columns_to_keep] is carried over as it is:
    the row holds, under the new name, the very cell the flattened document
    has under the old one, and has no such column when the document has no
    such entry. *)
Theorem transform_passes_through (data : value) (now : Z) (df row : frame) :
  json_normalize data = Ok df ->
  transform data now = Ok row ->
  forall k c, In (k, c) columns_to_keep -> ~ In k derived_columns ->
              frame_get c row = frame_get k df.
Proof.
  intros Hdf Hrow k c. exact (transform_get_source data now df row k c Hdf Hrow).
Qed.

Lemma transform_passes_through_witness :
  frame_get "humidity" rio_row = frame_get "main.humidity" (flattened rio).
Proof.
  apply (transform_passes_through rio sample_now (flattened rio) rio_row).
  - vm_compute. reflexivity.
  - vm_compute. reflexivity.
  - simpl. tauto.
  - rewrite <- list_elem_of_In. apply (bool_decide_unpack _). vm_compute. reflexivity.
Defined.

(** ** The columns of a row *)

Lemma columns_frame_set_new (k : string) (v : value) (df : frame) :
  has_col k df = false -> columns (frame_set k v df) = columns df ++ [k].
Proof.
  unfold has_col. induction df as [|[c w] df IH]; simpl; [reflexivity|].
  destruct (String.eqb c k); [discriminate|]. intros H. simpl. now rewrite IH.
Qed.

Lemma has_col_frame_set (k k' : string) (v : value) (df : frame) :
  has_col k' (frame_set k v df) = (String.eqb k k' || has_col k' df)%bool.
Proof.
  unfold has_col. destruct (String.eqb_spec k k') as [->|Hne].
  - now rewrite frame_get_set_eq.
  - now rewrite frame_get_set_ne.
Qed.

(** The loop adds the Celsius columns at the end, in the order of the
    Kelvin columns. *)
Lemma celsius_loop_columns (cols : list string) (df out : frame) :
  celsius_loop cols df = Ok out ->
  (forall a, In a cols -> has_col (str_replace "_k" "_c" a) df = false) ->
  NoDup (map (str_replace "_k" "_c") cols) ->
  columns out = columns df ++ map (str_replace "_k" "_c") cols.
Proof.
  revert df. induction cols as [|col cols IH]; intros df H Hnew Hnd.
  - simpl in H. injection H as <-. simpl. now rewrite app_nil_r.
  - cbn [celsius_loop] in H. cbv zeta in H.
    apply bind_Ok_inv in H. destruct H as (v & _ & H).
    apply bind_Ok_inv in H. destruct H as (c & _ & H).
    cbn [map] in Hnd. apply NoDup_cons in Hnd. destruct Hnd as [Hnotin Hnd].
    rewrite (IH _ H).
    + rewrite columns_frame_set_new by (apply Hnew; now left).
      rewrite <- app_assoc. reflexivity.
    + intros a Ha. rewrite has_col_frame_set.
      rewrite (Hnew a) by now right.
      destruct (String.eqb_spec (str_replace "_k" "_c" col) (str_replace "_k" "_c" a))
        as [E|_]; [|reflexivity].
      exfalso. apply Hnotin. rewrite E. apply list_elem_of_In. now apply in_map.
    + exact Hnd.
Qed.

Lemma kept_has_no_celsius (df : frame) (a : string) :
  In a (k_cols (kept df)) -> has_col (str_replace "_k" "_c" a) (kept df) = false.
Proof.
  intros Ha. apply loop_columns_incl in Ha.
  destruct (has_col (str_replace "_k" "_c" a) (kept df)) eqn:Hhas; [|reflexivity].
  exfalso. apply kept_has_col in Hhas. destruct Hhas as (k & Hin & _).
  apply (celsius_not_kept (str_replace "_k" "_c" a)).
  - rewrite <- celsius_names. now apply in_map.
  - apply in_map_iff. exists (k, str_replace "_k" "_c" a). auto.
Qed.

(** The columns of a row: the kept columns in the order of
    [columns_to_keep], then the Celsius columns. *)
Lemma transform_columns (df' row : frame) :
  celsius_loop (k_cols (kept df')) (kept df') = Ok row ->
  columns row
  = map snd (available_cols df') ++ map (str_replace "_k" "_c") (k_cols (kept df')).
Proof.
  intros Hloop. rewrite <- kept_columns.
  apply (celsius_loop_columns _ _ _ Hloop).
  - apply kept_has_no_celsius.
  - apply loop_columns_NoDup.
Qed.

Lemma declared_columns_hold (c : string) :
  In c (map snd columns_to_keep) \/ In c celsius_columns ->
  existsb (fun d => String.eqb (col_name d) c) (tbl_columns fresh_weather_data) = true /\
  c <> "id"%string.
Proof.
  intros [Hin|Hin]; simpl in Hin;
    repeat (destruct Hin as [<-|Hin]; [split; [reflexivity|discriminate]|]);
    destruct Hin.
Qed.

Lemma unknown_column_known (cols : list column_def) (df : frame) :
  (forall k, In k (columns df) ->
             existsb (fun d => String.eqb (col_name d) k) cols = true) ->
  unknown_column cols df = None.
Proof.
  induction df as [|[k v] df IH]; intros H; [reflexivity|].
  cbn [unknown_column]. rewrite (H k) by now left.
  apply IH. intros k' Hk'. apply H. now right.
Qed.

(** X4. The columns of a row [transform] returns are all different, each
    is a new name of [columns_to_keep] or one of the four Celsius columns,
    and none is the key [id].  So a row never meets an unknown column in the
    table [_ensure_table_exists] declares, and never brings a key of its
    own. *)
Theorem transform_columns_declared (data : value) (now : Z) (row : frame) :
  transform data now = Ok row ->
  NoDup (columns row) /\
  (forall c, In c (columns row) ->
             In c (map snd columns_to_keep) \/ In c celsius_columns) /\
  unknown_column (tbl_columns fresh_weather_data) row = None /\
  has_col "id" row = false.
Proof.
  intros Hrow.
  destruct (transform_Ok _ _ _ Hrow) as (df & df' & _ & _ & Hloop).
  pose proof (transform_columns _ _ Hloop) as Hcols.
  assert (Hsub : forall c, In c (columns row) ->
                           In c (map snd columns_to_keep) \/ In c celsius_columns).
  { intros c Hc. rewrite Hcols in Hc. apply in_app_or in Hc. destruct Hc as [Hc|Hc].
    - left. apply in_map_iff in Hc. destruct Hc as (kv & <- & Hkv).
      apply available_cols_In in Hkv. apply in_map. tauto.
    - right. apply in_map_iff in Hc. destruct Hc as (a & <- & Ha).
      rewrite <- celsius_names. apply in_map. exact (loop_columns_incl _ _ Ha). }
  split; [|split; [exact Hsub|split]].
  - rewrite Hcols. apply NoDup_app. split; [|split].
    + unfold available_cols. apply NoDup_map_filter. exact columns_to_keep_targets.
    + intros c Hc%list_elem_of_In Hc'%list_elem_of_In.
      apply in_map_iff in Hc. destruct Hc as (kv & <- & Hkv).
      apply available_cols_In in Hkv.
      apply (celsius_not_kept (snd kv)).
      * apply in_map_iff in Hc'. destruct Hc' as (a & <- & Ha).
        rewrite <- celsius_names. apply in_map. exact (loop_columns_incl _ _ Ha).
      * apply in_map. tauto.
    + apply loop_columns_NoDup.
  - apply unknown_column_known. intros k Hk.
    exact (proj1 (declared_columns_hold k (Hsub k Hk))).
  - destruct (has_col "id" row) eqn:Hid; [|reflexivity].
    apply has_col_In in Hid.
    destruct (declared_columns_hold "id" (Hsub _ Hid)) as [_ Hne]. contradiction.
Qed.

Lemma transform_columns_declared_witness :
  NoDup (columns rio_row) /\
  (forall c, In c (columns rio_row) ->
             In c (map snd columns_to_keep) \/ In c celsius_columns) /\
  unknown_column (tbl_columns fresh_weather_data) rio_row = None /\
  has_col "id" rio_row = false.
Proof.
  apply (transform_columns_declared rio sample_now). vm_compute. reflexivity.
Defined.

(** ** Temperatures that are null, or texts *)

(** X5. A temperature of the document that is a text stops [transform]: it
    returns no row.  A temperature that is null does not: when the columns
    before the loop can be derived and every temperature of the document is
    a number or null, [transform] returns a row, and for each null
    temperature the row holds the null in the Kelvin column and [NaN] in the
    Celsius column. *)
Theorem transform_null_temperature (data : value) (now : Z) (df : frame) :
  json_normalize data = Ok df ->
  (forall f s,
     In f temperature_fields -> frame_get (fst f) df = Some (VStr s) ->
     is_ok (transform data now) = false) /\
  (forall df',
     derive_columns df now = Ok df' ->
     (forall f v, In f temperature_fields -> frame_get (fst f) df = Some v ->
                  numeric v = true \/ v = VNone) ->
     exists row,
       transform data now = Ok row /\
       forall f, In f temperature_fields -> frame_get (fst f) df = Some VNone ->
                 frame_get (fst (snd f)) row = Some VNone /\
                 frame_get (snd (snd f)) row = Some (VFloat PrimFloat.nan)).
Proof.
  intros Hdf. split.
  - intros f s Hf Hv.
    destruct (transform data now) as [row|e'] eqn:Hrow; [exfalso|reflexivity].
    destruct (transform_Ok _ _ _ Hrow) as (df0 & df' & Hdf0 & Hderive & Hloop).
    rewrite Hdf in Hdf0. injection Hdf0 as <-.
    destruct (derive_columns_Ok _ _ _ Hderive)
      as (d & rest & weather_id & weather_main & weather_description & icon & sunrise
          & sunset & timezone & _ & _ & _ & _ & _ & _ & _ & _ & _ & _ & ->).
    pose proof (transform_get_celsius _ _ f Hloop Hf) as Hc.
    rewrite (derived_get_other _ _ _ _ _ _ _ _ _ _ (temperature_source_not_derived f Hf)),
      Hv in Hc.
    destruct Hc as (c & Hc & _). discriminate Hc.
  - intros df' Hderive Hcells.
    rewrite (transform_steps _ _ _ _ Hdf Hderive).
    destruct (derive_columns_Ok _ _ _ Hderive)
      as (d & rest & weather_id & weather_main & weather_description & icon & sunrise
          & sunset & timezone & _ & _ & _ & _ & _ & _ & _ & _ & _ & _ & ->).
    set (df' := derived _ _ _ _ _ _ _ _ _).
    assert (Hsame : forall f, In f temperature_fields ->
                              frame_get (fst f) df' = frame_get (fst f) df).
    { intros f Hf. unfold df'. apply derived_get_other.
      exact (temperature_source_not_derived f Hf). }
    destruct (celsius_loop_runs (k_cols (kept df')) (kept df')) as [row Hloop].
    { intros a b Ha Hb. apply kelvin_not_celsius; eapply loop_columns_incl; eassumption. }
    { intros col Hcol. apply loop_columns_kelvin in Hcol.
      destruct Hcol as (f & Hf & Hhas & ->).
      destruct (temperature_fields_kept f Hf) as [Hkeep _].
      rewrite (kept_get _ _ _ Hkeep), (Hsame f Hf).
      unfold has_col in Hhas. rewrite (Hsame f Hf) in Hhas.
      destruct (frame_get (fst f) df) as [v|] eqn:Hg; [|discriminate].
      exists v. destruct (Hcells f v Hf Hg) as [Hnum| ->].
      - eexists. split; [reflexivity|]. apply sub_273_15_numeric. exact Hnum.
      - eexists. split; reflexivity. }
    exists row. split; [exact Hloop|].
    intros f Hf Hnull. destruct (temperature_fields_kept f Hf) as [Hkeep _]. split.
    + rewrite (transform_get_target _ _ _ _ Hloop Hkeep), (Hsame f Hf). exact Hnull.
    + pose proof (transform_get_celsius _ _ f Hloop Hf) as Hc.
      rewrite (Hsame f Hf), Hnull in Hc. destruct Hc as (c & Hc & Hget).
      cbn [sub_273_15] in Hc. injection Hc as <-. exact Hget.
Qed.

Lemma transform_null_temperature_witness :
  (forall f s,
     In f temperature_fields ->
     frame_get (fst f) (flattened rio_null_temperature) = Some (VStr s) ->
     is_ok (transform rio_null_temperature sample_now) = false) /\
  (forall df',
     derive_columns (flattened rio_null_temperature) sample_now = Ok df' ->
     (forall f v, In f temperature_fields ->
                  frame_get (fst f) (flattened rio_null_temperature) = Some v ->
                  numeric v = true \/ v = VNone) ->
     exists row,
       transform rio_null_temperature sample_now = Ok row /\
       forall f, In f temperature_fields ->
                 frame_get (fst f) (flattened rio_null_temperature) = Some VNone ->
                 frame_get (fst (snd f)) row = Some VNone /\
                 frame_get (snd (snd f)) row = Some (VFloat PrimFloat.nan)).
Proof.
  apply (transform_null_temperature rio_null_temperature sample_now
           (flattened rio_null_temperature)).
  vm_compute. reflexivity.
Defined.

(** The observation with a null temperature goes through [transform]. *)
Example transform_null_scenario :
  (transform rio_null_temperature sample_now ≫= fun row =>
     Ok (frame_get "temperature_k" row, frame_get "temperature_c" row))
  = Ok (Some VNone, Some (VFloat PrimFloat.nan)).
Proof. vm_compute. reflexivity. Qed.

(** ** What [load] does to the storage *)

Lemma to_sql_other (df : frame) (st st' : db) (schema name : string) :
  to_sql "weather_data" "weather" df st = Ok st' ->
  (schema, name) <> ("weather"%string, "weather_data"%string) ->
  lookup_table schema name st' = lookup_table schema name st.
Proof.
  unfold to_sql, lookup_table. intros H Hne.
  destruct (st !! "weather") as [tables|] eqn:Hs; [|discriminate].
  destruct (tables !! "weather_data") as [t|]; [|discriminate].
  destruct (insert_row t df) as [t'|e]; result_simpl; [|discriminate].
  injection H as <-.
  destruct (decide (schema = "weather"%string)) as [->|Hschema].
  - rewrite lookup_insert_eq, Hs. result_simpl.
    apply lookup_insert_ne. congruence.
  - now rewrite lookup_insert_ne by congruence.
Qed.

Lemma provision_other (st stp : db) (schema name : string) :
  provision st = Ok stp ->
  (schema, name) <> ("weather"%string, "weather_data"%string) ->
  lookup_table schema name stp = lookup_table schema name st.
Proof.
  intros H Hne.
  destruct (provision_outcome st) as (st1 & H1 & _ & _ & Hschema & Hname & _).
  rewrite H in H1. injection H1 as <-.
  destruct (decide (schema = "weather"%string)) as [->|Hs].
  - apply Hname. congruence.
  - unfold lookup_table. now rewrite Hschema.
Qed.

(** X6. [load] only ever appends: when it succeeds, the table holds the
    rows it held before, unchanged and in their order, followed by one new
    row with a cell for each column; the columns are the same, the sequence
    has advanced by one, and no other table of the database is touched. *)
Theorem load_appends_one_row (df : frame) (st st1 : db) :
  load df st = Ok st1 ->
  exists t1 row,
    weather_data st1 = Some t1 /\
    tbl_columns t1 = tbl_columns (default fresh_weather_data (weather_data st)) /\
    tbl_rows t1 = tbl_rows (default fresh_weather_data (weather_data st)) ++ [row] /\
    tbl_serial t1 = tbl_serial (default fresh_weather_data (weather_data st)) + 1 /\
    columns row = map col_name (tbl_columns t1) /\
    (forall schema name,
       (schema, name) <> ("weather"%string, "weather_data"%string) ->
       lookup_table schema name st1 = lookup_table schema name st).
Proof.
  intros Hload.
  destruct (load_inv _ _ _ Hload) as (t1 & Hins & Ht1).
  destruct (insert_row_Ok _ _ _ Hins) as (row & _ & Hcells & _ & ->).
  eexists; exists row. split; [exact Ht1|]. cbn [tbl_columns tbl_rows tbl_serial].
  do 3 (split; [reflexivity|]). split; [exact (cells_for_columns _ _ _ _ Hcells)|].
  intros schema name Hne.
  rewrite load_provision in Hload.
  apply bind_Ok_inv in Hload. destruct Hload as (stp & Hp & Hsql).
  rewrite (to_sql_other _ _ _ _ _ Hsql Hne). exact (provision_other _ _ _ _ Hp Hne).
Qed.

Lemma load_appends_one_row_witness :
  exists t1 row,
    weather_data two_cities = Some t1 /\
    tbl_columns t1
    = tbl_columns (default fresh_weather_data (weather_data after_one_run)) /\
    tbl_rows t1
    = tbl_rows (default fresh_weather_data (weather_data after_one_run)) ++ [row] /\
    tbl_serial t1
    = tbl_serial (default fresh_weather_data (weather_data after_one_run)) + 1 /\
    columns row = map col_name (tbl_columns t1) /\
    (forall schema name,
       (schema, name) <> ("weather"%string, "weather_data"%string) ->
       lookup_table schema name two_cities = lookup_table schema name after_one_run).
Proof.
  apply (load_appends_one_row lisbon_row after_one_run two_cities).
  exact two_cities_loaded.
Defined.

Lemma sequential_fresh : sequential fresh_weather_data.
Proof. repeat split. Qed.

Lemma declared_key_first :
  exists cols, tbl_columns fresh_weather_data = ColumnDef "id" SERIAL true :: cols.
Proof. eexists. reflexivity. Qed.

Lemma insert_row_sequential (t t' : table) (df : frame) :
  sequential t -> insert_row t df = Ok t' -> sequential t'.
Proof.
  intros (Hcols & Hserial & Hids) Hins.
  destruct (insert_row_Ok _ _ _ Hins) as (row & _ & Hcells & _ & ->).
  cbn [sequential tbl_columns tbl_rows tbl_serial]. unfold sequential.
  cbn [tbl_columns tbl_rows tbl_serial].
  split; [exact Hcols|].
  rewrite length_app. cbn [length]. split; [lia|].
  rewrite map_app, Hids. replace (length (tbl_rows t) + 1)%nat with (S (length (tbl_rows t))) by lia.
  rewrite seq_S, map_app. f_equal. cbn [map]. f_equal.
  rewrite Hcols in Hcells. destruct declared_key_first as [cols Hdecl].
  rewrite Hdecl in Hcells. cbn [cells_for] in Hcells.
  apply bind_Ok_inv in Hcells. destruct Hcells as (cell & Hcell & Hcells).
  apply bind_Ok_inv in Hcells. destruct Hcells as (rest & _ & Hcells).
  injection Hcells as <-.
  unfold cell_for in Hcell. cbn [col_name col_type] in Hcell.
  destruct (frame_get "id" df); [discriminate|]. injection Hcell as <-.
  cbn [frame_get]. rewrite String.eqb_refl. do 2 f_equal. lia.
Qed.

Lemma load_sequential (df : frame) (st st1 : db) :
  (forall t, weather_data st = Some t -> sequential t) ->
  load df st = Ok st1 ->
  exists t1, weather_data st1 = Some t1 /\ sequential t1 /\
             length (tbl_rows t1)
             = S (length (tbl_rows (default fresh_weather_data (weather_data st)))).
Proof.
  intros Hseq Hload. destruct (load_inv _ _ _ Hload) as (t1 & Hins & Ht1).
  exists t1. split; [exact Ht1|]. split.
  - apply (insert_row_sequential (default fresh_weather_data (weather_data st)) t1 df);
      [|exact Hins].
    destruct (weather_data st) as [t|]; [now apply Hseq|exact sequential_fresh].
  - destruct (insert_row_Ok _ _ _ Hins) as (row & _ & _ & _ & ->).
    cbn [tbl_rows]. rewrite length_app. cbn [length]. lia.
Qed.

Lemma weather_data_set (t : table) (st : db) :
  weather_data (set_weather_data t st) = Some t.
Proof.
  unfold lookup_table, set_weather_data. rewrite lookup_insert_eq. cbn.
  apply lookup_insert_eq.
Qed.

Lemma keyed_fresh : keyed 0 fresh_weather_data.
Proof.
  split; [reflexivity|]. split; [cbn; lia|]. exists []. repeat constructor.
Qed.

Lemma keyed_later (n m : Z) (t : table) : keyed n t -> n <= m -> keyed m t.
Proof. intros (Hc & Hs & Hids) Hnm. split; [exact Hc|]. split; [lia|exact Hids]. Qed.

Lemma StronglySorted_snoc (l : list Z) (x : Z) :
  StronglySorted Z.lt l -> Forall (fun i => i < x) l -> StronglySorted Z.lt (l ++ [x]).
Proof.
  induction 1 as [|a l Hl IH Ha]; intros Hx; cbn [app].
  - repeat constructor.
  - inversion Hx as [|? ? Hax Hlx]; subst. constructor; [now apply IH|].
    apply List.Forall_app. split; [exact Ha|]. constructor; [exact Hax|constructor].
Qed.

Lemma insert_row_key (t t' : table) (df : frame) :
  tbl_columns t = tbl_columns fresh_weather_data ->
  insert_row t df = Ok t' ->
  exists row, t' = Table (tbl_columns t) (tbl_rows t ++ [row]) (tbl_serial t + 1) /\
              frame_get "id" row = Some (VInt (tbl_serial t)).
Proof.
  intros Hcols Hins.
  destruct (insert_row_Ok _ _ _ Hins) as (row & _ & Hcells & _ & ->).
  exists row. split; [reflexivity|].
  rewrite Hcols in Hcells. destruct declared_key_first as [cols Hdecl].
  rewrite Hdecl in Hcells. cbn [cells_for] in Hcells.
  apply bind_Ok_inv in Hcells. destruct Hcells as (cell & Hcell & Hcells).
  apply bind_Ok_inv in Hcells. destruct Hcells as (rest & _ & Hcells).
  injection Hcells as <-.
  unfold cell_for in Hcell. cbn [col_name col_type] in Hcell.
  destruct (frame_get "id" df); [discriminate|]. injection Hcell as <-.
  cbn [frame_get]. now rewrite String.eqb_refl.
Qed.

Lemma insert_row_keyed (n : Z) (t t' : table) (df : frame) :
  keyed n t -> insert_row t df = Ok t' -> keyed (n + 1) t'.
Proof.
  intros (Hcols & Hserial & ids & Hids & Hsorted & Hbound) Hins.
  destruct (insert_row_key _ _ _ Hcols Hins) as (row & -> & Hkey).
  split; [exact Hcols|]. cbn [tbl_serial tbl_rows]. split; [lia|].
  exists (ids ++ [tbl_serial t]). split; [|split].
  - rewrite !map_app, Hids. cbn [map]. now rewrite Hkey.
  - apply StronglySorted_snoc; [exact Hsorted|].
    eapply List.Forall_impl; [|exact Hbound]. cbv beta. intros i Hi. lia.
  - apply List.Forall_app. split.
    + eapply List.Forall_impl; [|exact Hbound]. cbv beta. intros i Hi. lia.
    + constructor; [lia|constructor].
Qed.

Lemma refused_keyed (n : Z) (t : table) : keyed n t -> keyed (n + 1) (refused t).
Proof.
  intros (Hcols & Hserial & ids & Hids & Hsorted & Hbound).
  split; [exact Hcols|]. cbn [refused tbl_serial tbl_rows]. split; [lia|].
  exists ids. split; [exact Hids|]. split; [exact Hsorted|].
  eapply List.Forall_impl; [|exact Hbound]. cbv beta. intros i Hi. lia.
Qed.

Lemma after_load_keyed (n : Z) (df : frame) (st st1 : db) :
  0 <= n ->
  (forall t, weather_data st = Some t -> keyed n t) ->
  after_load df st = Ok st1 ->
  exists t1, weather_data st1 = Some t1 /\ keyed (n + 1) t1.
Proof.
  intros Hn Hkeyed H.
  assert (Hdefault : keyed n (default fresh_weather_data (weather_data st))).
  { destruct (weather_data st) as [t|]; [now apply Hkeyed|].
    apply (keyed_later 0); [exact keyed_fresh|exact Hn]. }
  unfold after_load in H. destruct (load df st) as [st'|e] eqn:Hload.
  - injection H as <-. destruct (load_inv _ _ _ Hload) as (t1 & Hins & Ht1).
    exists t1. split; [exact Ht1|]. exact (insert_row_keyed _ _ _ _ Hdefault Hins).
  - destruct e; try discriminate.
    + destruct (provision_lookup _ _ H) as [Ht _]. eexists. split; [exact Ht|].
      apply (keyed_later n); [exact Hdefault|lia].
    + apply bind_Ok_inv in H. destruct H as (stp & Hp & H).
      destruct (provision_lookup _ _ Hp) as [Ht _].
      change (lookup_table "weather" "weather_data" stp) with (weather_data stp) in H.
      rewrite Ht in H. injection H as <-. eexists. split; [apply weather_data_set|].
      now apply refused_keyed.
Qed.

Lemma runs_keyed (dfs : list frame) (n : Z) (st st' : db) :
  0 <= n ->
  (forall t, weather_data st = Some t -> keyed n t) ->
  runs dfs st = Ok st' ->
  (forall t, weather_data st' = Some t -> keyed (n + Z.of_nat (length dfs)) t) /\
  (dfs <> [] -> is_Some (weather_data st')).
Proof.
  revert n st. induction dfs as [|df dfs IH]; intros n st Hn Hkeyed H.
  - injection H as <-. split; [|congruence].
    intros t Ht. rewrite Z.add_0_r. now apply Hkeyed.
  - cbn [runs] in H. apply bind_Ok_inv in H. destruct H as (st1 & H1 & H).
    destruct (after_load_keyed n df st st1 Hn Hkeyed H1) as (t1 & Ht1 & Hk1).
    destruct (IH (n + 1) st1) as [Hk' Hsome]; [lia| |exact H|].
    { intros t Ht. rewrite Ht1 in Ht. now injection Ht as <-. }
    split.
    + intros t Ht. cbn [length]. rewrite Nat2Z.inj_succ.
      replace (n + Z.succ (Z.of_nat (length dfs))) with (n + 1 + Z.of_nat (length dfs)) by lia.
      now apply Hk'.
    + intros _. destruct dfs as [|df' dfs].
      * injection H as <-. rewrite Ht1. eauto.
      * apply Hsome. discriminate.
Qed.

Lemma load_after (df : frame) (st st1 : db) : load df st = Ok st1 -> after_load df st = Ok st1.
Proof. unfold after_load. now intros ->. Qed.

Lemma load_all_runs (dfs : list frame) (st st' : db) :
  load_all dfs st = Ok st' -> runs dfs st = Ok st'.
Proof.
  revert st. induction dfs as [|df dfs IH]; intros st H; [exact H|].
  cbn [load_all] in H. apply bind_Ok_inv in H. destruct H as (st1 & H1 & H).
  cbn [runs]. rewrite (load_after _ _ _ H1), (bind_Ok st1). now apply IH.
Qed.

(** Loads that all succeed number their rows from one on. *)
Lemma load_all_numbers (dfs : list frame) (st st' : db) :
  weather_data st = None ->
  dfs <> [] ->
  load_all dfs st = Ok st' ->
  exists t,
    weather_data st' = Some t /\
    length (tbl_rows t) = length dfs /\
    map (frame_get "id") (tbl_rows t)
    = map (fun i => Some (VInt (Z.of_nat i))) (seq 1 (length dfs)).
Proof.
  intros Hnone Hne Hall.
  assert (Hgen : forall dfs st st',
             (forall t, weather_data st = Some t -> sequential t) ->
             load_all dfs st = Ok st' ->
             (forall t, weather_data st' = Some t -> sequential t) /\
             length (tbl_rows (default fresh_weather_data (weather_data st')))
             = (length dfs
                + length (tbl_rows (default fresh_weather_data (weather_data st))))%nat /\
             (dfs <> [] -> is_Some (weather_data st'))).
  { clear. induction dfs as [|df dfs IH]; intros st st' Hseq Hall.
    - injection Hall as <-. split; [exact Hseq|]. split; [reflexivity|congruence].
    - cbn [load_all] in Hall. apply bind_Ok_inv in Hall. destruct Hall as (st1 & Hload & Hall).
      destruct (load_sequential _ _ _ Hseq Hload) as (t1 & Ht1 & Hseq1 & Hlen1).
      destruct (IH st1 st') as (Hseq' & Hlen' & _).
      + intros t Ht. rewrite Ht1 in Ht. now injection Ht as <-.
      + exact Hall.
      + split; [exact Hseq'|]. split.
        * rewrite Hlen', Ht1. cbn [from_option id]. rewrite Hlen1. cbn [length]. lia.
        * intros _. destruct dfs as [|df' dfs].
          -- injection Hall as <-. rewrite Ht1. eauto.
          -- destruct (IH st1 st') as (_ & _ & Hsome).
             ++ intros t Ht. rewrite Ht1 in Ht. now injection Ht as <-.
             ++ exact Hall.
             ++ apply Hsome. discriminate. }
  destruct (Hgen dfs st st') as (Hseq & Hlen & Hsome).
  - intros t Ht. rewrite Hnone in Ht. discriminate.
  - exact Hall.
  - destruct (Hsome Hne) as [t Ht]. exists t. split; [exact Ht|].
    rewrite Ht, Hnone in Hlen. cbn [from_option id fresh_weather_data tbl_rows length] in Hlen.
    rewrite Nat.add_0_r in Hlen.
    destruct (Hseq t Ht) as (_ & _ & Hids). rewrite Hlen in Hids.
    split; [exact Hlen|exact Hids].
Qed.

(** The refused run has drawn the key 2: the rows stored are numbered 1
    and 3, and the next key is 4. *)
Example three_runs_scenario :
  (weather_data three_runs ≫= fun t =>
     Some (map (frame_get "id") (tbl_rows t), tbl_serial t))
  = Some ([Some (VInt 1); Some (VInt 3)], 4).
Proof. vm_compute. reflexivity. Qed.

(** X7. Runs that start without the table give their rows keys that go up
    in the order of the loads, so no two rows share a key, and that lie
    between 1 and the number of runs.  A run that a NOT NULL column refuses
    stores no row but uses up a key, so the keys have gaps; when every load
    of the series succeeded they are 1, 2, 3, ... without a gap. *)
Theorem runs_keys (dfs : list frame) (st st' : db) :
  weather_data st = None ->
  dfs <> [] ->
  runs dfs st = Ok st' ->
  exists t ids,
    weather_data st' = Some t /\
    map (frame_get "id") (tbl_rows t) = map (fun i => Some (VInt i)) ids /\
    StronglySorted Z.lt ids /\
    Forall (fun i => 1 <= i <= Z.of_nat (length dfs)) ids /\
    (load_all dfs st = Ok st' -> ids = map Z.of_nat (seq 1 (length dfs))).
Proof.
  intros Hnone Hne Hruns.
  destruct (runs_keyed dfs 0 st st') as [Hkeyed Hsome]; [lia| |exact Hruns|].
  { intros t Ht. rewrite Hnone in Ht. discriminate. }
  destruct (Hsome Hne) as [t Ht].
  destruct (Hkeyed t Ht) as (_ & Hserial & ids & Hids & Hsorted & Hbound).
  exists t, ids. split; [exact Ht|]. split; [exact Hids|]. split; [exact Hsorted|].
  split.
  - eapply List.Forall_impl; [|exact Hbound]. cbv beta. intros i Hi. lia.
  - intros Hall.
    destruct (load_all_numbers dfs st st' Hnone Hne Hall) as (t' & Ht' & _ & Hnum).
    rewrite Ht in Ht'. injection Ht' as <-.
    rewrite Hids in Hnum. clear -Hnum. revert Hnum.
    generalize (seq 1 (length dfs)). induction ids as [|i ids IH]; intros [|k ks] H;
      try discriminate; [reflexivity|].
    cbn [map] in H |- *. injection H as -> H. f_equal. now apply IH.
Qed.

Lemma runs_keys_witness :
  exists t ids,
    weather_data three_runs = Some t /\
    map (frame_get "id") (tbl_rows t) = map (fun i => Some (VInt i)) ids /\
    StronglySorted Z.lt ids /\
    Forall (fun i => 1 <= i <= Z.of_nat (length [rio_row; row_without_sys_id; lisbon_row]))
      ids /\
    (load_all [rio_row; row_without_sys_id; lisbon_row] ∅ = Ok three_runs ->
     ids = map Z.of_nat (seq 1 (length [rio_row; row_without_sys_id; lisbon_row]))).
Proof.
  apply (runs_keys [rio_row; row_without_sys_id; lisbon_row] ∅ three_runs).
  - reflexivity.
  - discriminate.
  - vm_compute. reflexivity.
Defined.

(** X8. [transform] does not need the name of the place, the station
    [sys.id] or the country, but [load] does: a row made from a document
    without one of them lacks the column, and a table with the declared
    columns refuses it. *)
Theorem load_refuses_unidentified (data : value) (now : Z) (df row : frame) (st : db)
    (f : string * string) :
  json_normalize data = Ok df ->
  transform data now = Ok row ->
  tbl_columns (default fresh_weather_data (weather_data st))
  = tbl_columns fresh_weather_data ->
  In f identity_fields ->
  has_col (fst f) df = false ->
  has_col (snd f) row = false /\ is_ok (load row st) = false.
Proof.
  intros Hdf Hrow Hcols Hf Hmiss.
  assert (Hrowmiss : has_col (snd f) row = false).
  { apply has_col_false. apply has_col_false in Hmiss. rewrite <- Hmiss.
    destruct f as [k c]. cbn [fst snd].
    apply (transform_get_source data now df row k c Hdf Hrow).
    - simpl in Hf. simpl. intuition congruence.
    - simpl in Hf. simpl. intuition congruence. }
  split; [exact Hrowmiss|].
  apply (load_partial_row row st (snd f) Hcols); [|exact Hrowmiss].
  simpl in Hf. destruct Hf as [<-|[<-|[<-|[]]]];
    rewrite <- list_elem_of_In; apply (bool_decide_unpack _); vm_compute; reflexivity.
Qed.

Lemma load_refuses_unidentified_witness :
  has_col "sys_id" row_without_sys_id = false /\
  is_ok (load row_without_sys_id after_one_run) = false.
Proof.
  apply (load_refuses_unidentified rio_without_sys_id sample_now
           (flattened rio_without_sys_id) row_without_sys_id after_one_run
           ("sys.id", "sys_id")%string).
  - vm_compute. reflexivity.
  - vm_compute. reflexivity.
  - vm_compute. reflexivity.
  - simpl. tauto.
  - vm_compute. reflexivity.
Defined.

(** The key is the only column of the declared table that the database
    fills from a sequence. *)
Lemma declared_serial_is_key (c : column_def) :
  In c (tbl_columns fresh_weather_data) -> col_type c = SERIAL ->
  col_name c = "id"%string.
Proof.
  intros Hc Hserial.
  assert (H : forallb (fun c => match col_type c with
                                | SERIAL => String.eqb (col_name c) "id"
                                | _ => true
                                end) (tbl_columns fresh_weather_data) = true)
    by (vm_compute; reflexivity).
  rewrite forallb_forall in H. specialize (H c Hc). rewrite Hserial in H.
  now apply String.eqb_eq.
Qed.

(** X9. Pressure, wind speed and wind direction are optional all the way:
    when the document lacks one of them and the load into a table with the
    declared columns goes through, the row that was appended holds NULL in
    that column. *)
Theorem load_optional_null (data : value) (now : Z) (df row : frame) (st st1 : db)
    (f : string * string) :
  json_normalize data = Ok df ->
  transform data now = Ok row ->
  tbl_columns (default fresh_weather_data (weather_data st))
  = tbl_columns fresh_weather_data ->
  load row st = Ok st1 ->
  In f optional_fields ->
  has_col (fst f) df = false ->
  exists t1 stored,
    weather_data st1 = Some t1 /\
    tbl_rows t1 = tbl_rows (default fresh_weather_data (weather_data st)) ++ [stored] /\
    frame_get (snd f) stored = Some VNone.
Proof.
  intros Hdf Hrow Hcols Hload Hf Hmiss.
  destruct (load_inv _ _ _ Hload) as (t1 & Hins & Ht1).
  destruct (insert_row_Ok _ _ _ Hins) as (stored & _ & Hcells & _ & ->).
  eexists; exists stored. split; [exact Ht1|]. split; [reflexivity|].
  rewrite Hcols in Hcells.
  apply (cells_for_absent _ _ _ _ _ Hcells).
  - apply has_col_false in Hmiss. rewrite <- Hmiss.
    destruct f as [k c]. cbn [fst snd].
    apply (transform_get_source data now df row k c Hdf Hrow).
    + simpl in Hf. simpl. intuition congruence.
    + simpl in Hf. simpl. intuition congruence.
  - intros c Hc Hname Hserial.
    assert (Hk : col_name c = "id"%string).
    { exact (declared_serial_is_key c Hc Hserial). }
    rewrite Hname in Hk. simpl in Hf.
    destruct Hf as [<-|[<-|[<-|[]]]]; discriminate Hk.
  - simpl in Hf. destruct Hf as [<-|[<-|[<-|[]]]];
      rewrite <- list_elem_of_In; apply (bool_decide_unpack _); vm_compute; reflexivity.
Qed.

Lemma load_optional_null_witness :
  exists t1 stored,
    weather_data (match load row_without_wind_deg after_one_run with
                  | Ok st => st | Raise _ => ∅ end) = Some t1 /\
    tbl_rows t1
    = tbl_rows (default fresh_weather_data (weather_data after_one_run)) ++ [stored] /\
    frame_get "wind_direction" stored = Some VNone.
Proof.
  apply (load_optional_null rio_without_wind_deg sample_now
           (flattened rio_without_wind_deg) row_without_wind_deg after_one_run _
           ("wind.deg", "wind_direction")%string).
  - vm_compute. reflexivity.
  - vm_compute. reflexivity.
  - vm_compute. reflexivity.
  - vm_compute. reflexivity.
  - simpl. tauto.
  - vm_compute. reflexivity.
Defined.

(** ** The series of one city *)

Section CityQuery.

Context (order_by : list frame -> list frame).
Context (Horder : sorts_by_timestamp order_by).

(** X10. For a city that is not the empty text, [load_data] returns, in
    ascending order of [collection_timestamp], exactly the stored rows whose
    [city] is that very text and whose timestamp lies in the inclusive
    window; rows of other cities, rows with no city and rows without a
    timestamp are left out. *)
Theorem load_data_city (c : string) (start_dt end_dt : Z) (st : db) (t : table) :
  c <> EmptyString ->
  db_wf st ->
  weather_data st = Some t ->
  has_column "collection_timestamp" t = true ->
  has_column "city" t = true ->
  exists df,
    load_data order_by (Some c) start_dt end_dt st = Ok df /\
    Sorted ts_le df /\
    Permutation df
      (List.filter (fun r => between start_dt end_dt r && city_is c r) (tbl_rows t)) /\
    (forall r, In r df <->
               In r (tbl_rows t) /\
               frame_get "city" r = Some (VStr c) /\
               exists ts, frame_ts r = Some ts /\ start_dt <= ts <= end_dt).
Proof.
  intros Hc Hwf Ht Hts Hcity.
  rewrite (load_data_wf order_by Horder (Some c) start_dt end_dt st t Hwf Ht Hts)
    by (intros _; exact Hcity).
  assert (Hsel : forall r, selected (Some c) start_dt end_dt r
                           = between start_dt end_dt r && city_is c r).
  { intros r. unfold selected. destruct c; [congruence|reflexivity]. }
  rewrite (filter_ext _ _ Hsel).
  destruct (Horder (List.filter (fun r => between start_dt end_dt r && city_is c r)
                      (tbl_rows t))) as [Hperm Hsorted].
  eexists. split; [reflexivity|]. split; [exact Hsorted|]. split; [exact Hperm|].
  intros r.
  assert (Hiff : In r (List.filter (fun r => between start_dt end_dt r && city_is c r)
                         (tbl_rows t)) <->
                 In r (tbl_rows t) /\ frame_get "city" r = Some (VStr c) /\
                 exists ts, frame_ts r = Some ts /\ start_dt <= ts <= end_dt).
  { rewrite filter_In, andb_true_iff, between_frame_ts. unfold city_is.
    split.
    - intros (Hin & Hb & Hcr). split; [exact Hin|]. split; [|exact Hb].
      destruct (frame_get "city" r) as [[]|]; try discriminate.
      apply String.eqb_eq in Hcr. now subst.
    - intros (Hin & Hcr & Hb). split; [exact Hin|]. split; [exact Hb|].
      rewrite Hcr. apply String.eqb_refl. }
  rewrite <- Hiff. split.
  - apply Permutation_in. exact Hperm.
  - apply Permutation_in. symmetry. exact Hperm.
Qed.

End CityQuery.

Lemma load_data_city_witness :
  exists df,
    load_data stable_sort (Some "Lisbon"%string) window_start window_end two_cities
    = Ok df /\
    Sorted ts_le df /\
    Permutation df
      (List.filter (fun r => between window_start window_end r && city_is "Lisbon" r)
         (tbl_rows two_cities_table)) /\
    (forall r, In r df <->
               In r (tbl_rows two_cities_table) /\
               frame_get "city" r = Some (VStr "Lisbon") /\
               exists ts, frame_ts r = Some ts /\ window_start <= ts <= window_end).
Proof.
  apply (load_data_city stable_sort stable_sort_sorts "Lisbon" window_start window_end
           two_cities two_cities_table).
  - discriminate.
  - exact two_cities_wf.
  - vm_compute. reflexivity.
  - vm_compute. reflexivity.
  - vm_compute. reflexivity.
Defined.

(** ** The list of cities *)

Lemma map_result_In_inv {A B} (f : A -> result B) (l : list A) (l' : list B) (x : A) :
  map_result f l = Ok l' -> In x l -> exists y, f x = Ok y /\ In y l'.
Proof.
  revert l'. induction l as [|a l IH]; intros l' H Hin; [contradiction|].
  cbn [map_result] in H.
  apply bind_Ok_inv in H. destruct H as (y & Hy & H).
  apply bind_Ok_inv in H. destruct H as (rest & Hrest & H).
  injection H as <-. destruct Hin as [<-|Hin].
  - exists y. split; [exact Hy|now left].
  - destruct (IH rest Hrest Hin) as (y' & Hy' & Hin'). exists y'. split; [exact Hy'|now right].
Qed.

Lemma map_result_length {A B} (f : A -> result B) (l : list A) (l' : list B) :
  map_result f l = Ok l' -> length l' = length l.
Proof.
  revert l'. induction l as [|a l IH]; intros l' H; cbn [map_result] in H.
  - now injection H as <-.
  - apply bind_Ok_inv in H. destruct H as (y & _ & H).
    apply bind_Ok_inv in H. destruct H as (rest & Hrest & H).
    injection H as <-. cbn [length]. now rewrite (IH rest Hrest).
Qed.

Lemma map_result_Ok {A B} (f : A -> result B) (l : list A) :
  (forall x, In x l -> is_ok (f x) = true) -> exists l', map_result f l = Ok l'.
Proof.
  induction l as [|a l IH]; intros H; [now exists []|].
  destruct IH as [rest Hrest]; [intros x Hx; apply H; now right|].
  pose proof (H a (or_introl eq_refl)) as Ha.
  destruct (f a) as [y|e] eqn:Hy; [|discriminate].
  exists (y :: rest). cbn [map_result]. rewrite Hy, (bind_Ok y). cbv beta.
  rewrite Hrest, (bind_Ok rest). reflexivity.
Qed.

Lemma city_cell_Some (r : frame) (c : string) :
  city_cell r = Ok (Some c) <-> frame_get "city" r = Some (VStr c).
Proof.
  unfold city_cell. split.
  - destruct (frame_get "city" r) as [[]|]; try discriminate. now intros [= ->].
  - now intros ->.
Qed.

Lemma sort_cities_orders : orders_cities sort_cities.
Proof.
  assert (Hins : forall c l, Permutation (insert_city c l) (c :: l)).
  { intros c l. induction l as [|x l IH]; simpl; [reflexivity|].
    destruct (String.leb c x); [reflexivity|].
    rewrite IH. apply perm_swap. }
  intros l. induction l as [|c l IH]; simpl; [reflexivity|].
  rewrite Hins. now apply perm_skip.
Qed.

Section CityList.

Context (order_by_city : list string -> list string).
Context (Hcities : orders_cities order_by_city).

Lemma list_cities_Ok (st : db) (cities : list string) :
  list_cities order_by_city st = Ok cities ->
  exists t,
    weather_data st = Some t /\ has_column "city" t = true /\
    NoDup cities /\
    forall c, In c cities <->
              exists r, In r (tbl_rows t) /\ frame_get "city" r = Some (VStr c).
Proof.
  unfold list_cities. change (lookup_table SCHEMA TABLE st) with (weather_data st).
  destruct (weather_data st) as [t|]; [|discriminate].
  destruct (has_column "city" t) eqn:Hcol; [|discriminate]. cbn [negb].
  intros H. apply bind_Ok_inv in H. destruct H as (cells & Hcells & H).
  injection H as <-. exists t. split; [reflexivity|]. split; [exact Hcol|].
  split.
  - rewrite (Hcities _). apply NoDup_remove_dups.
  - intros c. rewrite <- list_elem_of_In, (Hcities _), elem_of_remove_dups,
      list_elem_of_omap.
    split.
    + intros (o & Ho & Hoc). cbv [id] in Hoc. subst o. apply list_elem_of_In in Ho.
      destruct (map_result_In _ _ _ _ Hcells Ho) as (r & Hr & Hrc).
      exists r. split; [exact Hr|]. now apply city_cell_Some.
    + intros (r & Hr & Hrc).
      destruct (map_result_In_inv _ _ _ _ Hcells Hr) as (o & Ho & Hin).
      apply city_cell_Some in Hrc. rewrite Hrc in Ho. injection Ho as <-.
      exists (Some c). split; [now apply list_elem_of_In|reflexivity].
Qed.

(** On such a table the list is made without an error. *)
Lemma list_cities_rows (st : db) (t : table) :
  weather_data st = Some t ->
  has_column "city" t = true ->
  (forall r, In r (tbl_rows t) -> is_ok (city_cell r) = true) ->
  exists cities,
    list_cities order_by_city st = Ok cities /\
    NoDup cities /\
    forall c, In c cities <->
              exists r, In r (tbl_rows t) /\ frame_get "city" r = Some (VStr c).
Proof.
  intros Ht Hcol Hcells.
  destruct (map_result_Ok city_cell (tbl_rows t) Hcells) as [cells Hmap].
  assert (Hlist : list_cities order_by_city st
                  = Ok (order_by_city (remove_dups (omap id cells)))).
  { unfold list_cities. change (lookup_table SCHEMA TABLE st) with (weather_data st).
    rewrite Ht, Hcol. cbn [negb]. rewrite Hmap, (bind_Ok cells). reflexivity. }
  eexists. split; [exact Hlist|].
  destruct (list_cities_Ok _ _ Hlist) as (t' & Ht' & _ & Hnodup & Hin).
  rewrite Ht in Ht'. injection Ht' as <-. split; [exact Hnodup|exact Hin].
Qed.

(** X11. On a table with a [city] column whose cells are texts or NULL,
    [list_cities] returns the cities of the stored rows, each one once and
    none left out; a row whose city is NULL adds nothing to the list. *)
Theorem list_cities_distinct (st : db) (t : table) :
  weather_data st = Some t ->
  has_column "city" t = true ->
  (forall r, In r (tbl_rows t) -> is_ok (city_cell r) = true) ->
  exists cities,
    list_cities order_by_city st = Ok cities /\
    NoDup cities /\
    forall c, In c cities <->
              exists r, In r (tbl_rows t) /\ frame_get "city" r = Some (VStr c).
Proof. exact (list_cities_rows st t). Qed.

End CityList.

Lemma list_cities_distinct_witness :
  exists cities,
    list_cities sort_cities two_cities = Ok cities /\
    NoDup cities /\
    forall c, In c cities <->
              exists r, In r (tbl_rows two_cities_table) /\
                        frame_get "city" r = Some (VStr c).
Proof.
  apply (list_cities_distinct sort_cities sort_cities_orders two_cities two_cities_table).
  - vm_compute. reflexivity.
  - vm_compute. reflexivity.
  - intros r Hr. vm_compute in Hr.
    destruct Hr as [<-|[<-|[]]]; vm_compute; reflexivity.
Defined.

(** ** From a run of the pipeline to the page *)

Lemma stored_city (n : Z) (df : frame) (cols : list column_def) (row : frame)
    (c : string) :
  cells_for n df cols = Ok row ->
  unknown_column cols df = None ->
  frame_get "city" df = Some (VStr c) ->
  frame_get "city" row = Some (VStr c).
Proof.
  intros Hc Hu Hg.
  destruct (cells_for_get _ _ _ _ _ _ Hc Hg) as (ty & v' & Hst & Hg').
  - apply (unknown_column_None _ df); [exact Hu|]. unfold has_col. now rewrite Hg.
  - apply store_str in Hst. now subst v'.
Qed.

Lemma NoDup_all_same (l : list string) (c : string) :
  NoDup l -> (forall x, In x l <-> x = c) -> l = [c].
Proof.
  intros Hnd Hin. destruct l as [|a l].
  - exfalso. apply (Hin c). reflexivity.
  - assert (a = c) as -> by (apply Hin; now left).
    destruct l as [|b l]; [reflexivity|].
    assert (b = c) as -> by (apply Hin; right; now left).
    apply NoDup_cons in Hnd. destruct Hnd as [Hnot _].
    exfalso. apply Hnot. now left.
Qed.

Lemma initial_city_singleton (c : string) : initial_city [c] = Some c.
Proof. unfold initial_city. cbn. now rewrite String.eqb_refl. Qed.

Section FirstRender.

Context (order_by_city : list string -> list string).
Context (order_by sort_values : list frame -> list frame).
Context (Hcities : orders_cities order_by_city).
Context (Horder : sorts_by_timestamp order_by).
Context (Hsort : sorts_by_timestamp sort_values).

(** X12. From the pipeline to the page.  When the table holds the rows of
    one city only, and a run of [load] has appended a row of that city whose
    [collection_timestamp] lies in the window of the page, the toolbar lists
    that one city, selects it, and the page is the hero section of a row of
    that city that is at least as recent as the row just loaded. *)
Theorem page_shows_loaded_row (df : frame) (st st1 : db) (c : string)
    (start_dt end_dt ts : Z) (unit_f : bool) :
  db_wf st ->
  (forall t r, weather_data st = Some t -> In r (tbl_rows t) ->
               frame_get "city" r = Some (VStr c)) ->
  load df st = Ok st1 ->
  frame_get "city" df = Some (VStr c) ->
  frame_get "collection_timestamp" df = Some (VTimestamp ts) ->
  start_dt <= ts <= end_dt ->
  exists rows latest_row ts',
    list_cities order_by_city st1 = Ok [c] /\
    main_from_toolbar order_by_city order_by sort_values start_dt end_dt unit_f st1
    = Ok (Hero rows latest_row unit_f) /\
    frame_get "city" latest_row = Some (VStr c) /\
    frame_ts latest_row = Some ts' /\ ts <= ts'.
Proof.
  intros Hwf Hold Hload Hcity Hts Hwin.
  destruct (load_inv _ _ _ Hload) as (t1 & Hins & Ht1).
  destruct (insert_row_Ok _ _ _ Hins) as (row & Hu & Hcells & _ & Heq).
  set (t := default fresh_weather_data (weather_data st)) in *.
  assert (Holdrows : forall r, In r (tbl_rows t) -> frame_get "city" r = Some (VStr c)).
  { subst t. destruct (weather_data st) as [t0|] eqn:Ht0.
    - intros r Hr. exact (Hold t0 r eq_refl Hr).
    - intros r []. }
  pose proof (stored_city _ _ _ _ c Hcells Hu Hcity) as Hrowcity.
  destruct (stored_row_selected _ _ _ _ (Some c) start_dt end_dt ts Hcells Hu Hts Hwin)
    as [Hrowts Hrowsel].
  { intros c' [= <-] _. exact Hcity. }
  assert (Hrows1 : forall r, In r (tbl_rows t1) -> frame_get "city" r = Some (VStr c)).
  { subst t1. cbn [tbl_rows]. intros r Hr. apply in_app_or in Hr.
    destruct Hr as [Hr|[<-|[]]]; [exact (Holdrows r Hr)|exact Hrowcity]. }
  assert (Hrowin : In row (tbl_rows t1)).
  { subst t1. cbn [tbl_rows]. apply in_or_app. right. now left. }
  assert (Hcol : forall k, has_col k df = true -> has_column k t1 = true).
  { intros k Hk. subst t1. exact (unknown_column_None _ _ _ Hu Hk). }
  assert (Hcolcity : has_column "city" t1 = true).
  { apply Hcol. unfold has_col. now rewrite Hcity. }
  assert (Hcolts : has_column "collection_timestamp" t1 = true).
  { apply Hcol. unfold has_col. now rewrite Hts. }
  pose proof (load_wf _ _ _ Hwf Hload) as Hwf1.
  destruct (list_cities_rows order_by_city Hcities st1 t1 Ht1 Hcolcity)
    as (cities & Hlist & Hnodup & Hin).
  { intros r Hr. unfold city_cell. now rewrite (Hrows1 r Hr). }
  assert (Hone : cities = [c]).
  { apply (NoDup_all_same _ _ Hnodup). intros x. rewrite Hin. split.
    - intros (r & Hr & Hrc). rewrite (Hrows1 r Hr) in Hrc. now injection Hrc as <-.
    - intros ->. exists row. split; [exact Hrowin|exact Hrowcity]. }
  subst cities.
  pose proof (load_data_wf order_by Horder (Some c) start_dt end_dt st1 t1 Hwf1 Ht1 Hcolts
                (fun _ => Hcolcity)) as Hq.
  pose proof (main_page order_by sort_values Hsort (Some c) start_dt end_dt unit_f st1 _ Hq)
    as Hpage.
  destruct (Horder (List.filter (selected (Some c) start_dt end_dt) (tbl_rows t1)))
    as [Hperm _].
  assert (Hrowq : In row (order_by (List.filter (selected (Some c) start_dt end_dt)
                                      (tbl_rows t1)))).
  { apply (Permutation_in _ (Permutation_sym Hperm)). apply filter_In.
    split; [exact Hrowin|exact Hrowsel]. }
  destruct (order_by (List.filter (selected (Some c) start_dt end_dt) (tbl_rows t1)))
    as [|d0 rows] eqn:Hdf; [contradiction|].
  destruct Hpage as (latest_row & Hmain & Hlin & Hmax).
  pose proof (Permutation_in _ Hperm Hlin) as Hlsel. apply filter_In in Hlsel.
  destruct Hlsel as [Hlrow Hlsel]. unfold selected in Hlsel.
  apply andb_true_iff in Hlsel. destruct Hlsel as [Hb _].
  apply between_frame_ts in Hb. destruct Hb as (ts' & Hlts & _).
  exists (d0 :: rows), latest_row, ts'.
  split; [exact Hlist|]. split.
  - unfold main_from_toolbar. rewrite Hlist, (bind_Ok [c]). cbv beta.
    rewrite initial_city_singleton. exact Hmain.
  - split; [exact (Hrows1 _ Hlrow)|]. split; [exact Hlts|].
    apply (ts_le_Some row latest_row ts ts' Hrowts Hlts). apply Hmax. exact Hrowq.
Qed.

End FirstRender.

Lemma page_shows_loaded_row_witness :
  exists rows latest_row ts',
    list_cities sort_cities after_one_run = Ok ["Rio de Janeiro"%string] /\
    main_from_toolbar sort_cities stable_sort stable_sort window_start window_end false
      after_one_run
    = Ok (Hero rows latest_row false) /\
    frame_get "city" latest_row = Some (VStr "Rio de Janeiro") /\
    frame_ts latest_row = Some ts' /\ sample_now <= ts'.
Proof.
  apply (page_shows_loaded_row sort_cities stable_sort stable_sort sort_cities_orders
           stable_sort_sorts stable_sort_sorts rio_row ∅ after_one_run).
  - exact db_wf_empty.
  - intros t r Ht. vm_compute in Ht. discriminate.
  - exact after_one_run_loaded.
  - vm_compute. reflexivity.
  - vm_compute. reflexivity.
  - vm_compute. split; discriminate.
Defined.

(** ** The hourly series, as a whole *)

Lemma bins_sorted (first last : Z) :
  StronglySorted (fun a b => a + hour_ns <= b) (bins first last).
Proof.
  unfold bins. generalize (Z.to_nat ((last - first) / hour_ns + 1)). intros n.
  generalize 0%nat. induction n as [|n IH]; intros a; cbn [seq map]; constructor.
  - apply IH.
  - apply List.Forall_forall. intros b Hb. apply in_map_iff in Hb.
    destruct Hb as (i & <- & Hi). apply in_seq in Hi.
    pose proof hour_ns_pos. nia.
Qed.

Lemma StronglySorted_filter {A} (R : A -> A -> Prop) (p : A -> bool) (l : list A) :
  StronglySorted R l -> StronglySorted R (List.filter p l).
Proof.
  induction 1 as [|a l Hl IH Ha]; cbn [List.filter]; [constructor|].
  destruct (p a); [|exact IH]. constructor; [exact IH|].
  apply List.Forall_forall. intros x Hx. apply filter_In in Hx.
  rewrite List.Forall_forall in Ha. apply Ha. tauto.
Qed.

Lemma StronglySorted_map {A B} (R : B -> B -> Prop) (f : A -> B) (l : list A) :
  StronglySorted (fun x y => R (f x) (f y)) l -> StronglySorted R (map f l).
Proof.
  induction 1 as [|a l Hl IH Ha]; cbn [map]; constructor; [exact IH|].
  apply List.Forall_forall. intros y Hy. apply in_map_iff in Hy.
  destruct Hy as (x & <- & Hx). rewrite List.Forall_forall in Ha. now apply Ha.
Qed.

Lemma StronglySorted_map_inv {A B} (R : B -> B -> Prop) (f : A -> B) (l : list A) :
  StronglySorted R (map f l) -> StronglySorted (fun x y => R (f x) (f y)) l.
Proof.
  induction l as [|a l IH]; cbn [map]; intros H; [constructor|].
  inversion H as [|? ? Hl Ha]; subst. constructor; [now apply IH|].
  apply List.Forall_forall. intros x Hx. rewrite List.Forall_forall in Ha.
  apply Ha. now apply in_map.
Qed.

Lemma resample_mean_labels (s : list (Z * float)) :
  StronglySorted (fun a b => a + hour_ns <= b) (map fst (resample_mean s)).
Proof.
  unfold resample_mean. destruct s as [|[t0 x0] s]; [constructor|].
  rewrite map_map. cbn [fst]. rewrite map_id. apply bins_sorted.
Qed.

(** X13. The hourly series comes out in ascending order of time with at
    most one point for an hour: each label is at least one hour after the
    one before. *)
Theorem hourly_mean_ascending (key : string) (df : list frame)
    (hourly : list (Z * float)) :
  hourly_mean key df = Ok hourly ->
  StronglySorted (fun a b => a + hour_ns <= b) (map fst hourly).
Proof.
  intros H. unfold hourly_mean in H.
  apply bind_Ok_inv in H. destruct H as (s & _ & H). injection H as <-.
  apply StronglySorted_map. unfold dropna. apply StronglySorted_filter.
  apply (StronglySorted_map_inv (fun a b => a + hour_ns <= b) fst).
  apply resample_mean_labels.
Qed.

Lemma hourly_mean_ascending_witness :
  StronglySorted (fun a b => a + hour_ns <= b)
    (map fst [(at_10_00, 40%float); (at_11_00, 60%float)]).
Proof.
  apply (hourly_mean_ascending "humidity"
           [humidity_row at_10_05 40; humidity_row at_11_50 60]).
  reflexivity.
Defined.

Lemma fold_min_le (t0 : Z) (l : list Z) (t : Z) :
  In t l -> fold_right Z.min t0 l <= t.
Proof.
  induction l as [|a l IH]; cbn [fold_right]; [contradiction|].
  intros [->|Hin]; [lia|]. specialize (IH Hin). lia.
Qed.

Lemma fold_max_ge (t0 : Z) (l : list Z) (t : Z) :
  In t l -> t <= fold_right Z.max t0 l.
Proof.
  induction l as [|a l IH]; cbn [fold_right]; [contradiction|].
  intros [->|Hin]; [lia|]. specialize (IH Hin). lia.
Qed.

(** The bins reach from the hour of the first stamp to the hour of the
    last without a gap. *)
Lemma bins_cover (lo hi t : Z) :
  lo <= t <= hi -> In (bucket_start t) (bins (bucket_start lo) (bucket_start hi)).
Proof.
  intros Ht. unfold bins, bucket_start. pose proof hour_ns_pos as Hpos.
  assert (Hlo : lo / hour_ns <= t / hour_ns) by (apply Z.div_le_mono; lia).
  assert (Hhi : t / hour_ns <= hi / hour_ns) by (apply Z.div_le_mono; lia).
  replace (hi / hour_ns * hour_ns - lo / hour_ns * hour_ns)
    with ((hi / hour_ns - lo / hour_ns) * hour_ns) by ring.
  rewrite Z.div_mul by lia.
  apply in_map_iff. exists (Z.to_nat (t / hour_ns - lo / hour_ns)). split.
  - rewrite Z2Nat.id by lia. ring.
  - apply in_seq. lia.
Qed.

Lemma resample_mean_covers (s : list (Z * float)) (t : Z) (x : float) :
  In (t, x) s ->
  In (bucket_start t, mean (contributors (bucket_start t) s)) (resample_mean s).
Proof.
  intros Hin. unfold resample_mean. destruct s as [|[t0 x0] s]; [contradiction|].
  apply in_map_iff. exists (bucket_start t). split; [reflexivity|].
  apply bins_cover. assert (Ht : In t (map fst ((t0, x0) :: s))).
  { apply in_map_iff. exists (t, x). split; [reflexivity|exact Hin]. }
  split; [now apply fold_min_le|now apply fold_max_ge].
Qed.

Lemma indexed_series_row (key : string) (df : list frame) (s : list (Z * float))
    (r : frame) (t : Z) :
  indexed_series key df = Ok s -> In r df -> frame_ts r = Some t ->
  exists x, In (t, x) s /\ (getitem key r ≫= float_cell) = Ok x.
Proof.
  intros Hs Hr Ht. unfold indexed_series in Hs.
  destruct (map_result_In_inv _ _ _ _ Hs Hr) as ([t' x] & Hf & Hin).
  cbn beta in Hf.
  apply bind_Ok_inv in Hf. destruct Hf as (index & Hidx & Hf).
  apply bind_Ok_inv in Hf. destruct Hf as (v & Hv & Hf).
  apply bind_Ok_inv in Hf. destruct Hf as (x' & Hx & Hf).
  unfold getitem in Hidx. unfold frame_ts in Ht.
  destruct (frame_get "collection_timestamp" r) as [index'|]; [|discriminate].
  injection Hidx as ->. destruct index; try discriminate.
  injection Ht as ->. injection Hf as <- <-.
  exists x'. split; [exact Hin|]. rewrite Hv, (bind_Ok v). exact Hx.
Qed.

(** X14. No reading is lost on the way to the hourly series: the hour of
    every row of the frame is a bin of the resampled series, and it is a
    point of the chart, with the mean of the values of that hour, unless
    that mean is NaN. *)
Theorem hourly_mean_covers (key : string) (df : list frame) (hourly : list (Z * float))
    (r : frame) (t : Z) :
  hourly_mean key df = Ok hourly ->
  In r df ->
  frame_ts r = Some t ->
  exists s,
    indexed_series key df = Ok s /\
    In (bucket_start t) (map fst (resample_mean s)) /\
    (PrimFloat.is_nan (mean (contributors (bucket_start t) s)) = false ->
     In (bucket_start t, mean (contributors (bucket_start t) s)) hourly).
Proof.
  intros H Hr Ht. unfold hourly_mean in H.
  apply bind_Ok_inv in H. destruct H as (s & Hs & H). injection H as <-.
  exists s. split; [exact Hs|].
  destruct (indexed_series_row _ _ _ _ _ Hs Hr Ht) as (x & Hin & _).
  pose proof (resample_mean_covers _ _ _ Hin) as Hcov.
  split.
  - apply in_map_iff. eexists. split; [|exact Hcov]. reflexivity.
  - intros Hnan. unfold dropna. apply filter_In. split; [exact Hcov|].
    cbn [snd]. now rewrite Hnan.
Qed.

Lemma hourly_mean_covers_witness :
  exists s,
    indexed_series "humidity" [humidity_row at_10_05 40; humidity_row at_11_50 60] = Ok s /\
    In (bucket_start at_11_50) (map fst (resample_mean s)) /\
    (PrimFloat.is_nan (mean (contributors (bucket_start at_11_50) s)) = false ->
     In (bucket_start at_11_50, mean (contributors (bucket_start at_11_50) s))
        [(at_10_00, 40%float); (at_11_00, 60%float)]).
Proof.
  apply (hourly_mean_covers "humidity"
           [humidity_row at_10_05 40; humidity_row at_11_50 60]
           [(at_10_00, 40%float); (at_11_00, 60%float)]
           (humidity_row at_11_50 60) at_11_50).
  - reflexivity.
  - right. left. reflexivity.
  - reflexivity.
Defined.

(** ** A metric that is NULL throughout *)

Lemma filter_none {A} (p : A -> bool) (l : list A) :
  (forall x, In x l -> p x = false) -> List.filter p l = [].
Proof.
  induction l as [|a l IH]; intros H; cbn [List.filter]; [reflexivity|].
  rewrite (H a) by now left. apply IH. intros x Hx. apply H. now right.
Qed.

Lemma hourly_mean_all_nan (key : string) (df : list frame) (s : list (Z * float)) :
  indexed_series key df = Ok s ->
  (forall t x, In (t, x) s -> PrimFloat.is_nan x = true) ->
  hourly_mean key df = Ok [].
Proof.
  intros Hs Hnan. unfold hourly_mean. rewrite Hs, (bind_Ok s). f_equal.
  unfold dropna. apply filter_none. intros [b m] Hin. cbn [snd].
  assert (Hm : m = mean (contributors b s)).
  { unfold resample_mean in Hin. destruct s as [|[t0 x0] s]; [destruct Hin|].
    apply in_map_iff in Hin. destruct Hin as (b' & Heq & _).
    injection Heq as -> ->. reflexivity. }
  assert (Hnil : contributors b s = []).
  { destruct (contributors b s) as [|x xs] eqn:Hc; [reflexivity|].
    assert (Hx : In x (contributors b s)) by (rewrite Hc; now left).
    apply contributors_In in Hx. destruct Hx as (t & Hin' & _ & Hx).
    rewrite (Hnan t x Hin') in Hx. discriminate. }
  rewrite Hm, Hnil, mean_nil_nan. reflexivity.
Qed.

Lemma indexed_series_returns (key : string) (df : list frame) :
  (forall r, In r df ->
             exists t v, frame_get "collection_timestamp" r = Some (VTimestamp t) /\
                         frame_get key r = Some v /\ is_ok (float_cell v) = true) ->
  exists s, indexed_series key df = Ok s.
Proof.
  intros H. unfold indexed_series. apply map_result_Ok. intros r Hr.
  destruct (H r Hr) as (t & v & Ht & Hv & Hf).
  unfold getitem. rewrite Ht, Hv.
  rewrite (bind_Ok (VTimestamp t)). cbv beta. rewrite (bind_Ok v). cbv beta.
  destruct (float_cell v) as [x|e]; [reflexivity|discriminate].
Qed.

(** X15. Where every row is stamped and holds a number or NULL in each of
    the three metrics, [render_extra_timeseries] draws its three panels
    without an error, and the panel of a metric that is NULL in every row is
    the notice that there is no data of it, not a chart. *)
Theorem extra_timeseries_null_metric (df : list frame) (title key : string) :
  df <> [] ->
  In (title, key) series_map ->
  (forall k r, In k (map snd series_map) -> In r df ->
               exists t v, frame_get "collection_timestamp" r = Some (VTimestamp t) /\
                           frame_get k r = Some v /\ is_ok (float_cell v) = true) ->
  (forall r, In r df -> frame_get key r = Some VNone) ->
  exists panels,
    render_extra_timeseries df = Ok panels /\
    length panels = 3%nat /\
    In (NoKeyData key) panels /\
    forall points, ~ In (LineChart title key points) panels.
Proof.
  intros Hne Hkey Hcells Hnull.
  assert (Hnone : hourly_mean key df = Ok []).
  { destruct (indexed_series_returns key df) as [s Hs].
    - intros r Hr. apply (Hcells key r); [|exact Hr].
      apply in_map_iff. exists (title, key). split; [reflexivity|exact Hkey].
    - apply (hourly_mean_all_nan key df s Hs). intros t x Hin.
      destruct (indexed_series_In _ _ _ _ _ Hs Hin) as (r & Hr & _ & Hx).
      unfold getitem in Hx. rewrite (Hnull r Hr), (bind_Ok VNone) in Hx.
      cbn [float_cell] in Hx. injection Hx as <-. reflexivity. }
  set (draw := fun title_key : string * string =>
                 s ← hourly_mean (snd title_key) df;
                 match s with
                 | [] => Ok (NoKeyData (snd title_key))
                 | _ => Ok (LineChart (fst title_key) (snd title_key) s)
                 end).
  assert (Hdraw : forall tk, In tk series_map -> is_ok (draw tk) = true).
  { intros tk Htk. unfold draw.
    destruct (indexed_series_returns (snd tk) df) as [s Hs].
    - intros r Hr. apply (Hcells (snd tk) r); [|exact Hr]. now apply in_map.
    - unfold hourly_mean. rewrite Hs, (bind_Ok s), (bind_Ok (dropna (resample_mean s))).
      now destruct (dropna (resample_mean s)). }
  destruct (map_result_Ok draw series_map Hdraw) as [panels Hpanels].
  exists panels.
  assert (Hrender : render_extra_timeseries df = Ok panels).
  { unfold render_extra_timeseries. destruct df; [congruence|exact Hpanels]. }
  split; [exact Hrender|]. split; [|split].
  - exact (map_result_length _ _ _ Hpanels).
  - destruct (map_result_In_inv _ _ _ _ Hpanels Hkey) as (p & Hp & Hin).
    unfold draw in Hp. cbn [fst snd] in Hp. rewrite Hnone, (bind_Ok []) in Hp.
    injection Hp as <-. exact Hin.
  - intros points Hin.
    destruct (map_result_In _ _ _ _ Hpanels Hin) as ([title' key'] & Htk & Hp).
    unfold draw in Hp. cbn [fst snd] in Hp.
    apply bind_Ok_inv in Hp. destruct Hp as (s & Hs & Hp).
    destruct s as [|p s]; [discriminate|]. injection Hp as <- <- <-.
    rewrite Hnone in Hs. discriminate.
Qed.

Lemma extra_timeseries_null_metric_witness :
  exists panels,
    render_extra_timeseries metrics_without_pressure = Ok panels /\
    length panels = 3%nat /\
    In (NoKeyData "pressure") panels /\
    forall points, ~ In (LineChart "Pressure (hPa)" "pressure" points) panels.
Proof.
  apply (extra_timeseries_null_metric metrics_without_pressure
           "Pressure (hPa)" "pressure").
  - discriminate.
  - right. left. reflexivity.
  - intros k r Hk Hr. cbn in Hk, Hr.
    destruct Hr as [<-|[<-|[]]]; destruct Hk as [<-|[<-|[<-|[]]]];
      (eexists; eexists; split; [reflexivity|]; split; reflexivity).
  - intros r Hr. cbn in Hr. destruct Hr as [<-|[<-|[]]]; reflexivity.
Defined.

(** ** The forecast of the hero section *)

Lemma hour_bins_sorted (stamps : list Z) :
  StronglySorted (fun a b => a + hour_ns <= b) (hour_bins stamps).
Proof. unfold hour_bins. destruct stamps; [constructor|apply bins_sorted]. Qed.

Lemma hourly_data_sorted (df : list frame) (hourly : list hourly_point) :
  hourly_data df = Ok hourly ->
  StronglySorted (fun p q => hp_time p + hour_ns <= hp_time q) hourly.
Proof.
  intros H. unfold hourly_data in H.
  apply bind_Ok_inv in H. destruct H as (humidity & _ & H).
  apply bind_Ok_inv in H. destruct H as (temperature_c & _ & H).
  apply bind_Ok_inv in H. destruct H as (weather_main & _ & H).
  apply bind_Ok_inv in H. destruct H as (weather_icon & _ & H).
  injection H as <-. apply StronglySorted_filter.
  apply (StronglySorted_map_inv (fun a b => a + hour_ns <= b) hp_time).
  rewrite map_map. cbn [hp_time]. rewrite map_id. apply hour_bins_sorted.
Qed.

Lemma StronglySorted_app_inv {A} (R : A -> A -> Prop) (l1 l2 : list A) :
  StronglySorted R (l1 ++ l2) ->
  StronglySorted R l1 /\ forall x y, In x l1 -> In y l2 -> R x y.
Proof.
  induction l1 as [|a l1 IH]; cbn [app]; intros H.
  - split; [constructor|]. intros x y [].
  - inversion H as [|? ? Hl Ha]; subst. destruct (IH Hl) as [Hs Hxy].
    rewrite List.Forall_forall in Ha. split.
    + constructor; [exact Hs|]. apply List.Forall_forall. intros x Hx.
      apply Ha. apply in_or_app. now left.
    + intros x y [<-|Hx] Hy; [|now apply Hxy].
      apply Ha. apply in_or_app. now right.
Qed.

(** X16. The chart under the metrics shows at most eight hours, in
    ascending order, and they are the earliest complete hours of the frame,
    not the latest: an hour of [hourly_data] that is not on the chart is
    left out only when eight are shown, and comes after every hour shown.
    The temperatures written over the points are those of the points, in
    the unit asked for. *)
Theorem hero_forecast_earliest (df : list frame) (use_fahrenheit : bool)
    (points : list hourly_point) (temp_data : list float) :
  hero_forecast df use_fahrenheit = Ok (Forecast points temp_data) ->
  points <> [] /\
  (length points <= 8)%nat /\
  StronglySorted (fun p q => hp_time p + hour_ns <= hp_time q) points /\
  temp_data = map (fun p => temp_display (hp_temperature_c p) use_fahrenheit) points /\
  exists hourly later,
    hourly_data df = Ok hourly /\
    hourly = points ++ later /\
    (later <> [] -> length points = 8%nat) /\
    forall p q, In p points -> In q later -> hp_time p + hour_ns <= hp_time q.
Proof.
  intros H. unfold hero_forecast in H.
  destruct df as [|r df]; [discriminate|].
  apply bind_Ok_inv in H. destruct H as (hourly & Hhourly & H).
  destruct hourly as [|p0 hourly]; [discriminate|].
  cbv zeta in H. set (shown := firstn 8 (p0 :: hourly)) in H.
  injection H as <- <-.
  pose proof (hourly_data_sorted _ _ Hhourly) as Hsorted.
  rewrite <- (firstn_skipn 8 (p0 :: hourly)) in Hsorted.
  destruct (StronglySorted_app_inv _ _ _ Hsorted) as [Hfirst Hlater].
  split; [subst shown; cbn [firstn]; discriminate|].
  split; [apply firstn_le_length|].
  split; [exact Hfirst|]. split; [reflexivity|].
  exists (p0 :: hourly), (skipn 8 (p0 :: hourly)).
  split; [exact Hhourly|]. split; [symmetry; apply firstn_skipn|].
  split; [|exact Hlater].
  intros Hne. apply firstn_length_le.
  destruct (Nat.le_gt_cases 8 (length (p0 :: hourly))) as [Hle|Hlt]; [exact Hle|].
  exfalso. apply Hne. apply skipn_all2. lia.
Qed.

Lemma hero_forecast_earliest_witness :
  ten_hours_points <> [] /\
  (length ten_hours_points <= 8)%nat /\
  StronglySorted (fun p q => hp_time p + hour_ns <= hp_time q) ten_hours_points /\
  map (fun p => hp_temperature_c p) ten_hours_points
  = map (fun p => temp_display (hp_temperature_c p) false) ten_hours_points /\
  exists hourly later,
    hourly_data ten_hours = Ok hourly /\
    hourly = ten_hours_points ++ later /\
    (later <> [] -> length ten_hours_points = 8%nat) /\
    forall p q, In p ten_hours_points -> In q later ->
                hp_time p + hour_ns <= hp_time q.
Proof.
  apply (hero_forecast_earliest ten_hours false ten_hours_points
           (map (fun p => hp_temperature_c p) ten_hours_points)).
  vm_compute. reflexivity.
Defined.

(** ** The automatic refresh *)

Lemma cache_clears_after (nows : list Z) (last : Z) (c : Z) :
  In c (cache_clears nows (Some last)) -> last + refresh_us <= c.
Proof.
  revert last. induction nows as [|now nows IH]; intros last Hc; [contradiction|].
  cbn [cache_clears auto_refresh] in Hc.
  destruct (refresh_us <=? now - last) eqn:Hdue.
  - apply Z.leb_le in Hdue. destruct Hc as [<-|Hc]; [lia|].
    specialize (IH now Hc). unfold refresh_us in *. lia.
  - exact (IH last Hc).
Qed.

Lemma cache_clears_sorted (nows : list Z) (last_refresh : option Z) :
  StronglySorted (fun a b => a + refresh_us <= b) (cache_clears nows last_refresh).
Proof.
  revert last_refresh. induction nows as [|now nows IH]; intros last_refresh;
    [constructor|].
  cbn [cache_clears]. destruct last_refresh as [last|]; cbn [auto_refresh].
  - destruct (refresh_us <=? now - last); [|apply IH].
    constructor; [apply IH|]. apply List.Forall_forall. intros c Hc.
    exact (cache_clears_after _ _ _ Hc).
  - apply IH.
Qed.

(** X17. The refresh is not a timer: the cache is cleared only in a run of
    the script, and two clearings of a session are at least 120 seconds
    apart, whatever the times of the runs are.  A clearing comes at least
    120 seconds after the refresh time the session holds; the first run of a
    session clears nothing, and every clearing comes in a later run, at least
    120 seconds after the first. *)
Theorem cache_cleared_two_minutes_apart (nows : list Z) (last_refresh : option Z) :
  StronglySorted (fun a b => a + refresh_us <= b) (cache_clears nows last_refresh) /\
  (forall c, In c (cache_clears nows last_refresh) -> In c nows) /\
  (forall last c, last_refresh = Some last -> In c (cache_clears nows last_refresh) ->
                  last + refresh_us <= c) /\
  (forall now nows' c, nows = now :: nows' -> last_refresh = None ->
                       In c (cache_clears nows last_refresh) ->
                       In c nows' /\ now + refresh_us <= c).
Proof.
  split; [apply cache_clears_sorted|]. split; [|split].
  - revert last_refresh. induction nows as [|now nows IH]; intros last_refresh c Hc;
      [contradiction|].
    cbn [cache_clears] in Hc.
    destruct (auto_refresh now last_refresh) as [last' cleared].
    destruct cleared.
    + destruct Hc as [<-|Hc]; [now left|right; exact (IH _ _ Hc)].
    + right. exact (IH _ _ Hc).
  - intros last c -> Hc. exact (cache_clears_after _ _ _ Hc).
  - intros now nows' c -> -> Hc. cbn [cache_clears auto_refresh] in Hc. split.
    + revert Hc. generalize (Some now). clear. induction nows' as [|n nows' IH];
        intros last_refresh Hc; [contradiction|].
      cbn [cache_clears] in Hc.
      destruct (auto_refresh n last_refresh) as [last' cleared]. destruct cleared.
      * destruct Hc as [<-|Hc]; [now left|right; exact (IH _ Hc)].
      * right. exact (IH _ Hc).
    + exact (cache_clears_after _ _ _ Hc).
Qed.

(** ** The password in the URL of the pipeline *)

Ltac each_byte c := destruct c as [[] [] [] [] [] [] [] []].

Lemma replace_space_step (c : ascii) (rest : string) :
  replace_from " " "+"
    (String.append (if always_safe c || in_str c " " then String c EmptyString
                    else percent c) rest) 0
  = String.append (encoded_byte c) (replace_from " " "+" rest 0).
Proof. each_byte c; try reflexivity. destruct rest; reflexivity. Qed.

Lemma replace_space_quote (s : string) :
  str_replace " " "+" (quote_from_bytes s " ") = encoded s.
Proof.
  unfold str_replace. induction s as [|c s IH]; [reflexivity|].
  cbn [quote_from_bytes encoded]. rewrite replace_space_step, IH. reflexivity.
Qed.

Lemma quote_step (c : ascii) :
  c <> " "%char ->
  (if always_safe c || in_str c "" then String c EmptyString else percent c)
  = encoded_byte c.
Proof. intros Hc. each_byte c; try reflexivity. now contradiction Hc. Qed.

Lemma no_space_quote (s : string) :
  str_contains " " s = false -> quote_from_bytes s "" = encoded s.
Proof.
  induction s as [|c s IH]; [reflexivity|].
  cbn [str_contains]. intros H. apply orb_false_iff in H. destruct H as [Hhead Htail].
  cbn [quote_from_bytes encoded]. rewrite (IH Htail), quote_step; [reflexivity|].
  intros ->. destruct s; cbn in Hhead; discriminate Hhead.
Qed.

Lemma quote_plus_encoded (s : string) :
  quote_plus s = if utf8_valid s then Ok (encoded s) else Raise UnicodeEncodeError.
Proof.
  unfold quote_plus, quote, encode_utf8.
  destruct (utf8_valid s); destruct (str_contains " " s) eqn:Hs; cbn [negb];
    try reflexivity.
  - rewrite (bind_Ok s), (bind_Ok (quote_from_bytes s " ")). f_equal.
    apply replace_space_quote.
  - rewrite (bind_Ok s). f_equal. now apply no_space_quote.
Qed.

Lemma safe_utf8_valid (s : string) : str_forall always_safe s = true -> utf8_valid s = true.
Proof.
  unfold utf8_valid. induction s as [|c s IH]; [reflexivity|].
  cbn [str_forall utf8_tail]. intros H. apply andb_true_iff in H. destruct H as [Hc Hs].
  assert (Hascii : (Ascii.N_of_ascii c <=? 127)%N = true).
  { revert Hc. clear. each_byte c; intros H; try reflexivity; discriminate H. }
  rewrite Hascii. exact (IH Hs).
Qed.






Lemma encoded_safe (s : string) : str_forall always_safe s = true -> encoded s = s.
Proof.
  induction s as [|c s IH]; [reflexivity|].
  cbn [str_forall encoded]. intros H. apply andb_true_iff in H. destruct H as [Hc Hs].
  unfold encoded_byte. rewrite Hc, (IH Hs). reflexivity.
Qed.

(** A password with a separator of the URL, a space and a slash in it. *)
Example quote_plus_scenario : quote_plus "p@ss w/rd" = Ok "p%40ss+w%2Frd"%string.
Proof. reflexivity. Qed.

(** A password in UTF-8 ("pä") and the same in Latin-1, whose byte 0xE4 is
    not UTF-8. *)
Example quote_plus_bytes :
  quote_plus (String "p" (String (Ascii.ascii_of_N 195) (String (Ascii.ascii_of_N 164) "")))
  = Ok "p%C3%A4"%string /\
  quote_plus (String "p" (String (Ascii.ascii_of_N 228) "")) = Raise UnicodeEncodeError.
Proof. split; reflexivity. Qed.


(** ** The configuration of the dashboard *)

Lemma append_assoc (a b c : string) :
  String.append (String.append a b) c = String.append a (String.append b c).
Proof.
  induction a as [|x a IH]; [reflexivity|].
  change (String x (String.append (String.append a b) c)
          = String x (String.append a (String.append b c))).
  now rewrite IH.
Qed.

Lemma get_env_variable_set (environ : gmap string string) (name value : string) :
  environ !! name = Some value -> get_env_variable environ name None = inr value.
Proof. unfold get_env_variable. now intros ->. Qed.

Lemma get_env_variable_unset (environ : gmap string string) (name : string) :
  environ !! name = None ->
  get_env_variable environ name None
  = inl (RuntimeError
           (String.append "Environment variable " (String.append name " is required"))).
Proof. unfold get_env_variable. now intros ->. Qed.

(** X19. [get_engine] needs all of [DB_HOST], [DB_USER], [DB_PASSWORD],
    [DB_DBNAME] and [DB_PORT]: it returns exactly when the five are set, an
    empty value counting as set, and otherwise its error names the first of
    them, in that order, that is not.  When it returns, [DB_DBNAME] is
    [postgres] and the password needs no encoding, the pipeline connects to
    the same URL, with [?sslmode=require] added. *)
Theorem get_engine_needs_all (environ : gmap string string) :
  ((exists url, get_engine environ = inr url) <->
   forall name, In name engine_variables -> is_Some (environ !! name)) /\
  (forall message,
     get_engine environ = inl (RuntimeError message) ->
     exists before name after,
       engine_variables = before ++ name :: after /\
       environ !! name = None /\
       (forall n, In n before -> is_Some (environ !! n)) /\
       message = String.append "Environment variable " (String.append name " is required")) /\
  (forall url,
     get_engine environ = inr url ->
     environ !! "DB_DBNAME"%string = Some "postgres"%string ->
     str_forall always_safe (getenv environ "DB_PASSWORD" "") = true ->
     _pg_url_from_env environ "postgres" = Ok (String.append url "?sslmode=require")).
Proof.
  unfold get_engine, engine_variables.
  destruct (environ !! "DB_HOST"%string) as [host|] eqn:Hhost.
  2:{ rewrite (get_env_variable_unset _ _ Hhost). cbn [and_then]. split; [|split].
      - split; [intros [url Hurl]; discriminate|].
        intros H. destruct (H "DB_HOST"%string) as [v Hv]; [simpl; tauto|congruence].
      - intros message [= <-]. exists [], "DB_HOST"%string, (tl engine_variables).
        split; [reflexivity|]. split; [exact Hhost|]. split; [intros n []|reflexivity].
      - discriminate. }
  rewrite (get_env_variable_set _ _ _ Hhost). cbn [and_then].
  destruct (environ !! "DB_USER"%string) as [user|] eqn:Huser.
  2:{ rewrite (get_env_variable_unset _ _ Huser). cbn [and_then]. split; [|split].
      - split; [intros [url Hurl]; discriminate|].
        intros H. destruct (H "DB_USER"%string) as [v Hv]; [simpl; tauto|congruence].
      - intros message [= <-]. exists ["DB_HOST"%string], "DB_USER"%string,
          ["DB_PASSWORD"; "DB_DBNAME"; "DB_PORT"]%string.
        split; [reflexivity|]. split; [exact Huser|]. split; [|reflexivity].
        intros n [<-|[]]. eauto.
      - discriminate. }
  rewrite (get_env_variable_set _ _ _ Huser). cbn [and_then].
  destruct (environ !! "DB_PASSWORD"%string) as [password|] eqn:Hpassword.
  2:{ rewrite (get_env_variable_unset _ _ Hpassword). cbn [and_then]. split; [|split].
      - split; [intros [url Hurl]; discriminate|].
        intros H. destruct (H "DB_PASSWORD"%string) as [v Hv]; [simpl; tauto|congruence].
      - intros message [= <-]. exists ["DB_HOST"; "DB_USER"]%string, "DB_PASSWORD"%string,
          ["DB_DBNAME"; "DB_PORT"]%string.
        split; [reflexivity|]. split; [exact Hpassword|]. split; [|reflexivity].
        intros n [<-|[<-|[]]]; eauto.
      - discriminate. }
  rewrite (get_env_variable_set _ _ _ Hpassword). cbn [and_then].
  destruct (environ !! "DB_DBNAME"%string) as [db|] eqn:Hdb.
  2:{ rewrite (get_env_variable_unset _ _ Hdb). cbn [and_then]. split; [|split].
      - split; [intros [url Hurl]; discriminate|].
        intros H. destruct (H "DB_DBNAME"%string) as [v Hv]; [simpl; tauto|congruence].
      - intros message [= <-].
        exists ["DB_HOST"; "DB_USER"; "DB_PASSWORD"]%string, "DB_DBNAME"%string,
          ["DB_PORT"%string].
        split; [reflexivity|]. split; [exact Hdb|]. split; [|reflexivity].
        intros n [<-|[<-|[<-|[]]]]; eauto.
      - discriminate. }
  rewrite (get_env_variable_set _ _ _ Hdb). cbn [and_then].
  destruct (environ !! "DB_PORT"%string) as [port|] eqn:Hport.
  2:{ rewrite (get_env_variable_unset _ _ Hport). cbn [and_then]. split; [|split].
      - split; [intros [url Hurl]; discriminate|].
        intros H. destruct (H "DB_PORT"%string) as [v Hv]; [simpl; tauto|congruence].
      - intros message [= <-].
        exists ["DB_HOST"; "DB_USER"; "DB_PASSWORD"; "DB_DBNAME"]%string, "DB_PORT"%string, [].
        split; [reflexivity|]. split; [exact Hport|]. split; [|reflexivity].
        intros n [<-|[<-|[<-|[<-|[]]]]]; eauto.
      - discriminate. }
  rewrite (get_env_variable_set _ _ _ Hport). cbn [and_then]. split; [|split].
  - split; [|eauto]. intros _ name Hname. simpl in Hname.
    destruct Hname as [<-|[<-|[<-|[<-|[<-|[]]]]]]; eauto.
  - discriminate.
  - intros url [= <-] [= ->] Hsafe. unfold _pg_url_from_env, getenv in *.
    rewrite Hhost, Huser, Hpassword, Hport in *.
    rewrite quote_plus_encoded, (safe_utf8_valid _ Hsafe), (bind_Ok (encoded password)).
    rewrite (encoded_safe _ Hsafe).
    repeat rewrite append_assoc. reflexivity.
Qed.

(** ** The window of the page *)

(** A page drawn on 2023-11-15 shows the 14th and the 15th. *)
Example date_range_scenario : date_range page_now = (window_start, window_end).
Proof. reflexivity. Qed.

(** X20. The window [main] queries is yesterday and today, two days less
    one microsecond: it holds the moment of the run and everything stamped
    in the 24 hours before it, and nothing stamped 48 hours or more before
    the run or a day or more after it. *)
Theorem date_range_last_day (now ts : Z) :
  now mod microsecond_ns = 0 ->
  (now - day_ns <= ts <= now ->
   fst (date_range now) <= ts <= snd (date_range now)) /\
  (fst (date_range now) <= ts <= snd (date_range now) ->
   now - 2 * day_ns < ts < now + day_ns) /\
  snd (date_range now) - fst (date_range now) = 2 * day_ns - microsecond_ns.
Proof.
  intros Hus. unfold date_range, today. cbn [fst snd].
  assert (Hday : 0 < day_ns) by reflexivity.
  pose proof (Z.mul_div_le now day_ns Hday) as Hlo.
  pose proof (Z.mul_succ_div_gt now day_ns Hday) as Hhi.
  assert (Hend : now <= now / day_ns * day_ns + day_ns - microsecond_ns).
  { apply Z.mod_divide in Hus; [|discriminate]. destruct Hus as [q Hq].
    revert Hlo Hhi. generalize (now / day_ns). intros d Hlo Hhi.
    unfold day_ns, hour_ns, microsecond_ns in *. lia. }
  revert Hlo Hhi Hend. generalize (now / day_ns). intros d Hlo Hhi Hend.
  unfold day_ns, hour_ns, microsecond_ns in *. lia.
Qed.

Lemma date_range_last_day_witness :
  (page_now - day_ns <= sample_now <= page_now ->
   fst (date_range page_now) <= sample_now <= snd (date_range page_now)) /\
  (fst (date_range page_now) <= sample_now <= snd (date_range page_now) ->
   page_now - 2 * day_ns < sample_now < page_now + day_ns) /\
  snd (date_range page_now) - fst (date_range page_now) = 2 * day_ns - microsecond_ns.
Proof. apply (date_range_last_day page_now sample_now). reflexivity. Defined.
